(** * NAT example of nff-go: the translation engine of
      [examples/nat/translation.go]

    A shallow embedding of the ingress and egress translation functions, of
    the TCP termination tracker and of the ARP and ICMP handlers, followed
    by the properties of the design document that concern them.

    Conventions.
    - Fixed-width unsigned integers are [Z] values in their range; the
      operations that can leave the range write their wrap-around out.
    - [time.Time] is a [Z] count of nanoseconds since Go's zero [Time], so
      that the zero value of a [time.Time] field is [0]; one invocation of
      a translation function reads a single instant [now], and
      [time.Since t] is [now - t].
    - [sync.Map] tables are [gmap]s; the tables indexed by protocol are
      keyed by the pair (protocol, key).
    - The mutex of a [portPair] serialises writers; the embedding is
      sequential, so [mutex_Lock] and [mutex_Unlock] only mark the places
      where the source takes and releases it. *)

From stdpp Require Import gmap strings list.
From Stdlib Require Import ZArith Lia.
From coqutil Require Import Z.bitblast.

Open Scope Z_scope.

(** ** Package [common]: protocol constants *)

(** Modelled from the spec: package [common] is not under src/.  Its
    constants are the numbers the standards assign to the protocols the
    design document names (IPv4 protocol numbers, TCP flag bits, ICMP
    message types, the length of a link-layer address). *)
Module common.
Definition EtherAddrLen : nat := 6.
Definition ICMPNumber : Z := 0x01.
Definition TCPNumber : Z := 0x06.
Definition UDPNumber : Z := 0x11.
Definition TCPFlagFin : Z := 0x01.
Definition TCPFlagSyn : Z := 0x02.
Definition TCPFlagRst : Z := 0x04.
Definition TCPFlagPsh : Z := 0x08.
Definition TCPFlagAck : Z := 0x10.
Definition ICMPTypeEchoRequest : Z := 8.
Definition ICMPTypeEchoResponse : Z := 0.
End common.

(** ** Package [packet]: headers and the byte-order helpers *)

(** A link-layer address, [[common.EtherAddrLen]byte]. *)
Definition macAddress : Type := list Z.

Definition zeroMAC : macAddress := replicate common.EtherAddrLen 0.

(** A protocol address as it is carried in an ARP header, [[4]byte]. *)
Definition ipv4Array : Type := (Z * Z * Z * Z)%type.

Record EtherHdr := mkEtherHdr {
  DAddr : macAddress;
  SAddr : macAddress }.

Record VLANHdr := mkVLANHdr { TCI : Z }.

Record IPv4Hdr := mkIPv4Hdr {
  NextProtoID : Z;
  HdrChecksum : Z;
  SrcAddr : Z;
  DstAddr : Z }.

Record TCPHdr := mkTCPHdr {
  tcpSrcPort : Z;
  tcpDstPort : Z;
  TCPFlags : Z;
  tcpCksum : Z }.

Record UDPHdr := mkUDPHdr {
  udpSrcPort : Z;
  udpDstPort : Z;
  udpCksum : Z }.

Record ICMPHdr := mkICMPHdr {
  icmpType : Z;
  icmpCode : Z;
  icmpCksum : Z;
  Identifier : Z;
  SeqNum : Z }.

Record ARPHdr := mkARPHdr {
  Operation : Z;
  SHA : macAddress;
  SPA : ipv4Array;
  THA : macAddress;
  TPA : ipv4Array }.

(** What follows the IPv4 header: the bytes of the packet seen through
    the header type they were built with. *)
Inductive L4Hdr :=
| L4TCP (h : TCPHdr)
| L4UDP (h : UDPHdr)
| L4ICMP (h : ICMPHdr)
| L4Other.

Inductive L3Hdr :=
| L3IPv4 (h : IPv4Hdr) (l4 : L4Hdr)
| L3ARP (h : ARPHdr)
| L3Other.

Record Packet := mkPacket {
  Ether : EtherHdr;
  VLAN : option VLANHdr;
  L3 : L3Hdr }.

Global Instance EtherHdr_eq_dec : EqDecision EtherHdr.
Proof. solve_decision. Defined.
Global Instance VLANHdr_eq_dec : EqDecision VLANHdr.
Proof. solve_decision. Defined.
Global Instance IPv4Hdr_eq_dec : EqDecision IPv4Hdr.
Proof. solve_decision. Defined.
Global Instance TCPHdr_eq_dec : EqDecision TCPHdr.
Proof. solve_decision. Defined.
Global Instance UDPHdr_eq_dec : EqDecision UDPHdr.
Proof. solve_decision. Defined.
Global Instance ICMPHdr_eq_dec : EqDecision ICMPHdr.
Proof. solve_decision. Defined.
Global Instance ARPHdr_eq_dec : EqDecision ARPHdr.
Proof. solve_decision. Defined.
Global Instance L4Hdr_eq_dec : EqDecision L4Hdr.
Proof. solve_decision. Defined.
Global Instance L3Hdr_eq_dec : EqDecision L3Hdr.
Proof. solve_decision. Defined.
Global Instance Packet_eq_dec : EqDecision Packet.
Proof. solve_decision. Defined.

(** Modelled from the spec: the header codec of package [packet] is not
    under src/.  The design document (section 6) describes it as typed
    views and mutators of the Ethernet, VLAN, IPv4, TCP, UDP, ICMP and ARP
    fields together with byte-order conversion helpers, every multi-byte
    field being in network order on the wire and in host order once
    converted. *)
Module packet.
Definition ARPRequest : Z := 1.
Definition ARPReply : Z := 2.

Definition SwapBytesUint16 (x : Z) : Z :=
  Z.lor (Z.shiftl (Z.land x 0xff) 8) (Z.land (Z.shiftr x 8) 0xff).

Definition SwapBytesUint32 (x : Z) : Z :=
  Z.lor (Z.lor (Z.shiftl (Z.land x 0xff) 24)
               (Z.shiftl (Z.land x 0xff00) 8))
        (Z.lor (Z.shiftr (Z.land x 0xff0000) 8)
               (Z.land (Z.shiftr x 24) 0xff)).

Definition BytesToIPv4 (a b c d : Z) : Z :=
  Z.lor (Z.lor (Z.lor (Z.shiftl d 24) (Z.shiftl c 16)) (Z.shiftl b 8)) a.

(** [a[0]], [a[1]], [a[2]], [a[3]] *)
Definition byte0 (a : ipv4Array) : Z := let '(a0, _, _, _) := a in a0.
Definition byte1 (a : ipv4Array) : Z := let '(_, a1, _, _) := a in a1.
Definition byte2 (a : ipv4Array) : Z := let '(_, _, a2, _) := a in a2.
Definition byte3 (a : ipv4Array) : Z := let '(_, _, _, a3) := a in a3.

Definition ArrayToIPv4 (a : ipv4Array) : Z :=
  Z.lor (Z.lor (Z.lor (Z.shiftl (byte3 a) 24) (Z.shiftl (byte2 a) 16))
             (Z.shiftl (byte1 a) 8)) (byte0 a).

Definition IPv4ToBytes (v : Z) : ipv4Array :=
  (Z.land v 0xff, Z.land (Z.shiftr v 8) 0xff,
   Z.land (Z.shiftr v 16) 0xff, Z.land (Z.shiftr v 24) 0xff).

Definition broadcastMAC : macAddress := replicate common.EtherAddrLen 0xff.

(** The views a parsed packet offers.  The checked getters answer
  [None] where the source gets a nil pointer. *)
Definition GetIPv4CheckVLAN (pkt : Packet) : option IPv4Hdr :=
  match L3 pkt with L3IPv4 h _ => Some h | _ => None end.

Definition GetARPCheckVLAN (pkt : Packet) : option ARPHdr :=
  match L3 pkt with L3ARP h => Some h | _ => None end.

Definition ParseL3CheckVLAN (pkt : Packet) : option VLANHdr := VLAN pkt.

Definition GetVLAN (pkt : Packet) : option VLANHdr := VLAN pkt.

Definition ParseAllKnownL4ForIPv4 (pkt : Packet)
  : option TCPHdr * option UDPHdr * option ICMPHdr :=
  match L3 pkt with
  | L3IPv4 h (L4TCP t) =>
      if NextProtoID h =? common.TCPNumber then (Some t, None, None)
      else (None, None, None)
  | L3IPv4 h (L4UDP u) =>
      if NextProtoID h =? common.UDPNumber then (None, Some u, None)
      else (None, None, None)
  | L3IPv4 h (L4ICMP i) =>
      if NextProtoID h =? common.ICMPNumber then (None, None, Some i)
      else (None, None, None)
  | _ => (None, None, None)
  end.

(** Mutators: the source writes through the header pointers; here the
  packet that results is returned. *)
Definition setEther (pkt : Packet) (e : EtherHdr) : Packet :=
  mkPacket e (VLAN pkt) (L3 pkt).

Definition setVLAN (pkt : Packet) (v : option VLANHdr) : Packet :=
  mkPacket (Ether pkt) v (L3 pkt).

Definition mapIPv4 (f : IPv4Hdr -> IPv4Hdr) (pkt : Packet) : Packet :=
  match L3 pkt with
  | L3IPv4 h l4 => mkPacket (Ether pkt) (VLAN pkt) (L3IPv4 (f h) l4)
  | _ => pkt
  end.

Definition mapL4 (f : L4Hdr -> L4Hdr) (pkt : Packet) : Packet :=
  match L3 pkt with
  | L3IPv4 h l4 => mkPacket (Ether pkt) (VLAN pkt) (L3IPv4 h (f l4))
  | _ => pkt
  end.

(** [InitARPReplyPacket packet SHA THA SPA TPA]: an ARP reply from
  [SHA]/[SPA] to [THA]/[TPA], sent to [THA]. *)
Definition InitARPReplyPacket (SHA THA : macAddress) (SPA TPA : Z) : Packet :=
  mkPacket (mkEtherHdr THA SHA) None
    (L3ARP (mkARPHdr (SwapBytesUint16 ARPReply)
              SHA (IPv4ToBytes SPA) THA (IPv4ToBytes TPA))).

(** [InitARPRequestPacket packet SHA SPA TPA]: a broadcast ARP request
  for [TPA] with a blank target hardware address. *)
Definition InitARPRequestPacket (SHA : macAddress) (SPA TPA : Z) : Packet :=
  mkPacket (mkEtherHdr broadcastMAC SHA) None
    (L3ARP (mkARPHdr (SwapBytesUint16 ARPRequest)
              SHA (IPv4ToBytes SPA) zeroMAC (IPv4ToBytes TPA))).
End packet.

(** ** The state of the translator *)

(** Tuple is a pair of address and port. *)
Record Tuple := mkTuple {
  addr : Z;
  port : Z }.

Global Instance Tuple_eq_dec : EqDecision Tuple.
Proof. solve_decision. Defined.

Global Instance Tuple_countable : Countable Tuple.
Proof.
  apply (inj_countable' (fun t => (addr t, port t))
                        (fun p => mkTuple (fst p) (snd p))).
  by intros [].
Defined.

(** The disposition a translation function answers to the flow graph. *)
Inductive Dir := dirDROP | dirSEND | dirKNI.

Global Instance Dir_eq_dec : EqDecision Dir.
Proof. solve_decision. Defined.

(** The bookkeeping record of one public port.  The field [pm_addr] is
    the source's [addr]; [terminationDirection] holds a [uint8]. *)
Record portMapEntry := mkPortMapEntry {
  lastused : Z;
  pm_addr : Z;
  finCount : Z;
  terminationDirection : Z;
  static : bool }.

(** The zero value [portMapEntry{}]. *)
Definition zeroPortMapEntry : portMapEntry := mkPortMapEntry 0 0 0 0 false.

Global Instance portMapEntry_eq_dec : EqDecision portMapEntry.
Proof. solve_decision. Defined.

Global Instance portMapEntry_inhabited : Inhabited portMapEntry :=
  populate zeroPortMapEntry.

(** One attachment point.  [portmap] is the array of arrays
    [portmap[protocol][port]], every slot of which holds the zero value
    until it is written; [Subnet_Addr] is the source's [Subnet.Addr]. *)
Record ipv4Port := mkIpv4Port {
  Index : Z;
  Subnet_Addr : Z;
  SrcMACAddress : macAddress;
  Vlan : Z;
  KNIName : string;
  arpTable : gmap Z macAddress;
  portmap : gmap (Z * Z) portMapEntry;
  translationTable : gmap (Z * Tuple) Tuple }.

Record portPair := mkPortPair {
  PrivatePort : ipv4Port;
  PublicPort : ipv4Port }.

(** A pointer to one of the two attachment points of the pair; the
    source's [port.opposite] is [opposite port]. *)
Inductive portRef := Private | Public.

Definition opposite (r : portRef) : portRef :=
  match r with Private => Public | Public => Private end.

Definition deref (pp : portPair) (r : portRef) : ipv4Port :=
  match r with Private => PrivatePort pp | Public => PublicPort pp end.

Definition assign (pp : portPair) (r : portRef) (p : ipv4Port) : portPair :=
  match r with
  | Private => mkPortPair p (PublicPort pp)
  | Public => mkPortPair (PrivatePort pp) p
  end.

Definition set_arpTable (p : ipv4Port) (t : gmap Z macAddress) : ipv4Port :=
  mkIpv4Port (Index p) (Subnet_Addr p) (SrcMACAddress p) (Vlan p) (KNIName p)
    t (portmap p) (translationTable p).

Definition set_portmap (p : ipv4Port) (m : gmap (Z * Z) portMapEntry) : ipv4Port :=
  mkIpv4Port (Index p) (Subnet_Addr p) (SrcMACAddress p) (Vlan p) (KNIName p)
    (arpTable p) m (translationTable p).

Definition set_translationTable (p : ipv4Port) (t : gmap (Z * Tuple) Tuple)
  : ipv4Port :=
  mkIpv4Port (Index p) (Subnet_Addr p) (SrcMACAddress p) (Vlan p) (KNIName p)
    (arpTable p) (portmap p) t.

(** [port.portmap[protocol][p]] *)
Definition pm_get (p : ipv4Port) (protocol prt : Z) : portMapEntry :=
  portmap p !!! (protocol, prt).

(** [port.portmap[protocol][p] = e] *)
Definition pm_set (p : ipv4Port) (protocol prt : Z) (e : portMapEntry)
  : ipv4Port :=
  set_portmap p (<[(protocol, prt) := e]> (portmap p)).

Definition set_lastused (e : portMapEntry) (t : Z) : portMapEntry :=
  mkPortMapEntry t (pm_addr e) (finCount e) (terminationDirection e) (static e).

Definition set_fin (e : portMapEntry) (n : Z) (d : Z) : portMapEntry :=
  mkPortMapEntry (lastused e) (pm_addr e) n d (static e).

(** [port.translationTable[protocol].Load(key)] *)
Definition tt_Load (p : ipv4Port) (protocol : Z) (key : Tuple) : option Tuple :=
  translationTable p !! (protocol, key).

(** [port.translationTable[protocol].Store(key, value)] *)
Definition tt_Store (p : ipv4Port) (protocol : Z) (key value : Tuple)
  : ipv4Port :=
  set_translationTable p (<[(protocol, key) := value]> (translationTable p)).

(** [port.translationTable[protocol].Delete(key)] *)
Definition tt_Delete (p : ipv4Port) (protocol : Z) (key : Tuple) : ipv4Port :=
  set_translationTable p (delete (protocol, key) (translationTable p)).

(** ** What a call can observe and cause *)

(** What leaves a call besides its result: packets handed to
    [SendPacket], packets handed to the debug dump, and warnings. *)
Inductive Event :=
| EvDump (index : Z) (pkt : Packet) (dir : Dir)
| EvSend (index : Z) (pkt : Packet)
| EvWarn (msg : string).

(** What a call reads from its surroundings: the clock, and whether the
    packet pool can provide a buffer for a synthesized packet. *)
Record Env := mkEnv {
  now : Z;
  mbufAvailable : bool }.

Record World := mkWorld {
  pp : portPair;
  out : list Event }.

(** A call either returns or ends the process ([common.LogFatal]). *)
Inductive Res (A : Type) :=
| Ok (a : A) (w : World)
| Fatal.
Arguments Ok {A} a w.
Arguments Fatal {A}.

Definition M (A : Type) : Type := Env -> World -> Res A.

Definition ret {A} (a : A) : M A := fun _ w => Ok a w.

Definition bind {A B} (m : M A) (k : A -> M B) : M B :=
  fun e w => match m e w with
             | Ok a w' => k a e w'
             | Fatal => Fatal
             end.

Declare Scope nat_scope_m.
Delimit Scope nat_scope_m with M.
Notation "'let*' x := m 'in' k" := (bind m (fun x => k))
  (at level 10, x pattern, m at level 100, k at level 200) : nat_scope_m.
Notation "m ;;; k" := (bind m (fun _ => k))
  (at level 100, k at level 200, right associativity) : nat_scope_m.
Bind Scope nat_scope_m with M.
Open Scope nat_scope_m.

Definition timeNow : M Z := fun e w => Ok (now e) w.

Definition getPort (r : portRef) : M ipv4Port :=
  fun _ w => Ok (deref (pp w) r) w.

Definition modifyPort (r : portRef) (f : ipv4Port -> ipv4Port) : M unit :=
  fun _ w => Ok tt (mkWorld (assign (pp w) r (f (deref (pp w) r))) (out w)).

Definition emit (ev : Event) : M unit :=
  fun _ w => Ok tt (mkWorld (pp w) (out w ++ [ev])).

(** [packet.NewPacket()] followed by [common.LogFatal] when it fails. *)
Definition NewPacket : M unit :=
  fun e w => if mbufAvailable e then Ok tt w else Fatal.

Definition mutex_Lock : M unit := ret tt.
Definition mutex_Unlock : M unit := ret tt.

(** [time.Since(t)] *)
Definition Since (t : Z) : M Z := fun e w => Ok (now e - t) w.

(** A nil pointer dereference: the Go runtime panics and the process
    ends. *)
Definition panic {A} : M A := fun _ _ => Fatal.

(** [port.dumpPacket(pkt, dir)] *)
Definition dumpPacket (self : portRef) (pkt : Packet) (dir : Dir) : M unit :=
  let* p := getPort self in
  emit (EvDump (Index p) pkt dir).

(** [pkt.SendPacket(index)] *)
Definition SendPacket (pkt : Packet) (index : Z) : M unit :=
  emit (EvSend index pkt).

Definition println (msg : string) : M unit := emit (EvWarn msg).

(** ** Build constants and external services *)

(** The constants of package [nat] that translation.go uses and that are
    declared in files which are not under src/. *)
Class NatConsts := mkNatConsts {
  connectionTimeout : Z;
  portReuseTimeout : Z;
  portStart : Z;
  portEnd : Z;
  pri2pub : Z;
  pub2pri : Z;
  NoCalculateChecksum : bool;
  NoHWTXChecksum : bool }.

(** The services translation.go calls and does not implement: the
    checksum setters (software or hardware offload) and the VLAN tag
    mutators of the header codec. *)
Class Services := mkServices {
  setIPv4TCPChecksum : Packet -> bool -> bool -> Packet;
  setIPv4UDPChecksum : Packet -> bool -> bool -> Packet;
  setIPv4ICMPChecksum : Packet -> bool -> bool -> Packet;
  SetVLANTagIdentifier : VLANHdr -> Z -> VLANHdr;
  AddVLANTag : Packet -> Z -> Packet }.

(** [^d] on a [uint8]. *)
Definition not8 (d : Z) : Z := Z.lnot d mod 2 ^ 8.

(** [uint16(n)] *)
Definition uint16 (n : Z) : Z := n mod 2 ^ 16.

(** The unchecked getters reinterpret the bytes of the packet; they are
    only called on packets of the right kind, the zero header stands for
    what they would read elsewhere. *)
Definition GetIPv4NoCheck (pkt : Packet) : IPv4Hdr :=
  match L3 pkt with L3IPv4 h _ => h | _ => mkIPv4Hdr 0 0 0 0 end.

Definition GetICMPNoCheck (pkt : Packet) : ICMPHdr :=
  match L3 pkt with L3IPv4 _ (L4ICMP i) => i | _ => mkICMPHdr 0 0 0 0 0 end.

Definition GetARPNoCheck (pkt : Packet) : ARPHdr :=
  match L3 pkt with
  | L3ARP h => h
  | _ => mkARPHdr 0 zeroMAC (0, 0, 0, 0) zeroMAC (0, 0, 0, 0)
  end.

(** Modelled from the spec: [swapAddrIPv4] is not under src/.  Section
    4.6 of the design document: the echo reply is synthesized by swapping
    source/destination addressing; the link-layer and the IPv4 source and
    destination change places. *)
Definition swapAddrIPv4 (pkt : Packet) : Packet :=
  let e := Ether pkt in
  packet.mapIPv4
    (fun h => mkIPv4Hdr (NextProtoID h) (HdrChecksum h) (DstAddr h) (SrcAddr h))
    (packet.setEther pkt (mkEtherHdr (SAddr e) (DAddr e))).

Definition setICMPType (t : Z) (l4 : L4Hdr) : L4Hdr :=
  match l4 with
  | L4ICMP i =>
      L4ICMP (mkICMPHdr t (icmpCode i) (icmpCksum i) (Identifier i) (SeqNum i))
  | _ => l4
  end.

Definition setICMPIdentifier (v : Z) (l4 : L4Hdr) : L4Hdr :=
  match l4 with
  | L4ICMP i =>
      L4ICMP (mkICMPHdr (icmpType i) (icmpCode i) (icmpCksum i) v (SeqNum i))
  | _ => l4
  end.

Definition setDstPort (v : Z) (l4 : L4Hdr) : L4Hdr :=
  match l4 with
  | L4TCP t => L4TCP (mkTCPHdr (tcpSrcPort t) v (TCPFlags t) (tcpCksum t))
  | L4UDP u => L4UDP (mkUDPHdr (udpSrcPort u) v (udpCksum u))
  | _ => l4
  end.

Definition setSrcPort (v : Z) (l4 : L4Hdr) : L4Hdr :=
  match l4 with
  | L4TCP t => L4TCP (mkTCPHdr v (tcpDstPort t) (TCPFlags t) (tcpCksum t))
  | L4UDP u => L4UDP (mkUDPHdr v (udpDstPort u) (udpCksum u))
  | _ => l4
  end.

Definition setDstAddr (v : Z) (h : IPv4Hdr) : IPv4Hdr :=
  mkIPv4Hdr (NextProtoID h) (HdrChecksum h) (SrcAddr h) v.

Definition setSrcAddr (v : Z) (h : IPv4Hdr) : IPv4Hdr :=
  mkIPv4Hdr (NextProtoID h) (HdrChecksum h) v (DstAddr h).

(** ** The functions of translation.go *)

Section Translation.
Context `{NatConsts} `{Services}.

(** Modelled from the spec: [deleteOldConnection] is not under src/.
    Section 4.2 of the design document, [remove(protocol, public_port)]:
    deletes both the public-to-private and the private-to-public entries
    associated with that port, and frees the PortState slot.  The public
    pair of a port is its owner address (section 3) with the port number;
    a freed slot holds the zero [portMapEntry]. *)
Definition deleteOldConnection (protocol prt : Z) : M unit :=
  let* pub := getPort Public in
  let pub2priKey := mkTuple (pm_addr (pm_get pub protocol prt)) (uint16 prt) in
  (match tt_Load pub protocol pub2priKey with
   | Some pri2pubKey =>
       modifyPort Private (fun p => tt_Delete p protocol pri2pubKey) ;;;
       modifyPort Public (fun p => tt_Delete p protocol pub2priKey)
   | None => ret tt
   end) ;;;
  modifyPort Public (fun p => pm_set p protocol prt zeroPortMapEntry).

(** A port can be given to a new flow once it is not static and has been
    idle for longer than [connectionTimeout] (sections 3 and 5 of the
    design document: expiry is checked lazily, on the next access). *)
Definition portFree (t : Z) (e : portMapEntry) : bool :=
  negb (static e) && (connectionTimeout <? t - lastused e).

(** Modelled from the spec: [allocNewPort] is not under src/.  Section
    4.1 of the design document: selects the lowest-numbered free port in
    the configured range for that protocol, or fails with pool
    exhaustion; what the port was bound to before is evicted (section
    3). [None] is the error. *)
Definition allocNewPort (protocol : Z) : M (option Z) :=
  let* t := timeNow in
  let* pub := getPort Public in
  match List.find (fun p => portFree t (pm_get pub protocol p))
                  (seqZ portStart (portEnd - portStart)) with
  | Some p => deleteOldConnection protocol p ;;; ret (Some p)
  | None => ret None
  end.

Definition allocateNewEgressConnection (protocol : Z) (privEntry : Tuple)
  : M (option Tuple) :=
  mutex_Lock ;;;
  let* r := allocNewPort protocol in
  match r with
  | None => mutex_Unlock ;;; ret None
  | Some prt =>
      let* pub := getPort Public in
      let publicAddr := Subnet_Addr pub in
      let pubEntry := mkTuple publicAddr (uint16 prt) in
      let* t := timeNow in
      modifyPort Public (fun p =>
        pm_set p protocol prt (mkPortMapEntry t publicAddr 0 0 false)) ;;;
      (* Add lookup entries for packet translation *)
      modifyPort Public (fun p => tt_Store p protocol pubEntry privEntry) ;;;
      modifyPort Private (fun p => tt_Store p protocol privEntry pubEntry) ;;;
      mutex_Unlock ;;;
      ret (Some pubEntry)
  end.

(** [pme := &pp.PublicPort.portmap[protocol][prt]; pme.f = ...]: a write
    through the pointer changes the slot as it is at that moment. *)
Definition pme_update (protocol prt : Z) (f : portMapEntry -> portMapEntry)
  : M unit :=
  modifyPort Public (fun p => pm_set p protocol prt (f (pm_get p protocol prt))).

(** Simple check for FIN or RST in TCP *)
Definition checkTCPTermination (hdr : TCPHdr) (prt : Z) (dir : Z) : M unit :=
  if negb (Z.land (TCPFlags hdr) common.TCPFlagFin =? 0) then
    (* First check for FIN *)
    mutex_Lock ;;;
    let* pub := getPort Public in
    let pme := pm_get pub common.TCPNumber prt in
    (if finCount pme =? 0 then
       pme_update common.TCPNumber prt (fun e => set_fin e 1 dir)
     else if (finCount pme =? 1) && (terminationDirection pme =? not8 dir) then
       pme_update common.TCPNumber prt
         (fun e => set_fin e 2 (terminationDirection e))
     else ret tt) ;;;
    mutex_Unlock
  else if negb (Z.land (TCPFlags hdr) common.TCPFlagRst =? 0) then
    (* RST means that connection is terminated immediately *)
    mutex_Lock ;;;
    deleteOldConnection common.TCPNumber prt ;;;
    mutex_Unlock
  else if negb (Z.land (TCPFlags hdr) common.TCPFlagAck =? 0) then
    (* Check for ACK last so that if there is also FIN, termination
       doesn't happen. Last ACK should come without FIN *)
    mutex_Lock ;;;
    let* pub := getPort Public in
    let pme := pm_get pub common.TCPNumber prt in
    (if finCount pme =? 2 then
       deleteOldConnection common.TCPNumber prt ;;;
       (* Set some time while port cannot be used before connection
          timeout is reached *)
       let* t := timeNow in
       pme_update common.TCPNumber prt
         (fun e => set_lastused e (t + (portReuseTimeout - connectionTimeout)))
     else ret tt) ;;;
    mutex_Unlock
  else ret tt.

Definition handleARP (self : portRef) (pkt : Packet) : M Dir :=
  let arp := GetARPNoCheck pkt in
  let* p := getPort self in
  if negb (packet.SwapBytesUint16 (Operation arp) =? packet.ARPRequest) then
    (if packet.SwapBytesUint16 (Operation arp) =? packet.ARPReply then
       let ipv4 := packet.SwapBytesUint32 (packet.ArrayToIPv4 (SPA arp)) in
       modifyPort self (fun q =>
         set_arpTable q (<[ipv4 := SHA arp]> (arpTable q)))
     else ret tt) ;;;
    if bool_decide (KNIName p ≠ "") then ret dirKNI else ret dirDROP
  (* If there is a KNI interface, direct all ARP traffic to it *)
  else if bool_decide (KNIName p ≠ "") then ret dirKNI
  (* Check that someone is asking about MAC of my IP address and HW
     address is blank in request *)
  else if negb (packet.BytesToIPv4 (packet.byte0 (TPA arp))
                  (packet.byte1 (TPA arp)) (packet.byte2 (TPA arp))
                  (packet.byte3 (TPA arp))
                =? packet.SwapBytesUint32 (Subnet_Addr p)) then
    println "Warning! Got an ARP packet with target IPv4 address different from IPv4 address on interface. ARP request ignored." ;;;
    ret dirDROP
  else if bool_decide (THA arp ≠ zeroMAC) then
    println "Warning! Got an ARP packet with non-zero MAC address. ARP request ignored." ;;;
    ret dirDROP
  else
    (* Prepare an answer to this request *)
    NewPacket ;;;
    let answerPacket :=
      packet.InitARPReplyPacket (SrcMACAddress p) (SHA arp)
        (packet.ArrayToIPv4 (TPA arp)) (packet.ArrayToIPv4 (SPA arp)) in
    let answerPacket :=
      match packet.GetVLAN pkt with
      | Some vlan => AddVLANTag answerPacket (packet.SwapBytesUint16 (TCI vlan))
      | None => answerPacket
      end in
    dumpPacket self answerPacket dirSEND ;;;
    SendPacket answerPacket (Index p) ;;;
    ret dirDROP.

Definition sendARPRequest (self : portRef) (ip : Z) : M unit :=
  let* p := getPort self in
  NewPacket ;;;
  let requestPacket :=
    packet.InitARPRequestPacket (SrcMACAddress p)
      (packet.SwapBytesUint32 (Subnet_Addr p)) (packet.SwapBytesUint32 ip) in
  let requestPacket :=
    if negb (Vlan p =? 0) then AddVLANTag requestPacket (Vlan p)
    else requestPacket in
  dumpPacket self requestPacket dirSEND ;;;
  SendPacket requestPacket (Index p).

Definition getMACForIP (self : portRef) (ip : Z) : M (option macAddress) :=
  let* p := getPort self in
  match arpTable p !! ip with
  | Some v => ret (Some v)
  | None => sendARPRequest self ip ;;; ret None
  end.

Definition handleICMP (self : portRef) (pkt : Packet) (key : option Tuple)
  : M Dir :=
  let ipv4 := GetIPv4NoCheck pkt in
  let* p := getPort self in
  (* Check that received ICMP packet is addressed at this host. If not,
     packet should be translated *)
  if negb (packet.SwapBytesUint32 (DstAddr ipv4) =? Subnet_Addr p) then
    ret dirSEND
  else
    let icmp := GetICMPNoCheck pkt in
    (* If there is KNI interface, direct all ICMP traffic which doesn't
       have an active translation entry *)
    let* toKNI :=
      (if bool_decide (KNIName p ≠ "") then
         match key with
         | Some key =>
             match tt_Load p common.ICMPNumber key with
             | None => ret true
             | Some _ =>
                 let* d := Since (lastused (pm_get p common.ICMPNumber (port key))) in
                 ret (connectionTimeout <? d)
             end
         | None => ret false
         end
       else ret false) in
    if toKNI : bool then ret dirKNI
    (* Check that received ICMP packet is echo request packet. We don't
       support any other messages yet, so process them in normal NAT
       way. *)
    else if negb (icmpType icmp =? common.ICMPTypeEchoRequest)
            || negb (icmpCode icmp =? 0) then
      ret dirSEND
    else
      (* Return a packet back to sender *)
      NewPacket ;;;
      let answerPacket := pkt in
      let answerPacket := swapAddrIPv4 answerPacket in
      let answerPacket :=
        packet.mapL4 (setICMPType common.ICMPTypeEchoResponse) answerPacket in
      let answerPacket :=
        setIPv4ICMPChecksum answerPacket
          (negb NoCalculateChecksum) (negb NoHWTXChecksum) in
      dumpPacket self answerPacket dirSEND ;;;
      SendPacket answerPacket (Index p) ;;;
      ret dirDROP.

Definition parsePacketAndCheckARP (self : portRef) (pkt : Packet)
  : M (Dir * option VLANHdr * option IPv4Hdr) :=
  let pktVLAN := packet.ParseL3CheckVLAN pkt in
  let pktIPv4 := packet.GetIPv4CheckVLAN pkt in
  match pktIPv4 with
  | None =>
      match packet.GetARPCheckVLAN pkt with
      | Some _ =>
          let* dir := handleARP self pkt in
          dumpPacket self pkt dir ;;;
          ret (dir, pktVLAN, None)
      | None =>
          (* We don't currently support anything except for IPv4 and ARP *)
          dumpPacket self pkt dirDROP ;;;
          ret (dirDROP, pktVLAN, None)
      end
  | Some _ => ret (dirSEND, pktVLAN, pktIPv4)
  end.

(** Used to generate key in public to private translation *)
Definition generateLookupKeyFromDstAndHandleICMP (self : portRef)
    (pkt : Packet) (pktIPv4 : IPv4Hdr) (pktTCP : option TCPHdr)
    (pktUDP : option UDPHdr) (pktICMP : option ICMPHdr)
  : M (option Tuple * Dir) :=
  let a := packet.SwapBytesUint32 (DstAddr pktIPv4) in
  (* Parse packet destination port *)
  match pktTCP, pktUDP, pktICMP with
  | Some tcp, _, _ =>
      ret (Some (mkTuple a (packet.SwapBytesUint16 (tcpDstPort tcp))), dirSEND)
  | None, Some udp, _ =>
      ret (Some (mkTuple a (packet.SwapBytesUint16 (udpDstPort udp))), dirSEND)
  | None, None, Some icmp =>
      (* Check if this ICMP packet destination is NAT itself. If yes,
         reply back with ICMP and stop packet processing. *)
      let key := mkTuple a (packet.SwapBytesUint16 (Identifier icmp)) in
      let* dir := handleICMP self pkt (Some key) in
      if bool_decide (dir ≠ dirSEND) then ret (None, dir)
      else ret (Some key, dirSEND)
  | None, None, None =>
      dumpPacket self pkt dirDROP ;;;
      ret (None, dirDROP)
  end.

(** Used to generate key in private to public translation *)
Definition generateLookupKeyFromSrcAndHandleICMP (self : portRef)
    (pkt : Packet) (pktIPv4 : IPv4Hdr) (pktTCP : option TCPHdr)
    (pktUDP : option UDPHdr) (pktICMP : option ICMPHdr)
  : M (option Tuple * Dir) :=
  let a := packet.SwapBytesUint32 (SrcAddr pktIPv4) in
  (* Parse packet source port *)
  match pktTCP, pktUDP, pktICMP with
  | Some tcp, _, _ =>
      ret (Some (mkTuple a (packet.SwapBytesUint16 (tcpSrcPort tcp))), dirSEND)
  | None, Some udp, _ =>
      ret (Some (mkTuple a (packet.SwapBytesUint16 (udpSrcPort udp))), dirSEND)
  | None, None, Some icmp =>
      (* Check if this ICMP packet destination is NAT itself. If yes,
         reply back with ICMP and stop packet processing or direct to KNI
         if KNI is present. *)
      let* dir := handleICMP self pkt None in
      if bool_decide (dir ≠ dirSEND) then ret (None, dir)
      else
        ret (Some (mkTuple a (packet.SwapBytesUint16 (Identifier icmp))),
             dirSEND)
  | None, None, None =>
      dumpPacket self pkt dirDROP ;;;
      ret (None, dirDROP)
  end.

Definition setPacketDstPort (pkt : Packet) (prt : Z) (pktTCP : option TCPHdr)
    (pktUDP : option UDPHdr) (pktICMP : option ICMPHdr) : M Packet :=
  match pktTCP, pktUDP, pktICMP with
  | Some _, _, _ =>
      ret (setIPv4TCPChecksum
             (packet.mapL4 (setDstPort (packet.SwapBytesUint16 prt)) pkt)
             (negb NoCalculateChecksum) (negb NoHWTXChecksum))
  | None, Some _, _ =>
      ret (setIPv4UDPChecksum
             (packet.mapL4 (setDstPort (packet.SwapBytesUint16 prt)) pkt)
             (negb NoCalculateChecksum) (negb NoHWTXChecksum))
  | None, None, Some _ =>
      ret (setIPv4ICMPChecksum
             (packet.mapL4 (setICMPIdentifier (packet.SwapBytesUint16 prt)) pkt)
             (negb NoCalculateChecksum) (negb NoHWTXChecksum))
  | None, None, None => panic
  end.

Definition setPacketSrcPort (pkt : Packet) (prt : Z) (pktTCP : option TCPHdr)
    (pktUDP : option UDPHdr) (pktICMP : option ICMPHdr) : M Packet :=
  match pktTCP, pktUDP, pktICMP with
  | Some _, _, _ =>
      ret (setIPv4TCPChecksum
             (packet.mapL4 (setSrcPort (packet.SwapBytesUint16 prt)) pkt)
             (negb NoCalculateChecksum) (negb NoHWTXChecksum))
  | None, Some _, _ =>
      ret (setIPv4UDPChecksum
             (packet.mapL4 (setSrcPort (packet.SwapBytesUint16 prt)) pkt)
             (negb NoCalculateChecksum) (negb NoHWTXChecksum))
  | None, None, Some _ =>
      ret (setIPv4ICMPChecksum
             (packet.mapL4 (setICMPIdentifier (packet.SwapBytesUint16 prt)) pkt)
             (negb NoCalculateChecksum) (negb NoHWTXChecksum))
  | None, None, None => panic
  end.

(** The end of [PublicToPrivateTranslation], from the test of the
    translated address on (lines 99 to 124): what is done with a packet
    whose entry was found and is not too old. *)
Definition forwardToPrivate (pkt : Packet) (pktVLAN : option VLANHdr)
    (pktTCP : option TCPHdr) (pktUDP : option UDPHdr)
    (pktICMP : option ICMPHdr) (protocol : Z) (pub2priKey value : Tuple)
  : M (Dir * Packet) :=
  let self := Public in
  if negb (addr value =? 0) then
    (* Check whether TCP connection could be reused *)
    (if protocol =? common.TCPNumber then
       match pktTCP with
       | Some hdr => checkTCPTermination hdr (port pub2priKey) pub2pri
       | None => panic
       end
     else ret tt) ;;;
    (* Do packet translation *)
    let* mac := getMACForIP (opposite self) (addr value) in
    match mac with
    | None =>
        dumpPacket self pkt dirDROP ;;;
        ret (dirDROP, pkt)
    | Some mac =>
        let* p := getPort self in
        let* o := getPort (opposite self) in
        let pkt := packet.setEther pkt (mkEtherHdr mac (SrcMACAddress p)) in
        let pkt :=
          match pktVLAN with
          | Some v => packet.setVLAN pkt (Some (SetVLANTagIdentifier v (Vlan o)))
          | None => pkt
          end in
        let pkt :=
          packet.mapIPv4 (setDstAddr (packet.SwapBytesUint32 (addr value))) pkt in
        let* pkt := setPacketDstPort pkt (port value) pktTCP pktUDP pktICMP in
        dumpPacket self pkt dirSEND ;;;
        ret (dirSEND, pkt)
    end
  else
    dumpPacket self pkt dirKNI ;;;
    ret (dirKNI, pkt).

(** PublicToPrivateTranslation does ingress translation.  The answer is
    the disposition together with the packet as the call leaves it. *)
Definition PublicToPrivateTranslation (pkt : Packet) : M (Dir * Packet) :=
  let self := Public in
  dumpPacket self pkt dirSEND ;;;
  (* Parse packet type and address *)
  let* (dir, pktVLAN, pktIPv4) := parsePacketAndCheckARP self pkt in
  match pktIPv4 with
  | None => ret (dir, pkt)
  | Some pktIPv4 =>
  (* Create a lookup key from packet destination address and port *)
  let '(pktTCP, pktUDP, pktICMP) := packet.ParseAllKnownL4ForIPv4 pkt in
  let protocol := NextProtoID pktIPv4 in
  let* (pub2priKey, dir) :=
    generateLookupKeyFromDstAndHandleICMP self pkt pktIPv4 pktTCP pktUDP pktICMP in
  match pub2priKey with
  | None => ret (dir, pkt)
  | Some pub2priKey =>
  (* Do lookup *)
  let* p := getPort self in
  match tt_Load p protocol pub2priKey with
  | None =>
      (* For ingress connections packets are allowed only if a connection
         has been previosly established with a egress (private to public)
         packet. So if lookup fails, this incoming packet is ignored. *)
      dumpPacket self pkt dirDROP ;;;
      ret (dirDROP, pkt)
  | Some value =>
  (* Check whether connection is too old *)
  let* d := Since (lastused (pm_get p protocol (port pub2priKey))) in
  if static (pm_get p protocol (port pub2priKey)) || (d <=? connectionTimeout)
  then
    let* t := timeNow in
    modifyPort self (fun q =>
      pm_set q protocol (port pub2priKey)
        (set_lastused (pm_get q protocol (port pub2priKey)) t)) ;;;
    forwardToPrivate pkt pktVLAN pktTCP pktUDP pktICMP protocol pub2priKey value
  else
    (* There was no transfer on this port for too long time. We don't
       allow it any more *)
    mutex_Lock ;;;
    deleteOldConnection protocol (port pub2priKey) ;;;
    mutex_Unlock ;;;
    dumpPacket self pkt dirDROP ;;;
    ret (dirDROP, pkt)
  end end end.

(** The end of [PrivateToPublicTranslation], from the test of the
    translated address on (lines 176 to 201): what is done with a packet
    once its public pair is known. *)
Definition forwardToPublic (pkt : Packet) (pktVLAN : option VLANHdr)
    (pktIPv4 : IPv4Hdr) (pktTCP : option TCPHdr) (pktUDP : option UDPHdr)
    (pktICMP : option ICMPHdr) (value : Tuple)
  : M (Dir * Packet) :=
  let self := Private in
  if negb (addr value =? 0) then
    (* Check whether TCP connection could be reused *)
    match pktTCP with
    | Some hdr => checkTCPTermination hdr (port value) pri2pub
    | None => ret tt
    end ;;;
    (* Do packet translation *)
    let* mac :=
      getMACForIP (opposite self) (packet.SwapBytesUint32 (DstAddr pktIPv4)) in
    match mac with
    | None =>
        dumpPacket self pkt dirDROP ;;;
        ret (dirDROP, pkt)
    | Some mac =>
        let* p := getPort self in
        let* o := getPort (opposite self) in
        let pkt := packet.setEther pkt (mkEtherHdr mac (SrcMACAddress p)) in
        let pkt :=
          match pktVLAN with
          | Some v => packet.setVLAN pkt (Some (SetVLANTagIdentifier v (Vlan o)))
          | None => pkt
          end in
        let pkt :=
          packet.mapIPv4 (setSrcAddr (packet.SwapBytesUint32 (addr value))) pkt in
        let* pkt := setPacketSrcPort pkt (port value) pktTCP pktUDP pktICMP in
        dumpPacket self pkt dirSEND ;;;
        ret (dirSEND, pkt)
    end
  else
    dumpPacket self pkt dirKNI ;;;
    ret (dirKNI, pkt).

(** PrivateToPublicTranslation does egress translation. *)
Definition PrivateToPublicTranslation (pkt : Packet) : M (Dir * Packet) :=
  let self := Private in
  dumpPacket self pkt dirSEND ;;;
  (* Parse packet type and address *)
  let* (dir, pktVLAN, pktIPv4) := parsePacketAndCheckARP self pkt in
  match pktIPv4 with
  | None => ret (dir, pkt)
  | Some pktIPv4 =>
  (* Create a lookup key from packet source address and port *)
  let '(pktTCP, pktUDP, pktICMP) := packet.ParseAllKnownL4ForIPv4 pkt in
  let protocol := NextProtoID pktIPv4 in
  let* (pri2pubKey, dir) :=
    generateLookupKeyFromSrcAndHandleICMP self pkt pktIPv4 pktTCP pktUDP pktICMP in
  match pri2pubKey with
  | None => ret (dir, pkt)
  | Some pri2pubKey =>
  let* p := getPort self in
  (* If traffic is directed at private interface IP and KNI is present,
     this traffic is directed to KNI *)
  if bool_decide (KNIName p ≠ "")
     && (Subnet_Addr p =? packet.SwapBytesUint32 (DstAddr pktIPv4)) then
    dumpPacket self pkt dirKNI ;;;
    ret (dirKNI, pkt)
  else
  (* Do lookup *)
  match tt_Load p protocol pri2pubKey with
  | None =>
      (* Store new local network entry in ARP cache *)
      modifyPort self (fun q =>
        set_arpTable q (<[addr pri2pubKey := SAddr (Ether pkt)]> (arpTable q))) ;;;
      (* Allocate new connection from private to public network *)
      let* r := allocateNewEgressConnection protocol pri2pubKey in
      match r with
      | None =>
          println "Warning! Failed to allocate new connection" ;;;
          dumpPacket self pkt dirDROP ;;;
          ret (dirDROP, pkt)
      | Some value =>
          forwardToPublic pkt pktVLAN pktIPv4 pktTCP pktUDP pktICMP value
      end
  | Some value =>
      let* t := timeNow in
      modifyPort Public (fun q =>
        pm_set q protocol (port value)
          (set_lastused (pm_get q protocol (port value)) t)) ;;;
      forwardToPublic pkt pktVLAN pktIPv4 pktTCP pktUDP pktICMP value
  end
  end end.

End Translation.

(** ** A concrete configuration

    Used to run the functions on concrete inputs.  Times are in
    nanoseconds: the idle timeout is one minute, the reuse delay one
    second; the pool holds the eight ports from 1024 on; the two
    directions are the bytes [0x0f] and [0xf0]. *)
Definition nffConsts : NatConsts :=
  mkNatConsts 60000000000 1000000000 1024 1032 0x0f 0xf0 false false.

(** A configuration whose pool has a single port, to exhaust it. *)
Definition onePortConsts : NatConsts :=
  mkNatConsts 60000000000 1000000000 1024 1025 0x0f 0xf0 false false.

Definition zeroL4Cksum (l4 : L4Hdr) : L4Hdr :=
  match l4 with
  | L4TCP t => L4TCP (mkTCPHdr (tcpSrcPort t) (tcpDstPort t) (TCPFlags t) 0)
  | L4UDP u => L4UDP (mkUDPHdr (udpSrcPort u) (udpDstPort u) 0)
  | L4ICMP i =>
      L4ICMP (mkICMPHdr (icmpType i) (icmpCode i) 0 (Identifier i) (SeqNum i))
  | L4Other => L4Other
  end.

(** Checksums left to the network card: when a checksum is asked for,
    the fields are cleared for the hardware to fill in. *)
Definition offloadChecksum (pkt : Packet) (calculateChecksum hWTXChecksum : bool)
  : Packet :=
  if calculateChecksum then
    packet.mapL4 zeroL4Cksum
      (packet.mapIPv4
         (fun h => mkIPv4Hdr (NextProtoID h) 0 (SrcAddr h) (DstAddr h)) pkt)
  else pkt.

Definition offloadServices : Services :=
  mkServices offloadChecksum offloadChecksum offloadChecksum
    (fun v tag =>
       mkVLANHdr (packet.SwapBytesUint16
                    (Z.lor (Z.land (packet.SwapBytesUint16 (TCI v)) 0xf000)
                           (Z.land tag 0x0fff))))
    (fun pkt tci =>
       packet.setVLAN pkt (Some (mkVLANHdr (packet.SwapBytesUint16 tci)))).

(** Addresses in host order, as [Subnet.Addr] holds them: the public side
    is 203.0.113.1, the private side 10.0.0.1, a private host 10.0.0.5
    and an external host 8.8.8.8. *)
Definition publicAddr : Z := 0xCB007101.
Definition privateAddr : Z := 0x0A000001.
Definition hostAddr : Z := 0x0A000005.
Definition remoteAddr : Z := 0x08080808.

Definition publicMAC : macAddress := [0x02; 0; 0; 0; 0; 0x01].
Definition privateMAC : macAddress := [0x02; 0; 0; 0; 0; 0x02].
Definition hostMAC : macAddress := [0x02; 0; 0; 0; 0; 0x05].
Definition remoteMAC : macAddress := [0x02; 0; 0; 0; 0; 0x08].

(** A freshly configured pair: empty tables, the next hop of the public
    side already resolved.  [kni] is the name of the kernel interface of
    both sides, empty for none. *)
Definition freshPair (kni : string) : portPair :=
  mkPortPair
    (mkIpv4Port 1 privateAddr privateMAC 0 kni ∅ ∅ ∅)
    (mkIpv4Port 0 publicAddr publicMAC 0 kni {[remoteAddr := remoteMAC]} ∅ ∅).

Definition freshWorld (kni : string) : World := mkWorld (freshPair kni) [].

(** Header fields are in network order on the wire. *)
Definition tcpPacket (smac dmac : macAddress) (src dst sport dport flags : Z)
  : Packet :=
  mkPacket (mkEtherHdr dmac smac) None
    (L3IPv4 (mkIPv4Hdr common.TCPNumber 0 (packet.SwapBytesUint32 src)
               (packet.SwapBytesUint32 dst))
       (L4TCP (mkTCPHdr (packet.SwapBytesUint16 sport)
                 (packet.SwapBytesUint16 dport) flags 0))).

Definition icmpPacket (smac dmac : macAddress) (src dst type code ident : Z)
  : Packet :=
  mkPacket (mkEtherHdr dmac smac) None
    (L3IPv4 (mkIPv4Hdr common.ICMPNumber 0 (packet.SwapBytesUint32 src)
               (packet.SwapBytesUint32 dst))
       (L4ICMP (mkICMPHdr type code 0 (packet.SwapBytesUint16 ident) 0))).

(** An instant of the present day, counted from Go's zero [Time]. *)
Definition t0 : Z := 63900000000000000000.

Definition env0 : Env := mkEnv t0 true.

(** A later instant, more than [connectionTimeout] after [t0]. *)
Definition envLate : Env := mkEnv (t0 + 100000000000) true.

(** The pair once the private host 10.0.0.5:4000 has an established TCP
    flow through the public port 1024, last used at [used], with the FIN
    count [fin] and the recorded direction [dir]. *)
Definition establishedPair (kni : string) (used fin dir : Z) : portPair :=
  mkPortPair
    (mkIpv4Port 1 privateAddr privateMAC 0 kni
       {[hostAddr := hostMAC]} ∅
       {[(common.TCPNumber, mkTuple hostAddr 4000) := mkTuple publicAddr 1024]})
    (mkIpv4Port 0 publicAddr publicMAC 0 kni
       {[remoteAddr := remoteMAC]}
       {[(common.TCPNumber, 1024)
         := mkPortMapEntry used publicAddr fin dir false]}
       {[(common.TCPNumber, mkTuple publicAddr 1024) := mkTuple hostAddr 4000]}).

(** TCP segments of that flow, by their flags, in each direction. *)
Definition outSegment (flags : Z) : Packet :=
  tcpPacket hostMAC privateMAC hostAddr remoteAddr 4000 80 flags.

Definition inSegment (flags : Z) : Packet :=
  tcpPacket remoteMAC publicMAC remoteAddr publicAddr 80 1024 flags.

Definition segmentHdr (flags : Z) : TCPHdr :=
  mkTCPHdr (packet.SwapBytesUint16 4000) (packet.SwapBytesUint16 80) flags 0.

Definition inSegmentHdr (flags : Z) : TCPHdr :=
  mkTCPHdr (packet.SwapBytesUint16 80) (packet.SwapBytesUint16 1024) flags 0.

(** A second private host, 10.0.0.6:5000, opening a flow. *)
Definition otherSyn : Packet :=
  tcpPacket [0x02; 0; 0; 0; 0; 0x06] privateMAC 0x0A000006 remoteAddr 5000 80
    common.TCPFlagSyn.

(** An ARP request of the private host for the private address of the
    translator. *)
Definition arpRequest : ARPHdr :=
  mkARPHdr (packet.SwapBytesUint16 packet.ARPRequest)
    hostMAC (packet.IPv4ToBytes (packet.SwapBytesUint32 hostAddr))
    zeroMAC (packet.IPv4ToBytes (packet.SwapBytesUint32 privateAddr)).

Definition arpRequestPacket : Packet :=
  mkPacket (mkEtherHdr packet.broadcastMAC hostMAC) None (L3ARP arpRequest).

(** Echo requests with identifier 7: from the external host to the
    public address, and from the private host to the private address. *)
Definition pingPublic : Packet :=
  icmpPacket remoteMAC publicMAC remoteAddr publicAddr
    common.ICMPTypeEchoRequest 0 7.

Definition pingPrivate : Packet :=
  icmpPacket hostMAC privateMAC hostAddr privateAddr
    common.ICMPTypeEchoRequest 0 7.

(** An IPv4 packet of the private host that carries GRE, a protocol the
    translator does not handle. *)
Definition grePacket : Packet :=
  mkPacket (mkEtherHdr privateMAC hostMAC) None
    (L3IPv4 (mkIPv4Hdr 47 0 (packet.SwapBytesUint32 hostAddr)
               (packet.SwapBytesUint32 remoteAddr))
       L4Other).

(** The ARP reply of the private host to a request of the translator. *)
Definition arpReply : ARPHdr :=
  mkARPHdr (packet.SwapBytesUint16 packet.ARPReply)
    hostMAC (packet.IPv4ToBytes (packet.SwapBytesUint32 hostAddr))
    privateMAC (packet.IPv4ToBytes (packet.SwapBytesUint32 privateAddr)).

Definition arpReplyPacket : Packet :=
  mkPacket (mkEtherHdr privateMAC hostMAC) None (L3ARP arpReply).

Definition udpPacket (smac dmac : macAddress) (src dst sport dport : Z)
  : Packet :=
  mkPacket (mkEtherHdr dmac smac) None
    (L3IPv4 (mkIPv4Hdr common.UDPNumber 0 (packet.SwapBytesUint32 src)
               (packet.SwapBytesUint32 dst))
       (L4UDP (mkUDPHdr (packet.SwapBytesUint16 sport)
                 (packet.SwapBytesUint16 dport) 0))).

(** A DNS query of the private host, from port 5353, and the answer of
    the external host to the public port 1024. *)
Definition outDatagram : Packet :=
  udpPacket hostMAC privateMAC hostAddr remoteAddr 5353 53.

Definition inDatagram : Packet :=
  udpPacket remoteMAC publicMAC remoteAddr publicAddr 53 1024.



(** The pair once the private host 10.0.0.5 has an echo flow with
    identifier 7 through the public port 1024, last used at [used]. *)
Definition echoFlowPair (kni : string) (used : Z) : portPair :=
  mkPortPair
    (mkIpv4Port 1 privateAddr privateMAC 0 kni
       {[hostAddr := hostMAC]} ∅
       {[(common.ICMPNumber, mkTuple hostAddr 7) := mkTuple publicAddr 1024]})
    (mkIpv4Port 0 publicAddr publicMAC 0 kni
       {[remoteAddr := remoteMAC]}
       {[(common.ICMPNumber, 1024)
         := mkPortMapEntry used publicAddr 0 0 false]}
       {[(common.ICMPNumber, mkTuple publicAddr 1024) := mkTuple hostAddr 7]}).

(** The echo reply of the external host for that flow. *)
Definition echoReplyIn : Packet :=
  icmpPacket remoteMAC publicMAC remoteAddr publicAddr
    common.ICMPTypeEchoResponse 0 1024.

(** What a call returns, [d] when it does not return. *)
Definition result_of {A} (d : A) (r : Res A) : A :=
  match r with Ok a _ => a | Fatal => d end.

(** The world a call leaves, when it returns. *)
Definition world_of {A} (r : Res A) (w : World) : World :=
  match r with Ok _ w' => w' | Fatal => w end.

Definition value_of {A} (r : Res A) : option A :=
  match r with Ok a _ => Some a | Fatal => None end.

(** ** Notions used to state the properties *)

Section Notions.
Context `{NatConsts} `{Services}.

(** The two directions are each other's bitwise complement (section 9 of
    the design document: the direction is a bit-flip-compatible small
    integer). *)
Definition directions_flip : Prop :=
  pub2pri = not8 pri2pub /\ pri2pub = not8 pub2pri.

(** [oppositeDirections d d']: [d] and [d'] are the two directions of a
    flow, in either order. *)
Definition oppositeDirections (d d' : Z) : Prop :=
  (d = pri2pub /\ d' = pub2pri) \/ (d = pub2pri /\ d' = pri2pub).

(** The public pair a port is bound to. *)
Definition publicPairOf (pub : ipv4Port) (protocol prt : Z) : Tuple :=
  mkTuple (pm_addr (pm_get pub protocol prt)) (uint16 prt).

(** The pair of attachment points [deleteOldConnection] leaves. *)
Definition evict (q : portPair) (protocol prt : Z) : portPair :=
  let key := publicPairOf (PublicPort q) protocol prt in
  let q1 :=
    match tt_Load (PublicPort q) protocol key with
    | Some pri =>
        mkPortPair (tt_Delete (PrivatePort q) protocol pri)
                   (tt_Delete (PublicPort q) protocol key)
    | None => q
    end in
  mkPortPair (PrivatePort q1)
             (pm_set (PublicPort q1) protocol prt zeroPortMapEntry).

(** The pool of a protocol is exhausted at instant [t]: no port of the
    configured range is free. *)
Definition poolExhausted (t : Z) (pub : ipv4Port) (protocol : Z) : Prop :=
  forall p, portStart <= p < portEnd ->
    portFree t (pm_get pub protocol p) = false.

(** The slot of a port torn down by the ACK that ends a FIN/FIN
    handshake seen at instant [t]. *)
Definition closedSlot (t : Z) : portMapEntry :=
  set_lastused zeroPortMapEntry (t + (portReuseTimeout - connectionTimeout)).

(** The packets handed to [SendPacket], in order. *)
Definition sent (evs : list Event) : list (Z * Packet) :=
  omap (fun ev => match ev with EvSend i p => Some (i, p) | _ => None end) evs.

(** The warnings printed, in order. *)
Definition warnings (evs : list Event) : list string :=
  omap (fun ev => match ev with EvWarn m => Some m | _ => None end) evs.

(** An array of four bytes. *)
Definition wfArray (a : ipv4Array) : Prop :=
  0 <= packet.byte0 a < 256 /\ 0 <= packet.byte1 a < 256 /\
  0 <= packet.byte2 a < 256 /\ 0 <= packet.byte3 a < 256.

(** The translation function the flow graph runs on the packets an
    attachment point receives. *)
Definition translate (self : portRef) : Packet -> M (Dir * Packet) :=
  match self with
  | Public => PublicToPrivateTranslation
  | Private => PrivateToPublicTranslation
  end.

(** The answer [handleARP] builds for the request [arp] received, with
    VLAN header [vlan] if any, by the attachment point [p]. *)
Definition arpAnswer (p : ipv4Port) (arp : ARPHdr) (vlan : option VLANHdr)
  : Packet :=
  let answerPacket :=
    packet.InitARPReplyPacket (SrcMACAddress p) (SHA arp)
      (packet.ArrayToIPv4 (TPA arp)) (packet.ArrayToIPv4 (SPA arp)) in
  match vlan with
  | Some v => AddVLANTag answerPacket (packet.SwapBytesUint16 (TCI v))
  | None => answerPacket
  end.

(** The request asks for the address of the attachment point [p]. *)
Definition arpTargets (p : ipv4Port) (arp : ARPHdr) : Prop :=
  packet.BytesToIPv4 (packet.byte0 (TPA arp)) (packet.byte1 (TPA arp))
    (packet.byte2 (TPA arp)) (packet.byte3 (TPA arp))
  = packet.SwapBytesUint32 (Subnet_Addr p).

#[global] Hint Opaque arpTargets : typeclass_instances.

#[global] Instance arpTargets_dec p arp : Decision (arpTargets p arp).
Proof. unfold arpTargets. apply Z.eq_dec. Defined.

(** The echo reply [handleICMP] builds from the request [pkt]. *)
Definition icmpAnswer (pkt : Packet) : Packet :=
  setIPv4ICMPChecksum
    (packet.mapL4 (setICMPType common.ICMPTypeEchoResponse) (swapAddrIPv4 pkt))
    (negb NoCalculateChecksum) (negb NoHWTXChecksum).

(** [handleICMP] hands an ICMP packet addressed to the attachment point
    [p] to the kernel interface: there is one, a key came with the call,
    and the key has no translation entry or has one that is idle for
    longer than [connectionTimeout] at instant [t]. *)
Definition icmpToKNI (p : ipv4Port) (t : Z) (key : option Tuple) : bool :=
  bool_decide (KNIName p ≠ "") &&
  match key with
  | Some key =>
      match tt_Load p common.ICMPNumber key with
      | None => true
      | Some _ =>
          connectionTimeout <? t - lastused (pm_get p common.ICMPNumber (port key))
      end
  | None => false
  end.

(** The key the translation function of an attachment point passes to
    [handleICMP]: the ingress side passes the lookup key, the egress side
    passes nil. *)
Definition icmpKeyArg (self : portRef) (h : IPv4Hdr) (icmp : ICMPHdr)
  : option Tuple :=
  match self with
  | Public =>
      Some (mkTuple (packet.SwapBytesUint32 (DstAddr h))
                    (packet.SwapBytesUint16 (Identifier icmp)))
  | Private => None
  end.

(** The protocol and the lookup key of an ingress packet: the
    destination address with the destination port, or with the ICMP
    identifier.  [None] for a packet the translation does not look up. *)
Definition ingressKey (pkt : Packet) : option (Z * Tuple) :=
  match L3 pkt with
  | L3IPv4 h _ =>
      let a := packet.SwapBytesUint32 (DstAddr h) in
      match packet.ParseAllKnownL4ForIPv4 pkt with
      | (Some tcp, _, _) =>
          Some (NextProtoID h, mkTuple a (packet.SwapBytesUint16 (tcpDstPort tcp)))
      | (None, Some udp, _) =>
          Some (NextProtoID h, mkTuple a (packet.SwapBytesUint16 (udpDstPort udp)))
      | (None, None, Some icmp) =>
          Some (NextProtoID h, mkTuple a (packet.SwapBytesUint16 (Identifier icmp)))
      | (None, None, None) => None
      end
  | _ => None
  end.

(** The protocol and the lookup key of an egress packet: the source
    address with the source port, or with the ICMP identifier. *)
Definition egressKey (pkt : Packet) : option (Z * Tuple) :=
  match L3 pkt with
  | L3IPv4 h _ =>
      let a := packet.SwapBytesUint32 (SrcAddr h) in
      match packet.ParseAllKnownL4ForIPv4 pkt with
      | (Some tcp, _, _) =>
          Some (NextProtoID h, mkTuple a (packet.SwapBytesUint16 (tcpSrcPort tcp)))
      | (None, Some udp, _) =>
          Some (NextProtoID h, mkTuple a (packet.SwapBytesUint16 (udpSrcPort udp)))
      | (None, None, Some icmp) =>
          Some (NextProtoID h, mkTuple a (packet.SwapBytesUint16 (Identifier icmp)))
      | (None, None, None) => None
      end
  | _ => None
  end.

(** The destination address of an IPv4 packet, in host order. *)
Definition dstAddrOf (pkt : Packet) : Z :=
  packet.SwapBytesUint32 (DstAddr (GetIPv4NoCheck pkt)).

(** An ICMP packet addressed to the attachment point [p] itself, which
    has a kernel interface. *)
Definition icmpForKernel (p : ipv4Port) (protocol : Z) (pkt : Packet) : Prop :=
  protocol = common.ICMPNumber /\ dstAddrOf pkt = Subnet_Addr p /\
  KNIName p ≠ "".

#[global] Hint Opaque icmpForKernel : typeclass_instances.

#[global] Instance icmpForKernel_dec p protocol pkt :
  Decision (icmpForKernel p protocol pkt).
Proof. unfold icmpForKernel. apply and_dec; [|apply and_dec]; apply _. Defined.

(** No translation entry was added between [w] and [w']: both tables
    of [w'] are contained in those of [w]. *)
Definition noNewEntry (w w' : World) : Prop :=
  translationTable (PublicPort (pp w')) ⊆ translationTable (PublicPort (pp w)) /\
  translationTable (PrivatePort (pp w')) ⊆ translationTable (PrivatePort (pp w)).

(** An action that relates the world it starts in to every world it
    returns in by [R]. *)
Definition preserves (R : relation World) {A} (m : M A) : Prop :=
  forall e w a w', m e w = Ok a w' -> R w w'.

(** The ARP cache of the private attachment point is the same in [w]
    and [w']. *)
Definition samePrivateARP (w w' : World) : Prop :=
  arpTable (PrivatePort (pp w')) = arpTable (PrivatePort (pp w)).

(** A relation between worlds that holds along any sequence of steps
    that keep it, and that does not look at what was emitted. *)
Class Frame (R : relation World) := mkFrame {
  frame_refl : forall w, R w w;
  frame_trans : forall w1 w2 w3, R w1 w2 -> R w2 w3 -> R w1 w3;
  frame_out : forall w o, R w (mkWorld (pp w) o) }.

(** The pair after [lastused] of a public port was set to [t]. *)
Definition refreshed (q : portPair) (protocol prt t : Z) : portPair :=
  assign q Public
    (pm_set (PublicPort q) protocol prt
       (set_lastused (pm_get (PublicPort q) protocol prt) t)).

(** The key generator of an attachment point lets the packet through to
    the table lookup: for ICMP, [handleICMP] answers [dirSEND]. *)
Definition passesICMP (self : portRef) (pkt : Packet) (protocol : Z)
    (key : Tuple) (e : Env) (w : World) : Prop :=
  protocol = common.ICMPNumber ->
  handleICMP self pkt
    (match self with Public => Some key | Private => None end) e w
  = Ok dirSEND w.

(** The egress test that sends traffic for the private address of the
    translator to the kernel interface. *)
Definition forPrivateKernel (p : ipv4Port) (pkt : Packet) : Prop :=
  KNIName p ≠ "" /\ Subnet_Addr p = dstAddrOf pkt.

#[global] Hint Opaque forPrivateKernel : typeclass_instances.

#[global] Instance forPrivateKernel_dec p pkt : Decision (forPrivateKernel p pkt).
Proof. unfold forPrivateKernel. apply and_dec; apply _. Defined.

(** The pair after the private attachment point learned the link-layer
    address [mac] of [ip]. *)
Definition learned (q : portPair) (ip : Z) (mac : macAddress) : portPair :=
  assign q Private
    (set_arpTable (PrivatePort q) (<[ip := mac]> (arpTable (PrivatePort q)))).

(** The lookup key the translation function of an attachment point
    derives from a packet. *)
Definition keyOf (self : portRef) (pkt : Packet) : option (Z * Tuple) :=
  match self with
  | Public => ingressKey pkt
  | Private => egressKey pkt
  end.

(** What is configured of an attachment point. *)
Definition config (p : ipv4Port)
  : Z * Z * macAddress * Z * string :=
  (Index p, Subnet_Addr p, SrcMACAddress p, Vlan p, KNIName p).

(** Both attachment points are configured in [w'] as they are in [w]. *)
Definition sameConfig (w w' : World) : Prop :=
  config (PrivatePort (pp w')) = config (PrivatePort (pp w)) /\
  config (PublicPort (pp w')) = config (PublicPort (pp w)).

(** Every address an ARP cache resolves in [w] is still resolved by the
    same cache in [w']. *)
Definition arpKept (w w' : World) : Prop :=
  dom (arpTable (PrivatePort (pp w))) ⊆ dom (arpTable (PrivatePort (pp w'))) /\
  dom (arpTable (PublicPort (pp w))) ⊆ dom (arpTable (PublicPort (pp w'))).

(** The pair after the attachment point [self] learned from the ARP
    reply [arp]. *)
Definition arpLearned (q : portPair) (self : portRef) (arp : ARPHdr)
  : portPair :=
  assign q self
    (set_arpTable (deref q self)
       (<[packet.SwapBytesUint32 (packet.ArrayToIPv4 (SPA arp)) := SHA arp]>
          (arpTable (deref q self)))).

(** The disposition of ARP traffic that is not answered. *)
Definition arpDisposition (p : ipv4Port) : Dir :=
  if bool_decide (KNIName p ≠ "") then dirKNI else dirDROP.

(** The pair [checkTCPTermination] leaves when it is called at instant
    [t] for the segment header [hdr] seen in direction [dir] on the
    public port [prt]. *)
Definition tracked (q : portPair) (hdr : TCPHdr) (prt dir t : Z) : portPair :=
  let pme := pm_get (PublicPort q) common.TCPNumber prt in
  if negb (Z.land (TCPFlags hdr) common.TCPFlagFin =? 0) then
    if finCount pme =? 0 then
      assign q Public
        (pm_set (PublicPort q) common.TCPNumber prt (set_fin pme 1 dir))
    else if (finCount pme =? 1) && (terminationDirection pme =? not8 dir) then
      assign q Public
        (pm_set (PublicPort q) common.TCPNumber prt
           (set_fin pme 2 (terminationDirection pme)))
    else q
  else if negb (Z.land (TCPFlags hdr) common.TCPFlagRst =? 0) then
    evict q common.TCPNumber prt
  else if negb (Z.land (TCPFlags hdr) common.TCPFlagAck =? 0) then
    if finCount pme =? 2 then
      mkPortPair
        (PrivatePort (evict q common.TCPNumber prt))
        (pm_set (PublicPort (evict q common.TCPNumber prt))
           common.TCPNumber prt (closedSlot t))
    else q
  else q.

(** The ARP request [sendARPRequest] builds on the attachment point [p]
    for the address [ip]. *)
Definition arpRequestFor (p : ipv4Port) (ip : Z) : Packet :=
  let requestPacket :=
    packet.InitARPRequestPacket (SrcMACAddress p)
      (packet.SwapBytesUint32 (Subnet_Addr p)) (packet.SwapBytesUint32 ip) in
  if negb (Vlan p =? 0) then AddVLANTag requestPacket (Vlan p)
  else requestPacket.

(** The TCP header of a packet, when it carries TCP. *)
Definition tcpView (pkt : Packet) : option TCPHdr :=
  (packet.ParseAllKnownL4ForIPv4 pkt).1.1.

(** The pair after the termination tracker has seen the packet, if it
    is a TCP segment. *)
Definition afterTracker (q : portPair) (pkt : Packet) (prt dir t : Z)
  : portPair :=
  match tcpView pkt with
  | Some hdr => tracked q hdr prt dir t
  | None => q
  end.

(** The destination port of TCP and UDP, the identifier of ICMP. *)
Definition setL4Dst (v : Z) (l4 : L4Hdr) : L4Hdr :=
  match l4 with
  | L4ICMP _ => setICMPIdentifier v l4
  | _ => setDstPort v l4
  end.

(** The source port of TCP and UDP, the identifier of ICMP. *)
Definition setL4Src (v : Z) (l4 : L4Hdr) : L4Hdr :=
  match l4 with
  | L4ICMP _ => setICMPIdentifier v l4
  | _ => setSrcPort v l4
  end.

(** The checksum setter of the protocol a packet carries. *)
Definition setL4Checksum (pkt : Packet) : Packet :=
  match L3 pkt with
  | L3IPv4 _ (L4TCP _) =>
      setIPv4TCPChecksum pkt (negb NoCalculateChecksum) (negb NoHWTXChecksum)
  | L3IPv4 _ (L4UDP _) =>
      setIPv4UDPChecksum pkt (negb NoCalculateChecksum) (negb NoHWTXChecksum)
  | L3IPv4 _ (L4ICMP _) =>
      setIPv4ICMPChecksum pkt (negb NoCalculateChecksum) (negb NoHWTXChecksum)
  | _ => pkt
  end.

(** The VLAN header of a forwarded packet: the one it came with, its
    tag identifier set to the VLAN of the attachment point [o] it
    leaves through. *)
Definition retagged (pkt : Packet) (o : ipv4Port) : option VLANHdr :=
  match VLAN pkt with
  | Some v => Some (SetVLANTagIdentifier v (Vlan o))
  | None => None
  end.

End Notions.

(** * Properties *)

(** ** Running the monad *)

(** Unfold the primitive actions and run the binds whose first action
    is known. *)
Ltac mrun :=
  unfold mutex_Lock, mutex_Unlock, pme_update, println, dumpPacket,
    SendPacket;
  unfold getPort, modifyPort, timeNow, Since, emit, NewPacket, panic;
  unfold bind, ret;
  cbn [deref assign pp out now mbufAvailable opposite].

(** ** Bytes *)

Lemma byte_bits x n : 0 <= x < 256 -> 8 <= n -> Z.testbit x n = false.
Proof. intros Hx Hn. apply (Z.bounded_iff_bits_nonneg 8 x); lia. Qed.

(** Equalities between words assembled from bytes, bit by bit. *)
Ltac byte_blast :=
  change 0xff with (Z.ones 8);
  Z.bitblast;
  repeat match goal with
         | |- context [Z.testbit ?x ?n] =>
             first [ rewrite (Z.testbit_neg_r x n) by lia
                   | rewrite (byte_bits x n) by lia ]
         end;
  rewrite ?orb_false_r, ?orb_false_l, ?andb_true_r, ?andb_false_r;
  try reflexivity.

Lemma IPv4ToBytes_ArrayToIPv4 a :
  wfArray a -> packet.IPv4ToBytes (packet.ArrayToIPv4 a) = a.
Proof.
  destruct a as [[[a0 a1] a2] a3]. unfold wfArray, packet.IPv4ToBytes,
    packet.ArrayToIPv4. cbn [packet.byte0 packet.byte1 packet.byte2 packet.byte3].
  intros (H0 & H1 & H2 & H3).
  repeat f_equal; byte_blast.
Qed.



(** ** Records and tables *)

Lemma pm_get_pm_set p protocol prt e :
  pm_get (pm_set p protocol prt e) protocol prt = e.
Proof.
  unfold pm_get, pm_set, set_portmap. cbn [portmap].
  by rewrite lookup_total_insert_eq.
Qed.

Lemma pm_get_pm_set_ne p protocol prt protocol' prt' e :
  (protocol, prt) ≠ (protocol', prt') ->
  pm_get (pm_set p protocol prt e) protocol' prt' = pm_get p protocol' prt'.
Proof.
  intros Hne. unfold pm_get, pm_set, set_portmap. cbn [portmap].
  by rewrite lookup_total_insert_ne.
Qed.

(** A [uint8] never equals its own complement. *)
Lemma not8_neq d : d ≠ not8 d.
Proof.
  unfold not8. intros Heq.
  assert (Hr : 0 <= d < 256) by (rewrite Heq; apply Z.mod_pos_bound; lia).
  assert (Hl : Z.lnot d = - d - 1) by (unfold Z.lnot; lia).
  rewrite Hl in Heq.
  assert (Hm : (- d - 1) mod 2 ^ 8 = 255 - d).
  { symmetry. apply (Z.mod_unique_pos _ _ (-1)); lia. }
  lia.
Qed.

Section Properties.
Context `{NatConsts} `{Services}.

(** ** TCP termination tracking *)

Lemma oppositeDirections_not8 d d' :
  directions_flip -> oppositeDirections d d' -> d' = not8 d.
Proof. intros [Ha Hb] [[-> ->]|[-> ->]]; assumption. Qed.

(** What a FIN does to the slot of its port. *)
Lemma checkTCPTermination_FIN hdr prt dir e w :
  Z.land (TCPFlags hdr) common.TCPFlagFin ≠ 0 ->
  let pme := pm_get (PublicPort (pp w)) common.TCPNumber prt in
  checkTCPTermination hdr prt dir e w =
    Ok tt
      (if finCount pme =? 0 then
         mkWorld (assign (pp w) Public
                    (pm_set (PublicPort (pp w)) common.TCPNumber prt
                       (set_fin pme 1 dir))) (out w)
       else if (finCount pme =? 1) && (terminationDirection pme =? not8 dir)
       then
         mkWorld (assign (pp w) Public
                    (pm_set (PublicPort (pp w)) common.TCPNumber prt
                       (set_fin pme 2 (terminationDirection pme)))) (out w)
       else w).
Proof.
  intros Hfin pme. unfold checkTCPTermination.
  apply Z.eqb_neq in Hfin. rewrite Hfin. cbn [negb]. mrun.
  fold pme.
  destruct (finCount pme =? 0); [reflexivity|].
  destruct ((finCount pme =? 1) && (terminationDirection pme =? not8 dir));
    [reflexivity|].
  by destruct w.
Qed.

(** C3. A TCP packet with the FIN flag, seen by the termination tracker
    for a public port in direction [dir]: with [finCount] 0 the count
    becomes 1 and [dir] is recorded; with [finCount] 1 and the recorded
    direction the opposite of [dir] the count becomes 2; with [finCount]
    1 and the recorded direction [dir] itself nothing changes, so the
    count stays 1.  The call always returns, and touches nothing but the
    slot of the port. *)
Theorem checkTCPTermination_fin_tracking hdr prt dir other e w :
  directions_flip ->
  oppositeDirections dir other ->
  Z.land (TCPFlags hdr) common.TCPFlagFin ≠ 0 ->
  exists w',
    checkTCPTermination hdr prt dir e w = Ok tt w' /\
    let pme := pm_get (PublicPort (pp w)) common.TCPNumber prt in
    let pme' := pm_get (PublicPort (pp w')) common.TCPNumber prt in
    (finCount pme = 0 ->
       finCount pme' = 1 /\ terminationDirection pme' = dir) /\
    (finCount pme = 1 -> terminationDirection pme = other ->
       finCount pme' = 2 /\ terminationDirection pme' = other) /\
    (finCount pme = 1 -> terminationDirection pme = dir ->
       w' = w /\ finCount pme' = 1) /\
    PrivatePort (pp w') = PrivatePort (pp w) /\
    translationTable (PublicPort (pp w')) = translationTable (PublicPort (pp w)) /\
    arpTable (PublicPort (pp w')) = arpTable (PublicPort (pp w)) /\
    (forall protocol p, (protocol, p) ≠ (common.TCPNumber, prt) ->
       pm_get (PublicPort (pp w')) protocol p
       = pm_get (PublicPort (pp w)) protocol p) /\
    out w' = out w.
Proof.
  intros Hflip Hopp Hfin.
  pose proof (oppositeDirections_not8 _ _ Hflip Hopp) as Hother.
  pose proof (not8_neq dir) as Hneq.
  eexists. split; [apply checkTCPTermination_FIN; assumption|].
  cbv zeta.
  set (pme := pm_get (PublicPort (pp w)) common.TCPNumber prt).
  destruct (finCount pme =? 0) eqn:E0;
    [|destruct ((finCount pme =? 1) && (terminationDirection pme =? not8 dir))
        eqn:E1].
  - apply Z.eqb_eq in E0. cbn [pp assign PublicPort PrivatePort out].
    rewrite pm_get_pm_set. cbn [set_fin finCount terminationDirection].
    split_and!; try done; try (intros; lia).
    intros protocol p Hne. by rewrite pm_get_pm_set_ne.
  - apply Z.eqb_neq in E0.
    apply andb_true_iff in E1 as [E1 E2].
    apply Z.eqb_eq in E1, E2.
    cbn [pp assign PublicPort PrivatePort out].
    rewrite pm_get_pm_set. cbn [set_fin finCount terminationDirection].
    split_and!; try done; try (intros; lia); try (intros; congruence).
    intros protocol p Hne. by rewrite pm_get_pm_set_ne.
  - apply Z.eqb_neq in E0.
    apply andb_false_iff in E1.
    rewrite !Z.eqb_neq in E1.
    split_and!; try done; intros; lia.
Qed.

(** ** Removing a connection *)

Lemma deleteOldConnection_run protocol prt e w :
  deleteOldConnection protocol prt e w
  = Ok tt (mkWorld (evict (pp w) protocol prt) (out w)).
Proof.
  unfold deleteOldConnection, evict, publicPairOf. mrun.
  destruct (tt_Load (PublicPort (pp w)) protocol _); mrun; by destruct w as [[]].
Qed.

Lemma evict_public_gone q protocol prt :
  tt_Load (PublicPort (evict q protocol prt)) protocol
    (publicPairOf (PublicPort q) protocol prt) = None.
Proof.
  unfold evict.
  destruct (tt_Load (PublicPort q) protocol _) eqn:E;
    cbn [PublicPort PrivatePort]; unfold tt_Load, pm_set, set_portmap, tt_Delete,
      set_translationTable in *; cbn [translationTable].
  - apply lookup_delete_eq.
  - exact E.
Qed.

Lemma evict_private_gone q protocol prt pri :
  tt_Load (PublicPort q) protocol (publicPairOf (PublicPort q) protocol prt)
  = Some pri ->
  tt_Load (PrivatePort (evict q protocol prt)) protocol pri = None.
Proof.
  intros E. unfold evict. rewrite E. cbn [PublicPort PrivatePort].
  unfold tt_Load, tt_Delete, set_translationTable. cbn [translationTable].
  apply lookup_delete_eq.
Qed.

Lemma evict_slot q protocol prt :
  pm_get (PublicPort (evict q protocol prt)) protocol prt = zeroPortMapEntry.
Proof. unfold evict. cbn [PublicPort]. apply pm_get_pm_set. Qed.

Lemma evict_slot_ne q protocol prt protocol' prt' :
  (protocol, prt) ≠ (protocol', prt') ->
  pm_get (PublicPort (evict q protocol prt)) protocol' prt'
  = pm_get (PublicPort q) protocol' prt'.
Proof.
  intros Hne. unfold evict. cbn [PublicPort].
  rewrite pm_get_pm_set_ne by done.
  destruct (tt_Load (PublicPort q) protocol _); reflexivity.
Qed.

(** Removal only ever shrinks the translation tables. *)
Lemma evict_public_table q protocol prt :
  translationTable (PublicPort (evict q protocol prt))
  ⊆ translationTable (PublicPort q).
Proof.
  unfold evict. destruct (tt_Load (PublicPort q) protocol _);
    cbn [PublicPort pm_set set_portmap tt_Delete set_translationTable
         translationTable]; [apply delete_subseteq | done].
Qed.

Lemma evict_private_table q protocol prt :
  translationTable (PrivatePort (evict q protocol prt))
  ⊆ translationTable (PrivatePort q).
Proof.
  unfold evict. destruct (tt_Load (PublicPort q) protocol _);
    cbn [PrivatePort tt_Delete set_translationTable translationTable];
    [apply delete_subseteq | done].
Qed.

Lemma evict_arp q protocol prt :
  arpTable (PrivatePort (evict q protocol prt)) = arpTable (PrivatePort q) /\
  arpTable (PublicPort (evict q protocol prt)) = arpTable (PublicPort q).
Proof.
  unfold evict. by destruct (tt_Load (PublicPort q) protocol _).
Qed.

Lemma evict_Index q protocol prt :
  Index (PublicPort (evict q protocol prt)) = Index (PublicPort q) /\
  Index (PrivatePort (evict q protocol prt)) = Index (PrivatePort q).
Proof.
  unfold evict. by destruct (tt_Load (PublicPort q) protocol _).
Qed.

(** ** Port allocation *)

Lemma find_all_false {A} (f : A -> bool) (l : list A) :
  (forall x, x ∈ l -> f x = false) -> List.find f l = None.
Proof.
  induction l as [|a l IH]; intros Hall; [reflexivity|].
  cbn [List.find]. rewrite (Hall a) by apply list_elem_of_here.
  apply IH. intros x Hx. apply Hall. by apply list_elem_of_further.
Qed.

Lemma allocNewPort_exhausted protocol e w :
  poolExhausted (now e) (PublicPort (pp w)) protocol ->
  allocNewPort protocol e w = Ok None w.
Proof.
  intros Hex. unfold allocNewPort. mrun.
  rewrite find_all_false; [reflexivity|].
  intros p Hp. apply elem_of_seqZ in Hp. apply Hex. lia.
Qed.

Lemma allocNewPort_Some protocol e w p w' :
  allocNewPort protocol e w = Ok (Some p) w' ->
  portFree (now e) (pm_get (PublicPort (pp w)) protocol p) = true /\
  portStart <= p < portEnd /\
  w' = mkWorld (evict (pp w) protocol p) (out w).
Proof.
  unfold allocNewPort. mrun.
  destruct (List.find _ _) as [p0|] eqn:E; [|discriminate].
  unfold bind. rewrite deleteOldConnection_run. unfold ret.
  intros [= <- <-].
  apply List.find_some in E as [Hin Hfree].
  apply list_elem_of_In, elem_of_seqZ in Hin.
  split_and!; [assumption|lia|lia|reflexivity].
Qed.

Lemma allocNewPort_total protocol e w :
  exists r w', allocNewPort protocol e w = Ok r w'.
Proof.
  unfold allocNewPort. mrun.
  destruct (List.find _ _) as [p0|].
  - unfold bind. rewrite deleteOldConnection_run. unfold ret. eauto.
  - eauto.
Qed.

(** ** The last ACK and RST *)

Lemma checkTCPTermination_RST hdr prt dir e w :
  Z.land (TCPFlags hdr) common.TCPFlagFin = 0 ->
  Z.land (TCPFlags hdr) common.TCPFlagRst ≠ 0 ->
  checkTCPTermination hdr prt dir e w
  = Ok tt (mkWorld (evict (pp w) common.TCPNumber prt) (out w)).
Proof.
  intros Hfin Hrst. unfold checkTCPTermination.
  apply Z.eqb_eq in Hfin. apply Z.eqb_neq in Hrst. rewrite Hfin, Hrst.
  cbn [negb]. mrun. unfold bind. rewrite deleteOldConnection_run.
  reflexivity.
Qed.

Lemma checkTCPTermination_ACK hdr prt dir e w :
  Z.land (TCPFlags hdr) common.TCPFlagFin = 0 ->
  Z.land (TCPFlags hdr) common.TCPFlagRst = 0 ->
  Z.land (TCPFlags hdr) common.TCPFlagAck ≠ 0 ->
  checkTCPTermination hdr prt dir e w
  = Ok tt
      (if finCount (pm_get (PublicPort (pp w)) common.TCPNumber prt) =? 2 then
         mkWorld
           (mkPortPair
              (PrivatePort (evict (pp w) common.TCPNumber prt))
              (pm_set (PublicPort (evict (pp w) common.TCPNumber prt))
                 common.TCPNumber prt (closedSlot (now e))))
           (out w)
       else w).
Proof.
  intros Hfin Hrst Hack. unfold checkTCPTermination.
  apply Z.eqb_eq in Hfin, Hrst. apply Z.eqb_neq in Hack.
  rewrite Hfin, Hrst, Hack. cbn [negb]. mrun.
  destruct (finCount _ =? 2).
  - unfold bind. rewrite deleteOldConnection_run. mrun.
    cbn [PublicPort PrivatePort]. rewrite evict_slot. reflexivity.
  - by destruct w.
Qed.

Lemma closedSlot_free t t' :
  portFree t' (closedSlot t) = true <-> portReuseTimeout < t' - t.
Proof.
  unfold portFree, closedSlot, set_lastused, zeroPortMapEntry.
  cbn [static lastused negb andb]. rewrite Z.ltb_lt. lia.
Qed.

(** C4, as amended.  A TCP packet carrying ACK without FIN or RST, seen
    by the termination tracker for a public port.  When the [finCount] of
    the port is 2, the connection entry of the port is removed (the public
    pair of the port leaves the public table, the private pair it was
    bound to leaves the private table, the slot is freed) and [lastused]
    of the slot is set to now plus [portReuseTimeout - connectionTimeout]:
    the slot counts as free exactly once more than [portReuseTimeout] has
    passed, and until then no allocation returns this port.  That instant
    lies in the future exactly when [portReuseTimeout] exceeds
    [connectionTimeout]; otherwise it is now or in the past.  With any
    other [finCount], in particular below 2, nothing changes. *)
Theorem checkTCPTermination_last_ack hdr prt dir e w :
  Z.land (TCPFlags hdr) common.TCPFlagFin = 0 ->
  Z.land (TCPFlags hdr) common.TCPFlagRst = 0 ->
  Z.land (TCPFlags hdr) common.TCPFlagAck ≠ 0 ->
  let pub := PublicPort (pp w) in
  let pme := pm_get pub common.TCPNumber prt in
  let key := publicPairOf pub common.TCPNumber prt in
  (finCount pme = 2 ->
   exists w',
     checkTCPTermination hdr prt dir e w = Ok tt w' /\
     tt_Load (PublicPort (pp w')) common.TCPNumber key = None /\
     (forall pri, tt_Load pub common.TCPNumber key = Some pri ->
        tt_Load (PrivatePort (pp w')) common.TCPNumber pri = None) /\
     pm_get (PublicPort (pp w')) common.TCPNumber prt
     = mkPortMapEntry (now e + (portReuseTimeout - connectionTimeout))
         0 0 0 false /\
     (forall t, portFree t (pm_get (PublicPort (pp w')) common.TCPNumber prt)
                = true <-> portReuseTimeout < t - now e) /\
     (forall e2 w2 w3,
        pm_get (PublicPort (pp w2)) common.TCPNumber prt
        = pm_get (PublicPort (pp w')) common.TCPNumber prt ->
        now e2 - now e <= portReuseTimeout ->
        allocNewPort common.TCPNumber e2 w2 ≠ Ok (Some prt) w3) /\
     (now e < lastused (pm_get (PublicPort (pp w')) common.TCPNumber prt)
      <-> connectionTimeout < portReuseTimeout)) /\
  (finCount pme ≠ 2 -> checkTCPTermination hdr prt dir e w = Ok tt w).
Proof.
  intros Hfin Hrst Hack pub pme key.
  rewrite (checkTCPTermination_ACK _ _ _ _ _ Hfin Hrst Hack).
  fold pub. fold pme. split.
  - intros H2. apply Z.eqb_eq in H2. rewrite H2. eexists. split; [reflexivity|].
    cbn [pp PublicPort PrivatePort].
    assert (Hslot : pm_get (pm_set (PublicPort (evict (pp w) common.TCPNumber prt))
                              common.TCPNumber prt (closedSlot (now e)))
                      common.TCPNumber prt = closedSlot (now e))
      by apply pm_get_pm_set.
    split_and!.
    + unfold tt_Load, pm_set, set_portmap. cbn [translationTable].
      apply (evict_public_gone (pp w)).
    + intros pri Hpri. by apply evict_private_gone.
    + rewrite Hslot. reflexivity.
    + intros t. rewrite Hslot. apply closedSlot_free.
    + intros e2 w2 w3 Hsame Hearly Halloc.
      apply allocNewPort_Some in Halloc as (Hfree & _ & _).
      rewrite Hsame, Hslot in Hfree. apply closedSlot_free in Hfree. lia.
    + rewrite Hslot. unfold closedSlot. cbn [set_lastused lastused]. lia.
  - intros H2. apply Z.eqb_neq in H2. by rewrite H2.
Qed.

(** C5, as amended.  A TCP packet with the RST flag and without the FIN
    flag, seen by the termination tracker for a public port, whatever the
    [finCount] of the port and whatever its other flags: the connection
    entry of the port is removed at once and the slot is freed, holding
    the zero value, so that [lastused] is not moved forward and the
    reuse delay of the last ACK does not apply. *)
Theorem checkTCPTermination_rst hdr prt dir e w :
  Z.land (TCPFlags hdr) common.TCPFlagFin = 0 ->
  Z.land (TCPFlags hdr) common.TCPFlagRst ≠ 0 ->
  let pub := PublicPort (pp w) in
  let key := publicPairOf pub common.TCPNumber prt in
  exists w',
    checkTCPTermination hdr prt dir e w = Ok tt w' /\
    tt_Load (PublicPort (pp w')) common.TCPNumber key = None /\
    (forall pri, tt_Load pub common.TCPNumber key = Some pri ->
       tt_Load (PrivatePort (pp w')) common.TCPNumber pri = None) /\
    pm_get (PublicPort (pp w')) common.TCPNumber prt = zeroPortMapEntry /\
    lastused (pm_get (PublicPort (pp w')) common.TCPNumber prt) = 0 /\
    (forall t, portFree t (pm_get (PublicPort (pp w')) common.TCPNumber prt)
               = true <-> connectionTimeout < t).
Proof.
  intros Hfin Hrst pub key.
  rewrite (checkTCPTermination_RST _ _ _ _ _ Hfin Hrst).
  eexists. split; [reflexivity|]. cbn [pp].
  rewrite evict_slot. split_and!.
  - apply evict_public_gone.
  - intros pri Hpri. by apply evict_private_gone.
  - reflexivity.
  - reflexivity.
  - intros t. unfold portFree, zeroPortMapEntry. cbn [static lastused negb andb].
    rewrite Z.ltb_lt. lia.
Qed.

(** ** ARP requests *)

Lemma sent_app l1 l2 : sent (l1 ++ l2) = sent l1 ++ sent l2.
Proof. apply omap_app. Qed.

Lemma warnings_app l1 l2 : warnings (l1 ++ l2) = warnings l1 ++ warnings l2.
Proof. apply omap_app. Qed.

(** [handleARP] on a request, without a kernel interface. *)
Lemma handleARP_request self pkt e w :
  let arp := GetARPNoCheck pkt in
  let p := deref (pp w) self in
  packet.SwapBytesUint16 (Operation arp) = packet.ARPRequest ->
  KNIName p = "" ->
  handleARP self pkt e w =
    if bool_decide (arpTargets p arp) then
      if bool_decide (THA arp = zeroMAC) then
        if mbufAvailable e then
          let answer := arpAnswer p arp (VLAN pkt) in
          Ok dirDROP
             (mkWorld (pp w)
                (out w ++ [EvDump (Index p) answer dirSEND;
                           EvSend (Index p) answer]))
        else Fatal
      else
        Ok dirDROP
           (mkWorld (pp w)
              (out w ++ [EvWarn "Warning! Got an ARP packet with non-zero MAC address. ARP request ignored."]))
    else
      Ok dirDROP
         (mkWorld (pp w)
            (out w ++ [EvWarn "Warning! Got an ARP packet with target IPv4 address different from IPv4 address on interface. ARP request ignored."])).
Proof.
  intros arp p Hop Hkni. unfold handleARP. fold arp. mrun. fold p.
  rewrite Hop, Hkni. cbn [Z.eqb Pos.eqb packet.ARPRequest negb].
  rewrite (bool_decide_eq_false_2 ("" ≠ "")) by (intros Hne; by apply Hne).
  destruct (decide (arpTargets p arp)) as [Ht|Ht].
  - rewrite (bool_decide_eq_true_2 _ Ht). unfold arpTargets in Ht.
    rewrite Ht, Z.eqb_refl. cbn [negb].
    destruct (decide (THA arp = zeroMAC)) as [Hz|Hnz].
    + rewrite (bool_decide_eq_false_2 (THA arp ≠ zeroMAC)) by (intros Hn; by apply Hn).
      rewrite (bool_decide_eq_true_2 (THA arp = zeroMAC)) by done.
      mrun. destruct (mbufAvailable e); [|reflexivity].
      mrun. unfold arpAnswer, packet.GetVLAN. fold p.
      rewrite <- app_assoc. reflexivity.
    + rewrite (bool_decide_eq_true_2 (THA arp ≠ zeroMAC)) by done.
      rewrite (bool_decide_eq_false_2 (THA arp = zeroMAC)) by done.
      mrun. reflexivity.
  - rewrite (bool_decide_eq_false_2 _ Ht). unfold arpTargets in Ht.
    apply Z.eqb_neq in Ht. rewrite Ht. cbn [negb]. mrun. reflexivity.
Qed.

(** What the two translation functions do with a packet that is not
    IPv4 and carries ARP: they answer what [handleARP] answers. *)
Lemma translate_ARP self pkt arp e w :
  L3 pkt = L3ARP arp ->
  translate self pkt e w =
    match handleARP self pkt e
            (mkWorld (pp w)
               (out w ++ [EvDump (Index (deref (pp w) self)) pkt dirSEND])) with
    | Ok dir w1 =>
        Ok (dir, pkt)
           (mkWorld (pp w1)
              (out w1 ++ [EvDump (Index (deref (pp w1) self)) pkt dir]))
    | Fatal => Fatal
    end.
Proof.
  intros HL3.
  destruct self; cbn [translate];
    unfold PrivateToPublicTranslation, PublicToPrivateTranslation,
      parsePacketAndCheckARP, packet.GetIPv4CheckVLAN, packet.GetARPCheckVLAN;
    rewrite HL3; mrun;
    destruct (handleARP _ pkt e _) as [dir w1|]; mrun; reflexivity.
Qed.

(** C6. An ARP request received by an attachment point that has no
    kernel interface.  If the request asks for the configured address of
    the attachment point and its target hardware address is blank, exactly
    one packet is sent: an ARP reply whose sender hardware address is the
    configured MAC, whose sender protocol address is the target of the
    request, and whose target fields are the sender fields of the request
    (carrying the VLAN tag of the request when it has one); the request
    itself is dropped.  If the request asks for another address, or if its
    target hardware address is not blank, nothing is sent and the request
    is dropped.  The tables are left as they were in both cases. *)
Theorem arp_request_answer self pkt arp e w :
  let p := deref (pp w) self in
  L3 pkt = L3ARP arp ->
  packet.SwapBytesUint16 (Operation arp) = packet.ARPRequest ->
  KNIName p = "" ->
  (arpTargets p arp -> THA arp = zeroMAC ->
   wfArray (SPA arp) -> wfArray (TPA arp) -> mbufAvailable e = true ->
   exists w' reply,
     translate self pkt e w = Ok (dirDROP, pkt) w' /\
     pp w' = pp w /\
     sent (out w') = sent (out w) ++ [(Index p, reply)] /\
     let answer :=
       mkPacket (mkEtherHdr (SHA arp) (SrcMACAddress p)) None
         (L3ARP (mkARPHdr (packet.SwapBytesUint16 packet.ARPReply)
                   (SrcMACAddress p) (TPA arp) (SHA arp) (SPA arp))) in
     reply = match VLAN pkt with
             | Some v => AddVLANTag answer (packet.SwapBytesUint16 (TCI v))
             | None => answer
             end) /\
  (~ arpTargets p arp \/ THA arp ≠ zeroMAC ->
   exists w',
     translate self pkt e w = Ok (dirDROP, pkt) w' /\
     pp w' = pp w /\
     sent (out w') = sent (out w)).
Proof.
  intros p HL3 Hop Hkni.
  assert (Harp : GetARPNoCheck pkt = arp) by (unfold GetARPNoCheck; by rewrite HL3).
  rewrite (translate_ARP _ _ _ _ _ HL3).
  rewrite handleARP_request; cbn [pp out]; rewrite ?Harp; fold p; try done.
  split.
  - intros Ht Hz Hspa Htpa Hbuf.
    rewrite (bool_decide_eq_true_2 _ Ht), (bool_decide_eq_true_2 _ Hz), Hbuf.
    cbv zeta. do 2 eexists. split; [reflexivity|]. cbn [pp out].
    split; [reflexivity|]. split.
    + rewrite !sent_app. cbn. rewrite !app_nil_r. reflexivity.
    + unfold arpAnswer, packet.InitARPReplyPacket.
      rewrite !IPv4ToBytes_ArrayToIPv4 by assumption. reflexivity.
  - intros Hno.
    destruct (decide (arpTargets p arp)) as [Ht|Ht].
    + destruct Hno as [Hno|Hnz]; [done|].
      rewrite (bool_decide_eq_true_2 _ Ht), (bool_decide_eq_false_2 _ Hnz).
      eexists. split; [reflexivity|]. cbn [pp out]. split; [reflexivity|].
      rewrite !sent_app. cbn. by rewrite !app_nil_r.
    + rewrite (bool_decide_eq_false_2 _ Ht).
      eexists. split; [reflexivity|]. cbn [pp out]. split; [reflexivity|].
      rewrite !sent_app. cbn. by rewrite !app_nil_r.
Qed.

(** ** ICMP addressed to the translator *)

Lemma handleICMP_run self pkt key e w :
  let p := deref (pp w) self in
  handleICMP self pkt key e w =
    if negb (packet.SwapBytesUint32 (DstAddr (GetIPv4NoCheck pkt))
             =? Subnet_Addr p) then Ok dirSEND w
    else if icmpToKNI p (now e) key then Ok dirKNI w
    else if negb (icmpType (GetICMPNoCheck pkt) =? common.ICMPTypeEchoRequest)
            || negb (icmpCode (GetICMPNoCheck pkt) =? 0) then Ok dirSEND w
    else if mbufAvailable e then
      Ok dirDROP
         (mkWorld (pp w)
            (out w ++ [EvDump (Index p) (icmpAnswer pkt) dirSEND;
                       EvSend (Index p) (icmpAnswer pkt)]))
    else Fatal.
Proof.
  intros p. unfold handleICMP. mrun. fold p.
  destruct (negb (_ =? Subnet_Addr p)); [reflexivity|].
  unfold icmpToKNI.
  destruct (bool_decide (KNIName p ≠ "")); cbn [andb].
  - destruct key as [key|].
    + destruct (tt_Load p common.ICMPNumber key); mrun.
      * destruct (connectionTimeout <? _); [reflexivity|].
        destruct (negb _ || negb _); [reflexivity|].
        destruct (mbufAvailable e); [|reflexivity].
        unfold icmpAnswer. by rewrite <- app_assoc.
      * reflexivity.
    + destruct (negb _ || negb _); [reflexivity|].
      destruct (mbufAvailable e); [|reflexivity].
      unfold icmpAnswer. by rewrite <- app_assoc.
  - destruct (negb _ || negb _); [reflexivity|].
    destruct (mbufAvailable e); [|reflexivity].
    unfold icmpAnswer. by rewrite <- app_assoc.
Qed.

(** Both translation functions on an IPv4 packet that carries ICMP
    which [handleICMP] does not let through. *)
Lemma translate_ICMP_intercepted self pkt h icmp e w d w1 :
  L3 pkt = L3IPv4 h (L4ICMP icmp) ->
  NextProtoID h = common.ICMPNumber ->
  handleICMP self pkt (icmpKeyArg self h icmp) e
    (mkWorld (pp w) (out w ++ [EvDump (Index (deref (pp w) self)) pkt dirSEND]))
  = Ok d w1 ->
  d ≠ dirSEND ->
  translate self pkt e w = Ok (d, pkt) w1.
Proof.
  intros HL3 Hproto Hrun Hd.
  destruct self; cbn [translate icmpKeyArg deref] in *;
    unfold PrivateToPublicTranslation, PublicToPrivateTranslation,
      parsePacketAndCheckARP, packet.GetIPv4CheckVLAN,
      packet.ParseAllKnownL4ForIPv4,
      generateLookupKeyFromSrcAndHandleICMP,
      generateLookupKeyFromDstAndHandleICMP;
    rewrite HL3, Hproto; cbn [Z.eqb Pos.eqb common.ICMPNumber];
    mrun; rewrite Hrun;
    rewrite (bool_decide_eq_true_2 _ Hd); reflexivity.
Qed.

(** C7. An IPv4 packet carrying ICMP whose destination is the configured
    address of the attachment point that receives it, and that
    [handleICMP] does not hand to the kernel interface.  If it is an echo
    request (type echo request, code 0), exactly one packet is sent: the
    copy of the request with source and destination addresses swapped and
    the ICMP type set to echo reply, passed last through the ICMP checksum
    setter; the request itself gets the disposition drop and the tables
    are left as they were.  If its type is not echo request, [handleICMP]
    answers [dirSEND] without any effect and the key generator of the
    attachment point returns the lookup key: the packet goes on to the
    table lookup. *)
Theorem icmp_echo_to_self self pkt h icmp e w :
  let p := deref (pp w) self in
  L3 pkt = L3IPv4 h (L4ICMP icmp) ->
  NextProtoID h = common.ICMPNumber ->
  packet.SwapBytesUint32 (DstAddr h) = Subnet_Addr p ->
  icmpToKNI p (now e) (icmpKeyArg self h icmp) = false ->
  (icmpType icmp = common.ICMPTypeEchoRequest -> icmpCode icmp = 0 ->
   mbufAvailable e = true ->
   exists w' reply,
     translate self pkt e w = Ok (dirDROP, pkt) w' /\
     pp w' = pp w /\
     sent (out w') = sent (out w) ++ [(Index p, reply)] /\
     reply =
       setIPv4ICMPChecksum
         (mkPacket (mkEtherHdr (SAddr (Ether pkt)) (DAddr (Ether pkt)))
            (VLAN pkt)
            (L3IPv4
               (mkIPv4Hdr (NextProtoID h) (HdrChecksum h) (DstAddr h) (SrcAddr h))
               (L4ICMP
                  (mkICMPHdr common.ICMPTypeEchoResponse (icmpCode icmp)
                     (icmpCksum icmp) (Identifier icmp) (SeqNum icmp)))))
         (negb NoCalculateChecksum) (negb NoHWTXChecksum)) /\
  (icmpType icmp ≠ common.ICMPTypeEchoRequest ->
   handleICMP self pkt (icmpKeyArg self h icmp) e w = Ok dirSEND w /\
   match self with
   | Public =>
       generateLookupKeyFromDstAndHandleICMP Public pkt h None None (Some icmp) e w
       = Ok (Some (mkTuple (packet.SwapBytesUint32 (DstAddr h))
                     (packet.SwapBytesUint16 (Identifier icmp))), dirSEND) w
   | Private =>
       generateLookupKeyFromSrcAndHandleICMP Private pkt h None None (Some icmp) e w
       = Ok (Some (mkTuple (packet.SwapBytesUint32 (SrcAddr h))
                     (packet.SwapBytesUint16 (Identifier icmp))), dirSEND) w
   end).
Proof.
  intros p HL3 Hproto Hdst Hkni.
  assert (Hip : GetIPv4NoCheck pkt = h) by (unfold GetIPv4NoCheck; by rewrite HL3).
  assert (Hic : GetICMPNoCheck pkt = icmp) by (unfold GetICMPNoCheck; by rewrite HL3).
  split.
  - intros Hty Hcode Hbuf.
    do 2 eexists. split; [|split; [|split]].
    + eapply (translate_ICMP_intercepted _ _ _ _ _ _ _ _ HL3 Hproto); [|done].
      rewrite handleICMP_run. cbn [pp out]. fold p.
      rewrite Hip, Hic, Hdst, Z.eqb_refl, Hkni, Hty, Hcode, Hbuf.
      cbn [negb orb Z.eqb Pos.eqb common.ICMPTypeEchoRequest]. reflexivity.
    + reflexivity.
    + cbn [out]. rewrite !sent_app. cbn. by rewrite !app_nil_r.
    + unfold icmpAnswer, swapAddrIPv4, packet.mapL4, packet.mapIPv4,
        packet.setEther. cbn [L3 Ether VLAN]. rewrite HL3. reflexivity.
  - intros Hty.
    assert (Hrun : handleICMP self pkt (icmpKeyArg self h icmp) e w = Ok dirSEND w).
    { rewrite handleICMP_run. fold p.
      rewrite Hip, Hic, Hdst, Z.eqb_refl, Hkni.
      apply Z.eqb_neq in Hty. rewrite Hty. reflexivity. }
    split; [exact Hrun|].
    destruct self; cbn [icmpKeyArg] in Hrun;
      unfold generateLookupKeyFromSrcAndHandleICMP,
        generateLookupKeyFromDstAndHandleICMP; mrun; rewrite Hrun;
      rewrite bool_decide_eq_false_2 by (intros Hn; by apply Hn); reflexivity.
Qed.

(** ** Ingress: the lookup *)

Lemma bool_decide_ne_refl {A} `{EqDecision A} (x : A) :
  bool_decide (x ≠ x) = false.
Proof. apply bool_decide_eq_false_2. intros Hn. by apply Hn. Qed.

(** An ingress packet whose lookup key is not in the public table. *)
Lemma ingress_miss pkt protocol key e w :
  let pub := PublicPort (pp w) in
  ingressKey pkt = Some (protocol, key) ->
  tt_Load pub protocol key = None ->
  mbufAvailable e = true ->
  exists w',
    PublicToPrivateTranslation pkt e w
    = Ok (if bool_decide (icmpForKernel pub protocol pkt) then dirKNI
          else dirDROP, pkt) w' /\
    pp w' = pp w.
Proof.
  intros pub Hkey Hmiss Hbuf. unfold ingressKey in Hkey.
  destruct (L3 pkt) as [h l4| |] eqn:HL3; try discriminate.
  unfold packet.ParseAllKnownL4ForIPv4 in Hkey. rewrite HL3 in Hkey.
  unfold PublicToPrivateTranslation, parsePacketAndCheckARP,
    packet.GetIPv4CheckVLAN, packet.ParseAllKnownL4ForIPv4,
    generateLookupKeyFromDstAndHandleICMP.
  rewrite HL3.
  destruct l4 as [tcp|udp|icmp|].
  - destruct (NextProtoID h =? common.TCPNumber) eqn:E; [|discriminate].
    injection Hkey as <- <-. apply Z.eqb_eq in E.
    rewrite bool_decide_eq_false_2
      by (unfold icmpForKernel; rewrite E; intros [? _]; discriminate).
    mrun. fold pub. rewrite Hmiss. eexists. split; reflexivity.
  - destruct (NextProtoID h =? common.UDPNumber) eqn:E; [|discriminate].
    injection Hkey as <- <-. apply Z.eqb_eq in E.
    rewrite bool_decide_eq_false_2
      by (unfold icmpForKernel; rewrite E; intros [? _]; discriminate).
    mrun. fold pub. rewrite Hmiss. eexists. split; reflexivity.
  - destruct (NextProtoID h =? common.ICMPNumber) eqn:E; [|discriminate].
    injection Hkey as <- <-. apply Z.eqb_eq in E.
    assert (Hip : GetIPv4NoCheck pkt = h)
      by (unfold GetIPv4NoCheck; by rewrite HL3).
    mrun. rewrite handleICMP_run. cbn [pp out deref]. fold pub.
    pose proof Hmiss as Hmiss'. rewrite E in Hmiss'.
    rewrite Hip. unfold icmpToKNI. rewrite Hmiss'.
    destruct (decide (icmpForKernel pub (NextProtoID h) pkt)) as [Hk|Hk].
    + rewrite (bool_decide_eq_true_2 _ Hk).
      destruct Hk as (_ & Hself & Hkni). unfold dstAddrOf in Hself.
      rewrite Hip in Hself. rewrite Hself, Z.eqb_refl.
      rewrite (bool_decide_eq_true_2 _ Hkni). cbn [negb andb].
      rewrite bool_decide_eq_true_2 by done.
      eexists. split; reflexivity.
    + rewrite (bool_decide_eq_false_2 _ Hk).
      assert (Hno : packet.SwapBytesUint32 (DstAddr h) ≠ Subnet_Addr pub
                    \/ KNIName pub = "").
      { destruct (decide (packet.SwapBytesUint32 (DstAddr h) = Subnet_Addr pub))
          as [Hself|?]; [|by left].
        destruct (decide (KNIName pub = "")) as [?|Hkni]; [by right|].
        exfalso. apply Hk. unfold icmpForKernel, dstAddrOf. by rewrite Hip. }
      destruct (Z.eqb_spec (packet.SwapBytesUint32 (DstAddr h)) (Subnet_Addr pub))
        as [Hself|Hother]; cbn [negb].
      * destruct Hno as [?|Hkni]; [done|].
        rewrite Hkni, bool_decide_ne_refl. cbn [andb].
        destruct (negb _ || negb _).
        -- rewrite bool_decide_ne_refl. cbn [pp out deref]. fold pub.
           rewrite Hmiss.
           eexists. split; reflexivity.
        -- rewrite Hbuf. rewrite bool_decide_eq_true_2 by done.
           eexists. split; reflexivity.
      * rewrite bool_decide_ne_refl. cbn [pp out deref]. fold pub.
           rewrite Hmiss.
        eexists. split; reflexivity.
  - discriminate.
Qed.

(** ** Relations kept by every step of an action *)

Lemma preserves_ret R `{!Frame R} {A} (a : A) : preserves R (ret a).
Proof. intros e w a' w' [= _ <-]. apply frame_refl. Qed.

Lemma preserves_bind R `{!Frame R} {A B} (m : M A) (k : A -> M B) :
  preserves R m -> (forall a, preserves R (k a)) -> preserves R (bind m k).
Proof.
  intros Hm Hk e w b w'. unfold bind.
  destruct (m e w) as [a w1|] eqn:E; [|discriminate].
  intros Hrun. eapply frame_trans; [eapply Hm, E | eapply Hk, Hrun].
Qed.

Lemma preserves_getPort R `{!Frame R} r : preserves R (getPort r).
Proof. intros e w a w' [= _ <-]. apply frame_refl. Qed.

Lemma preserves_timeNow R `{!Frame R} : preserves R timeNow.
Proof. intros e w a w' [= _ <-]. apply frame_refl. Qed.

Lemma preserves_Since R `{!Frame R} t : preserves R (Since t).
Proof. intros e w a w' [= _ <-]. apply frame_refl. Qed.

Lemma preserves_emit R `{!Frame R} ev : preserves R (emit ev).
Proof. intros e w a w' [= _ <-]. apply frame_out. Qed.

Lemma preserves_NewPacket R `{!Frame R} : preserves R NewPacket.
Proof.
  intros e w a w'. unfold NewPacket. destruct (mbufAvailable e); [|discriminate].
  intros [= _ <-]. apply frame_refl.
Qed.

Lemma preserves_panic R {A} : preserves R (@panic A).
Proof. intros e w a w'. discriminate. Qed.

Lemma preserves_modifyPort R r f :
  (forall w, R w (mkWorld (assign (pp w) r (f (deref (pp w) r))) (out w))) ->
  preserves R (modifyPort r f).
Proof. intros Hf e w a w' [= _ <-]. apply Hf. Qed.

#[global] Instance noNewEntry_frame : Frame noNewEntry.
Proof.
  split.
  - by split.
  - intros w1 w2 w3 [? ?] [? ?]. split; etrans; eassumption.
  - by split.
Qed.

#[global] Instance samePrivateARP_frame : Frame samePrivateARP.
Proof.
  split; unfold samePrivateARP.
  - done.
  - intros w1 w2 w3 H12 H23. by rewrite H23.
  - done.
Qed.

Lemma neverMaps_deleteOldConnection protocol prt :
  preserves noNewEntry (deleteOldConnection protocol prt).
Proof.
  intros e w a w'. rewrite deleteOldConnection_run. intros [= _ <-].
  split; cbn [pp]; [apply evict_public_table | apply evict_private_table].
Qed.

Lemma samePrivateARP_deleteOldConnection protocol prt :
  preserves samePrivateARP (deleteOldConnection protocol prt).
Proof.
  intros e w a w'. rewrite deleteOldConnection_run. intros [= _ <-].
  unfold samePrivateARP. cbn [pp]. apply evict_arp.
Qed.

Create HintDb preserves.
#[local] Hint Resolve preserves_ret preserves_getPort preserves_timeNow
  preserves_Since preserves_emit preserves_NewPacket preserves_panic
  noNewEntry_frame samePrivateARP_frame
  neverMaps_deleteOldConnection samePrivateARP_deleteOldConnection : preserves.

(** Walk through an action: binds, branches and the primitive actions;
    [tac] proves that a write to an attachment point keeps the
    relation. *)
Ltac walk tac :=
  unfold mutex_Lock, mutex_Unlock, pme_update, println, dumpPacket, SendPacket;
  repeat first
    [ solve [auto with preserves]
    | apply preserves_bind; [auto with preserves| |intros ?]
    | apply preserves_modifyPort; intros ?; solve [tac]
    | match goal with
      | |- preserves _ (if ?b then _ else _) => destruct b
      | |- preserves _ (match ?x with _ => _ end) => destruct x
      | |- preserves _ (let (_, _) := ?x in _) => destruct x
      end ].

(** A write that leaves the translation table of the attachment point
    as it is. *)
Ltac same_tables :=
  idtac;
  match goal with
  | |- noNewEntry _ (mkWorld (assign _ ?r _) _) =>
      destruct r; split; cbn [pp assign deref PublicPort PrivatePort]; done
  end.

(** A write to the public attachment point. *)
Ltac public_write := idtac; unfold samePrivateARP; reflexivity.

(** ** Ingress never creates a mapping *)

Lemma neverMaps_checkTCPTermination hdr prt dir :
  preserves noNewEntry (checkTCPTermination hdr prt dir).
Proof. unfold checkTCPTermination. walk same_tables. Qed.

Lemma neverMaps_handleARP self pkt : preserves noNewEntry (handleARP self pkt).
Proof. unfold handleARP. walk same_tables. Qed.

Lemma neverMaps_handleICMP self pkt key : preserves noNewEntry (handleICMP self pkt key).
Proof. unfold handleICMP. walk same_tables. Qed.

Lemma neverMaps_getMACForIP self ip : preserves noNewEntry (getMACForIP self ip).
Proof. unfold getMACForIP, sendARPRequest. walk same_tables. Qed.

#[local] Hint Resolve neverMaps_checkTCPTermination neverMaps_handleARP
  neverMaps_handleICMP neverMaps_getMACForIP : preserves.

Lemma neverMaps_PublicToPrivateTranslation pkt :
  preserves noNewEntry (PublicToPrivateTranslation pkt).
Proof.
  unfold PublicToPrivateTranslation, forwardToPrivate, parsePacketAndCheckARP,
    generateLookupKeyFromDstAndHandleICMP, setPacketDstPort.
  walk same_tables.
Qed.

(** C1, as amended.  An ingress packet whose lookup key (destination
    address with destination port or ICMP identifier) is not in the table
    of the public attachment point for its protocol: the disposition is
    drop and the state of the pair is left exactly as it was, except that
    an ICMP packet addressed to the attachment point itself goes to the
    kernel interface when there is one (the state is left as it was there
    too).  The packet pool is assumed to provide the buffer of an echo
    reply.  And whatever the packet, ingress translation never adds an
    entry to either translation table. *)
Theorem ingress_miss_never_maps pkt protocol key e w :
  let pub := PublicPort (pp w) in
  ingressKey pkt = Some (protocol, key) ->
  tt_Load pub protocol key = None ->
  mbufAvailable e = true ->
  (exists w',
     PublicToPrivateTranslation pkt e w
     = Ok (if bool_decide (icmpForKernel pub protocol pkt) then dirKNI
           else dirDROP, pkt) w' /\
     pp w' = pp w) /\
  (forall pkt0 e0 w0 r w1,
     PublicToPrivateTranslation pkt0 e0 w0 = Ok r w1 -> noNewEntry w0 w1).
Proof.
  intros pub Hkey Hmiss Hbuf. split.
  - by apply (ingress_miss pkt protocol key).
  - intros pkt0 e0 w0 r w1. apply neverMaps_PublicToPrivateTranslation.
Qed.

(** ** Lookup hits and aging *)


(** When [handleICMP] lets a packet through it has no effect, and it
    does so whatever was emitted before. *)
Lemma handleICMP_out self pkt key e w o :
  handleICMP self pkt key e w = Ok dirSEND w ->
  handleICMP self pkt key e (mkWorld (pp w) o) = Ok dirSEND (mkWorld (pp w) o).
Proof.
  rewrite !handleICMP_run. cbn [pp out].
  repeat (match goal with |- context [if ?b then _ else _] => destruct b end);
    congruence.
Qed.

(** An ingress packet whose lookup key is in the public table. *)
Lemma ingress_hit pkt h l4 protocol key value e w :
  let pub := PublicPort (pp w) in
  let slot := pm_get pub protocol (port key) in
  L3 pkt = L3IPv4 h l4 ->
  ingressKey pkt = Some (protocol, key) ->
  passesICMP Public pkt protocol key e w ->
  tt_Load pub protocol key = Some value ->
  PublicToPrivateTranslation pkt e w =
    let '(pktTCP, pktUDP, pktICMP) := packet.ParseAllKnownL4ForIPv4 pkt in
    if static slot || (now e - lastused slot <=? connectionTimeout) then
      forwardToPrivate pkt (VLAN pkt) pktTCP pktUDP pktICMP protocol key value e
        (mkWorld (refreshed (pp w) protocol (port key) (now e))
           (out w ++ [EvDump (Index pub) pkt dirSEND]))
    else
      Ok (dirDROP, pkt)
         (mkWorld (evict (pp w) protocol (port key))
            (out w ++ [EvDump (Index pub) pkt dirSEND;
                       EvDump (Index pub) pkt dirDROP])).
Proof.
  intros pub slot HL3 Hkey Hpass Hhit. unfold ingressKey in Hkey.
  rewrite HL3 in Hkey.
  unfold PublicToPrivateTranslation, parsePacketAndCheckARP,
    packet.GetIPv4CheckVLAN, packet.ParseL3CheckVLAN,
    generateLookupKeyFromDstAndHandleICMP.
  rewrite HL3.
  destruct (packet.ParseAllKnownL4ForIPv4 pkt) as [[[tcp|] [udp|]] [icmp|]]
    eqn:Hv; try discriminate; injection Hkey as <- <-.
  1-6: mrun; fold pub; rewrite Hhit; fold slot;
       (destruct (static slot || _);
        [ reflexivity
        | rewrite deleteOldConnection_run; cbn [pp out];
          rewrite (proj1 (evict_Index _ _ _)), <- app_assoc; reflexivity ]).
  assert (HP : NextProtoID h = common.ICMPNumber).
  { unfold packet.ParseAllKnownL4ForIPv4 in Hv. rewrite HL3 in Hv.
    destruct l4; try discriminate;
      match type of Hv with (if ?b then _ else _) = _ =>
        destruct b eqn:E; try discriminate end.
    by apply Z.eqb_eq. }
  specialize (Hpass HP). cbn beta iota in Hpass.
  mrun. fold pub.
  rewrite (handleICMP_out _ _ _ _ _ (out w ++ [EvDump (Index pub) pkt dirSEND]) Hpass).
  rewrite bool_decide_ne_refl. cbn [pp out]. fold pub. rewrite Hhit. fold slot.
  destruct (static slot || _).
  - reflexivity.
  - rewrite deleteOldConnection_run; cbn [pp out].
    rewrite (proj1 (evict_Index _ _ _)), <- app_assoc. reflexivity.
Qed.

(** ** Egress: the lookup *)

Lemma views_ICMP pkt h l4 icmp :
  L3 pkt = L3IPv4 h l4 ->
  packet.ParseAllKnownL4ForIPv4 pkt = (None, None, Some icmp) ->
  NextProtoID h = common.ICMPNumber.
Proof.
  intros HL3 Hv. unfold packet.ParseAllKnownL4ForIPv4 in Hv. rewrite HL3 in Hv.
  destruct l4; try discriminate;
    match type of Hv with (if ?b then _ else _) = _ =>
      destruct b eqn:E; try discriminate end.
  by apply Z.eqb_eq.
Qed.

(** The egress translation of a packet that reaches the table lookup. *)
Lemma egress_lookup pkt h l4 protocol key e w :
  let priv := PrivatePort (pp w) in
  L3 pkt = L3IPv4 h l4 ->
  egressKey pkt = Some (protocol, key) ->
  passesICMP Private pkt protocol key e w ->
  ~ forPrivateKernel priv pkt ->
  PrivateToPublicTranslation pkt e w =
    let '(pktTCP, pktUDP, pktICMP) := packet.ParseAllKnownL4ForIPv4 pkt in
    let w0 := mkWorld (pp w) (out w ++ [EvDump (Index priv) pkt dirSEND]) in
    match tt_Load priv protocol key with
    | None =>
        match allocateNewEgressConnection protocol key e
                (mkWorld (learned (pp w) (addr key) (SAddr (Ether pkt))) (out w0))
        with
        | Ok None w1 =>
            Ok (dirDROP, pkt)
               (mkWorld (pp w1)
                  (out w1 ++ [EvWarn "Warning! Failed to allocate new connection";
                              EvDump (Index (PrivatePort (pp w1))) pkt dirDROP]))
        | Ok (Some value) w1 =>
            forwardToPublic pkt (VLAN pkt) h pktTCP pktUDP pktICMP value e w1
        | Fatal => Fatal
        end
    | Some value =>
        forwardToPublic pkt (VLAN pkt) h pktTCP pktUDP pktICMP value e
          (mkWorld (refreshed (pp w) protocol (port value) (now e)) (out w0))
    end.
Proof.
  intros priv HL3 Hkey Hpass Hkni. unfold egressKey in Hkey.
  rewrite HL3 in Hkey.
  assert (Hip : GetIPv4NoCheck pkt = h)
    by (unfold GetIPv4NoCheck; by rewrite HL3).
  assert (Hk : bool_decide (KNIName priv ≠ "")
               && (Subnet_Addr priv =? packet.SwapBytesUint32 (DstAddr h))
               = false).
  { apply not_true_is_false. intros [Ha Hb]%andb_true_iff.
    apply bool_decide_eq_true_1 in Ha. apply Z.eqb_eq in Hb.
    apply Hkni. split; [done|]. unfold dstAddrOf. by rewrite Hip. }
  unfold PrivateToPublicTranslation, parsePacketAndCheckARP,
    packet.GetIPv4CheckVLAN, packet.ParseL3CheckVLAN,
    generateLookupKeyFromSrcAndHandleICMP.
  rewrite HL3.
  destruct (packet.ParseAllKnownL4ForIPv4 pkt) as [[[tcp|] [udp|]] [icmp|]]
    eqn:Hv; try discriminate; injection Hkey as <- <-.
  1-6: mrun; fold priv; rewrite Hk;
       (destruct (tt_Load priv _ _); [reflexivity|]);
       unfold learned; cbn [assign];
       (destruct (allocateNewEgressConnection _ _ _ _) as [[v|] w1|];
        [reflexivity| |reflexivity]);
       rewrite <- app_assoc; reflexivity.
  specialize (Hpass (views_ICMP _ _ _ _ HL3 Hv)). cbn beta iota in Hpass.
  mrun. fold priv.
  rewrite (handleICMP_out _ _ _ _ _ (out w ++ [EvDump (Index priv) pkt dirSEND]) Hpass).
  rewrite bool_decide_ne_refl. cbn [pp out]. fold priv. rewrite Hk.
  destruct (tt_Load priv _ _); [reflexivity|].
  unfold learned; cbn [assign].
  destruct (allocateNewEgressConnection _ _ _ _) as [[v|] w1|];
    [reflexivity| |reflexivity].
  rewrite <- app_assoc; reflexivity.
Qed.

(** ** Egress: the private ARP cache and pool exhaustion *)

Lemma allocateNewEgressConnection_exhausted protocol privEntry e w :
  poolExhausted (now e) (PublicPort (pp w)) protocol ->
  allocateNewEgressConnection protocol privEntry e w = Ok None w.
Proof.
  intros Hex. unfold allocateNewEgressConnection. mrun.
  rewrite allocNewPort_exhausted by assumption. reflexivity.
Qed.

Lemma samePrivateARP_allocNewPort protocol :
  preserves samePrivateARP (allocNewPort protocol).
Proof. unfold allocNewPort. walk public_write. Qed.

#[local] Hint Resolve samePrivateARP_allocNewPort : preserves.

Lemma samePrivateARP_allocateNewEgressConnection protocol privEntry :
  preserves samePrivateARP (allocateNewEgressConnection protocol privEntry).
Proof. unfold allocateNewEgressConnection. walk public_write. Qed.

Lemma samePrivateARP_checkTCPTermination hdr prt dir :
  preserves samePrivateARP (checkTCPTermination hdr prt dir).
Proof. unfold checkTCPTermination. walk public_write. Qed.

Lemma samePrivateARP_getMACForIP ip :
  preserves samePrivateARP (getMACForIP Public ip).
Proof. unfold getMACForIP, sendARPRequest. walk public_write. Qed.

#[local] Hint Resolve samePrivateARP_checkTCPTermination
  samePrivateARP_getMACForIP : preserves.

Lemma samePrivateARP_forwardToPublic pkt pktVLAN h pktTCP pktUDP pktICMP value :
  preserves samePrivateARP
    (forwardToPublic pkt pktVLAN h pktTCP pktUDP pktICMP value).
Proof.
  unfold forwardToPublic, setPacketSrcPort. cbn [opposite]. walk public_write.
Qed.

(** C8. An egress packet whose lookup misses while the pool of its
    protocol is exhausted: the packet is dropped, the warning is printed,
    no packet is sent, and the translation state is as before: neither
    translation table and no slot of the port map has changed. *)
Theorem egress_pool_exhausted pkt h l4 protocol key e w :
  let priv := PrivatePort (pp w) in
  let pub := PublicPort (pp w) in
  L3 pkt = L3IPv4 h l4 ->
  egressKey pkt = Some (protocol, key) ->
  passesICMP Private pkt protocol key e w ->
  ~ forPrivateKernel priv pkt ->
  tt_Load priv protocol key = None ->
  poolExhausted (now e) pub protocol ->
  exists w',
    PrivateToPublicTranslation pkt e w = Ok (dirDROP, pkt) w' /\
    warnings (out w')
    = warnings (out w) ++ ["Warning! Failed to allocate new connection"] /\
    sent (out w') = sent (out w) /\
    translationTable (PublicPort (pp w')) = translationTable pub /\
    translationTable (PrivatePort (pp w')) = translationTable priv /\
    portmap (PublicPort (pp w')) = portmap pub /\
    portmap (PrivatePort (pp w')) = portmap priv /\
    PublicPort (pp w') = pub.
Proof.
  intros priv pub HL3 Hkey Hpass Hkni Hmiss Hex.
  rewrite (egress_lookup _ _ _ _ _ _ _ HL3 Hkey Hpass Hkni).
  destruct (packet.ParseAllKnownL4ForIPv4 pkt) as [[pktTCP pktUDP] pktICMP].
  cbv zeta. fold priv. rewrite Hmiss.
  rewrite allocateNewEgressConnection_exhausted by exact Hex.
  eexists. split; [reflexivity|]. cbn [pp out learned assign PublicPort PrivatePort].
  split_and!; try reflexivity.
  - rewrite !warnings_app. cbn. by rewrite !app_nil_r.
  - rewrite !sent_app. cbn. by rewrite !app_nil_r.
Qed.

(** C10. An egress packet whose lookup misses: the allocation of the
    public port is run from a pair whose private ARP cache already binds
    the source address of the packet to its source MAC; whenever the call
    returns, the private ARP cache is the one it started with plus that
    binding; and when the pool is exhausted the call returns a drop in a
    pair that differs from the one it started with by exactly that
    binding. *)
Theorem egress_miss_learns_sender pkt h l4 protocol key e w :
  let priv := PrivatePort (pp w) in
  let q := learned (pp w) (addr key) (SAddr (Ether pkt)) in
  L3 pkt = L3IPv4 h l4 ->
  egressKey pkt = Some (protocol, key) ->
  passesICMP Private pkt protocol key e w ->
  ~ forPrivateKernel priv pkt ->
  tt_Load priv protocol key = None ->
  (arpTable (PrivatePort q) !! addr key = Some (SAddr (Ether pkt)) /\
   PrivateToPublicTranslation pkt e w =
     let '(pktTCP, pktUDP, pktICMP) := packet.ParseAllKnownL4ForIPv4 pkt in
     match allocateNewEgressConnection protocol key e
             (mkWorld q (out w ++ [EvDump (Index priv) pkt dirSEND])) with
     | Ok None w1 =>
         Ok (dirDROP, pkt)
            (mkWorld (pp w1)
               (out w1 ++ [EvWarn "Warning! Failed to allocate new connection";
                           EvDump (Index (PrivatePort (pp w1))) pkt dirDROP]))
     | Ok (Some value) w1 =>
         forwardToPublic pkt (VLAN pkt) h pktTCP pktUDP pktICMP value e w1
     | Fatal => Fatal
     end) /\
  (forall r w',
     PrivateToPublicTranslation pkt e w = Ok r w' ->
     arpTable (PrivatePort (pp w'))
     = <[addr key := SAddr (Ether pkt)]> (arpTable priv)) /\
  (poolExhausted (now e) (PublicPort (pp w)) protocol ->
   exists w',
     PrivateToPublicTranslation pkt e w = Ok (dirDROP, pkt) w' /\
     pp w' = q /\
     arpTable (PrivatePort (pp w')) !! addr key = Some (SAddr (Ether pkt))).
Proof.
  intros priv q HL3 Hkey Hpass Hkni Hmiss.
  rewrite (egress_lookup _ _ _ _ _ _ _ HL3 Hkey Hpass Hkni).
  destruct (packet.ParseAllKnownL4ForIPv4 pkt) as [[pktTCP pktUDP] pktICMP].
  cbv zeta. fold priv. rewrite Hmiss. fold q. cbn [out].
  assert (Hq : arpTable (PrivatePort q) !! addr key = Some (SAddr (Ether pkt))).
  { unfold q, learned. cbn [assign PrivatePort set_arpTable arpTable].
    apply lookup_insert_eq. }
  split_and!.
  - exact Hq.
  - reflexivity.
  - intros r w'.
    destruct (allocateNewEgressConnection _ _ _ _) as [[value|] w1|] eqn:Ea;
      [| |discriminate].
    + intros Hfwd.
      apply samePrivateARP_allocateNewEgressConnection in Ea.
      apply samePrivateARP_forwardToPublic in Hfwd.
      unfold samePrivateARP in *. cbn [pp] in Ea. by rewrite Hfwd, Ea.
    + intros [= _ <-].
      apply samePrivateARP_allocateNewEgressConnection in Ea.
      unfold samePrivateARP in *. cbn [pp] in *. by rewrite Ea.
  - intros Hex. rewrite allocateNewEgressConnection_exhausted by exact Hex.
    eexists. split; [reflexivity|]. cbn [pp]. split; [reflexivity|exact Hq].
Qed.



(** ** Egress: traffic for the private address of the translator *)

(** An egress packet addressed to the private attachment point itself,
    which has a kernel interface, and that the key generator lets
    through (TCP, UDP, and the ICMP that [handleICMP] does not answer):
    it goes to the kernel interface and the pair is left as it was. *)
Lemma egress_to_kernel pkt h l4 protocol key e w :
  let priv := PrivatePort (pp w) in
  L3 pkt = L3IPv4 h l4 ->
  egressKey pkt = Some (protocol, key) ->
  passesICMP Private pkt protocol key e w ->
  forPrivateKernel priv pkt ->
  exists w',
    PrivateToPublicTranslation pkt e w = Ok (dirKNI, pkt) w' /\
    pp w' = pp w /\ sent (out w') = sent (out w).
Proof.
  intros priv HL3 Hkey Hpass [Hname Hdst]. unfold egressKey in Hkey.
  rewrite HL3 in Hkey.
  assert (Hip : GetIPv4NoCheck pkt = h)
    by (unfold GetIPv4NoCheck; by rewrite HL3).
  unfold dstAddrOf in Hdst. rewrite Hip in Hdst.
  unfold PrivateToPublicTranslation, parsePacketAndCheckARP,
    packet.GetIPv4CheckVLAN, packet.ParseL3CheckVLAN,
    generateLookupKeyFromSrcAndHandleICMP.
  rewrite HL3.
  destruct (packet.ParseAllKnownL4ForIPv4 pkt) as [[[tcp|] [udp|]] [icmp|]]
    eqn:Hv; try discriminate; injection Hkey as <- <-.
  1-6: mrun; fold priv; rewrite (bool_decide_eq_true_2 _ Hname), <- Hdst,
         Z.eqb_refl; cbn [andb]; eexists; split; [reflexivity|];
       cbn [pp out]; split; [reflexivity|];
       rewrite !sent_app; cbn; by rewrite !app_nil_r.
  specialize (Hpass (views_ICMP _ _ _ _ HL3 Hv)). cbn beta iota in Hpass.
  mrun. fold priv.
  rewrite (handleICMP_out _ _ _ _ _ (out w ++ [EvDump (Index priv) pkt dirSEND]) Hpass).
  rewrite bool_decide_ne_refl. cbn [pp out]. fold priv.
  rewrite (bool_decide_eq_true_2 _ Hname), <- Hdst, Z.eqb_refl. cbn [andb].
  eexists. split; [reflexivity|]. cbn [pp out]. split; [reflexivity|].
  rewrite !sent_app. cbn. by rewrite !app_nil_r.
Qed.

(** * Further properties of the translation functions *)

(** ** Packets that are not translated *)

Lemma sent_dump l i p d : sent (l ++ [EvDump i p d]) = sent l.
Proof. rewrite sent_app. cbn. apply app_nil_r. Qed.

Lemma sent_warn l m : sent (l ++ [EvWarn m]) = sent l.
Proof. rewrite sent_app. cbn. apply app_nil_r. Qed.

Lemma translate_unsupported self pkt e w :
  keyOf self pkt = None ->
  packet.GetARPCheckVLAN pkt = None ->
  exists w',
    translate self pkt e w = Ok (dirDROP, pkt) w' /\
    pp w' = pp w /\ sent (out w') = sent (out w).
Proof.
  intros Hkey Harp.
  assert (Hviews : forall h l4, L3 pkt = L3IPv4 h l4 ->
            packet.ParseAllKnownL4ForIPv4 pkt = (None, None, None)).
  { intros h l4 HL3.
    destruct self; cbn [keyOf] in Hkey; unfold ingressKey, egressKey in Hkey;
      rewrite HL3 in Hkey;
      destruct (packet.ParseAllKnownL4ForIPv4 pkt) as [[[?|] [?|]] [?|]];
      done. }
  destruct (L3 pkt) as [h l4|a|] eqn:HL3.
  - specialize (Hviews h l4 eq_refl).
    destruct self; cbn [translate];
      unfold PrivateToPublicTranslation, PublicToPrivateTranslation,
        parsePacketAndCheckARP, packet.GetIPv4CheckVLAN,
        generateLookupKeyFromSrcAndHandleICMP,
        generateLookupKeyFromDstAndHandleICMP;
      rewrite HL3, Hviews; mrun; eexists; (split; [reflexivity|]);
      cbn [pp out]; (split; [reflexivity|]); by rewrite !sent_dump.
  - unfold packet.GetARPCheckVLAN in Harp. rewrite HL3 in Harp. discriminate.
  - destruct self; cbn [translate];
      unfold PrivateToPublicTranslation, PublicToPrivateTranslation,
        parsePacketAndCheckARP, packet.GetIPv4CheckVLAN, packet.GetARPCheckVLAN;
      rewrite HL3; mrun; eexists; (split; [reflexivity|]);
      cbn [pp out]; (split; [reflexivity|]); by rewrite !sent_dump.
Qed.

(** X1. A packet that is not ARP and from which no lookup key can be
    derived (it is not IPv4, or its IPv4 payload is not TCP, UDP or
    ICMP) is dropped by the translation function of either attachment
    point; the pair is left as it was and nothing is sent. *)
Theorem unsupported_packet_dropped self pkt e w :
  keyOf self pkt = None ->
  packet.GetARPCheckVLAN pkt = None ->
  exists w',
    translate self pkt e w = Ok (dirDROP, pkt) w' /\
    pp w' = pp w /\ sent (out w') = sent (out w).
Proof. apply translate_unsupported. Qed.

(** ** ARP replies and the ARP cache *)

Lemma handleARP_not_request self pkt e w :
  let arp := GetARPNoCheck pkt in
  packet.SwapBytesUint16 (Operation arp) ≠ packet.ARPRequest ->
  handleARP self pkt e w =
    Ok (arpDisposition (deref (pp w) self))
       (mkWorld
          (if packet.SwapBytesUint16 (Operation arp) =? packet.ARPReply
           then arpLearned (pp w) self arp else pp w)
          (out w)).
Proof.
  intros arp Hop. unfold handleARP. fold arp. mrun.
  apply Z.eqb_neq in Hop. rewrite Hop. cbn [negb].
  unfold arpDisposition, arpLearned.
  destruct (_ =? packet.ARPReply).
  - destruct self; cbn [deref assign set_arpTable KNIName PrivatePort PublicPort];
      destruct (bool_decide _); reflexivity.
  - destruct (bool_decide _); by destruct w.
Qed.

Lemma getMACForIP_hit self ip mac e w :
  arpTable (deref (pp w) self) !! ip = Some mac ->
  getMACForIP self ip e w = Ok (Some mac) w.
Proof. intros Hhit. unfold getMACForIP. mrun. by rewrite Hhit. Qed.

(** X2. An ARP packet that is not a request is never answered.  A
    reply binds, in the ARP cache of the attachment point that received
    it, the sender protocol address to the sender hardware address, and
    a later [getMACForIP] for that address finds it without sending
    anything; any other operation leaves the pair as it was.  The
    disposition is kernel fallback when the attachment point has a kernel
    interface, drop otherwise. *)
Theorem arp_reply_learned self pkt arp e w :
  let ip := packet.SwapBytesUint32 (packet.ArrayToIPv4 (SPA arp)) in
  L3 pkt = L3ARP arp ->
  packet.SwapBytesUint16 (Operation arp) ≠ packet.ARPRequest ->
  exists w',
    translate self pkt e w
    = Ok (arpDisposition (deref (pp w) self), pkt) w' /\
    sent (out w') = sent (out w) /\
    (packet.SwapBytesUint16 (Operation arp) = packet.ARPReply ->
     pp w' = arpLearned (pp w) self arp /\
     arpTable (deref (pp w') self) !! ip = Some (SHA arp) /\
     forall e2 o,
       getMACForIP self ip e2 (mkWorld (pp w') o)
       = Ok (Some (SHA arp)) (mkWorld (pp w') o)) /\
    (packet.SwapBytesUint16 (Operation arp) ≠ packet.ARPReply ->
     pp w' = pp w).
Proof.
  intros ip HL3 Hop.
  assert (Harp : GetARPNoCheck pkt = arp)
    by (unfold GetARPNoCheck; by rewrite HL3).
  rewrite (translate_ARP _ _ _ _ _ HL3).
  rewrite handleARP_not_request by (by rewrite Harp).
  cbn [pp out]. rewrite Harp.
  eexists. split; [reflexivity|]. cbn [pp out]. split_and!.
  - by rewrite !sent_dump.
  - intros Hreply. rewrite Hreply, Z.eqb_refl.
    assert (Hl : arpTable (deref (arpLearned (pp w) self arp) self) !! ip
                 = Some (SHA arp)).
    { unfold arpLearned. destruct self;
        cbn [deref assign PrivatePort PublicPort set_arpTable arpTable];
        apply lookup_insert_eq. }
    split; [reflexivity|]. split; [exact Hl|].
    intros e2 o. by apply getMACForIP_hit.
  - intros Hne. apply Z.eqb_neq in Hne. by rewrite Hne.
Qed.

(** X3. With a kernel interface on the attachment point, every ARP
    packet it receives is handed to the kernel interface and nothing is
    sent on the wire: a request is not answered and does not change the
    pair, whatever it asks for. *)
Theorem arp_to_kernel self pkt arp e w :
  L3 pkt = L3ARP arp ->
  KNIName (deref (pp w) self) ≠ "" ->
  exists w',
    translate self pkt e w = Ok (dirKNI, pkt) w' /\
    sent (out w') = sent (out w) /\
    (packet.SwapBytesUint16 (Operation arp) = packet.ARPRequest ->
     pp w' = pp w).
Proof.
  intros HL3 Hkni.
  destruct (decide (packet.SwapBytesUint16 (Operation arp) = packet.ARPRequest))
    as [Hreq|Hreq].
  - assert (Harp : GetARPNoCheck pkt = arp)
      by (unfold GetARPNoCheck; by rewrite HL3).
    rewrite (translate_ARP _ _ _ _ _ HL3).
    unfold handleARP. rewrite Harp. mrun. rewrite Hreq.
    cbn [Z.eqb Pos.eqb packet.ARPRequest negb].
    rewrite (bool_decide_eq_true_2 _ Hkni).
    eexists. split; [reflexivity|]. cbn [pp out].
    split; [by rewrite !sent_dump|done].
  - assert (Harp : GetARPNoCheck pkt = arp)
      by (unfold GetARPNoCheck; by rewrite HL3).
    rewrite (translate_ARP _ _ _ _ _ HL3).
    rewrite handleARP_not_request by (by rewrite Harp).
    cbn [pp out]. unfold arpDisposition.
    rewrite (bool_decide_eq_true_2 _ Hkni).
    eexists. split; [reflexivity|]. cbn [pp out].
    split; [by rewrite !sent_dump|done].
Qed.

(** X4. [getMACForIP] never waits.  When the cache of the attachment
    point does not resolve the address, it answers not-found, hands
    exactly one ARP request for that address to the wire (given a buffer
    from the packet pool) and leaves the pair, its caches included, as it
    was. *)
Theorem getMACForIP_miss_requests self ip e w :
  let p := deref (pp w) self in
  arpTable p !! ip = None ->
  mbufAvailable e = true ->
  exists w',
    getMACForIP self ip e w = Ok None w' /\
    pp w' = pp w /\
    sent (out w') = sent (out w) ++ [(Index p, arpRequestFor p ip)].
Proof.
  intros p Hmiss Hbuf. unfold getMACForIP, sendARPRequest. mrun. fold p.
  rewrite Hmiss, Hbuf. eexists. split; [reflexivity|]. cbn [pp out].
  split; [reflexivity|].
  rewrite !sent_app. cbn. by rewrite app_nil_r.
Qed.

(** ** The termination tracker as a function of the pair *)

Lemma checkTCPTermination_run hdr prt dir e w :
  checkTCPTermination hdr prt dir e w
  = Ok tt (mkWorld (tracked (pp w) hdr prt dir (now e)) (out w)).
Proof.
  unfold tracked.
  destruct (Z.eqb_spec (Z.land (TCPFlags hdr) common.TCPFlagFin) 0) as [Hf|Hf];
    cbn [negb].
  - destruct (Z.eqb_spec (Z.land (TCPFlags hdr) common.TCPFlagRst) 0)
      as [Hr|Hr]; cbn [negb].
    + destruct (Z.eqb_spec (Z.land (TCPFlags hdr) common.TCPFlagAck) 0)
        as [Ha|Ha]; cbn [negb].
      * unfold checkTCPTermination. rewrite Hf, Hr, Ha. cbn. by destruct w.
      * rewrite (checkTCPTermination_ACK _ _ _ _ _ Hf Hr Ha).
        destruct (finCount _ =? 2); [reflexivity|by destruct w].
    + by rewrite (checkTCPTermination_RST _ _ _ _ _ Hf Hr).
  - rewrite (checkTCPTermination_FIN _ _ _ _ _ Hf). cbv zeta.
    destruct (finCount _ =? 0); [reflexivity|].
    destruct (_ && _); [reflexivity|by destruct w].
Qed.

Lemma evict_tables_eq q protocol prt :
  tt_Load (PublicPort q) protocol (publicPairOf (PublicPort q) protocol prt)
  = None ->
  translationTable (PublicPort (evict q protocol prt))
  = translationTable (PublicPort q) /\
  translationTable (PrivatePort (evict q protocol prt))
  = translationTable (PrivatePort q).
Proof. intros Hn. unfold evict. by rewrite Hn. Qed.

(** X5. Closing a TCP flow through the tracker, from a slot whose FIN
    count is 0: a FIN seen in one direction, then a FIN seen in the
    opposite direction, then an ACK without FIN or RST remove the entry
    of the port from the public table; a FIN seen twice in the same
    direction followed by such an ACK leaves both translation tables as
    they were, with the count at 1. *)
Theorem tcp_close_sequence fin1 fin2 ack prt dirA dirB dirC e w :
  let pub := PublicPort (pp w) in
  let key := publicPairOf pub common.TCPNumber prt in
  directions_flip ->
  oppositeDirections dirA dirB ->
  Z.land (TCPFlags fin1) common.TCPFlagFin ≠ 0 ->
  Z.land (TCPFlags fin2) common.TCPFlagFin ≠ 0 ->
  Z.land (TCPFlags ack) common.TCPFlagFin = 0 ->
  Z.land (TCPFlags ack) common.TCPFlagRst = 0 ->
  Z.land (TCPFlags ack) common.TCPFlagAck ≠ 0 ->
  finCount (pm_get pub common.TCPNumber prt) = 0 ->
  (exists w',
     (checkTCPTermination fin1 prt dirA ;;;
      checkTCPTermination fin2 prt dirB ;;;
      checkTCPTermination ack prt dirC) e w = Ok tt w' /\
     tt_Load (PublicPort (pp w')) common.TCPNumber key = None /\
     (forall pri, tt_Load pub common.TCPNumber key = Some pri ->
        tt_Load (PrivatePort (pp w')) common.TCPNumber pri = None)) /\
  (exists w',
     (checkTCPTermination fin1 prt dirA ;;;
      checkTCPTermination fin2 prt dirA ;;;
      checkTCPTermination ack prt dirC) e w = Ok tt w' /\
     translationTable (PublicPort (pp w')) = translationTable pub /\
     translationTable (PrivatePort (pp w'))
     = translationTable (PrivatePort (pp w)) /\
     finCount (pm_get (PublicPort (pp w')) common.TCPNumber prt) = 1).
Proof.
  intros pub key Hflip Hopp Hf1 Hf2 Ha1 Ha2 Ha3 Hz.
  assert (HA : dirA = not8 dirB).
  { apply (oppositeDirections_not8 _ _ Hflip).
    destruct Hopp as [[-> ->]|[-> ->]]; [by right|by left]. }
  pose proof (not8_neq dirA) as HneqA.
  apply Z.eqb_neq in Hf1, Hf2, Ha3. apply Z.eqb_eq in Ha1, Ha2, Hz.
  unfold bind. rewrite !checkTCPTermination_run. cbn [pp out].
  set (q1 := tracked (pp w) fin1 prt dirA (now e)).
  assert (Hq1 : q1 = assign (pp w) Public
                  (pm_set pub common.TCPNumber prt
                     (set_fin (pm_get pub common.TCPNumber prt) 1 dirA))).
  { unfold q1, tracked. fold pub. by rewrite Hf1, Hz. }
  assert (Hs1 : pm_get (PublicPort q1) common.TCPNumber prt
                = set_fin (pm_get pub common.TCPNumber prt) 1 dirA).
  { rewrite Hq1. cbn [assign PublicPort]. apply pm_get_pm_set. }
  split.
  - set (q2 := tracked q1 fin2 prt dirB (now e)).
    assert (Hq2 : q2 = assign q1 Public
                    (pm_set (PublicPort q1) common.TCPNumber prt
                       (set_fin (pm_get (PublicPort q1) common.TCPNumber prt)
                          2 dirA))).
    { unfold q2, tracked. rewrite Hf2, Hs1.
      cbn [negb set_fin finCount terminationDirection Z.eqb Pos.eqb].
      rewrite <- HA, Z.eqb_refl. reflexivity. }
    assert (Hs2 : pm_get (PublicPort q2) common.TCPNumber prt
                  = set_fin (pm_get pub common.TCPNumber prt) 2 dirA).
    { rewrite Hq2. cbn [assign PublicPort]. rewrite pm_get_pm_set, Hs1.
      reflexivity. }
    assert (Hk2 : publicPairOf (PublicPort q2) common.TCPNumber prt = key).
    { unfold publicPairOf. by rewrite Hs2. }
    assert (Ht2 : translationTable (PublicPort q2) = translationTable pub).
    { rewrite Hq2, Hq1. reflexivity. }
    assert (Hq3 : tracked q2 ack prt dirC (now e)
                  = mkPortPair
                      (PrivatePort (evict q2 common.TCPNumber prt))
                      (pm_set (PublicPort (evict q2 common.TCPNumber prt))
                         common.TCPNumber prt (closedSlot (now e)))).
    { unfold tracked. rewrite Ha1, Ha2, Ha3, Hs2. reflexivity. }
    eexists. split; [reflexivity|]. cbn [pp]. rewrite Hq3.
    cbn [PublicPort PrivatePort].
    split.
    + unfold tt_Load, pm_set, set_portmap. cbn [translationTable].
      rewrite <- Hk2. apply (evict_public_gone q2).
    + intros pri Hpri. apply evict_private_gone.
      rewrite Hk2. unfold tt_Load in *. by rewrite Ht2.
  - assert (Hq2 : tracked q1 fin2 prt dirA (now e) = q1).
    { unfold tracked. rewrite Hf2, Hs1.
      cbn [negb set_fin finCount terminationDirection Z.eqb Pos.eqb andb].
      destruct (Z.eqb_spec dirA (not8 dirA)); [done|reflexivity]. }
    rewrite Hq2.
    assert (Hq3 : tracked q1 ack prt dirC (now e) = q1).
    { unfold tracked. rewrite Ha1, Ha2, Ha3, Hs1.
      cbn [negb set_fin finCount Z.eqb Pos.eqb]. reflexivity. }
    rewrite Hq3. eexists. split; [reflexivity|]. cbn [pp].
    rewrite Hs1. rewrite Hq1. split_and!; reflexivity.
Qed.

(** ** Allocation of a public port *)

Lemma evict_config q protocol prt :
  config (PrivatePort (evict q protocol prt)) = config (PrivatePort q) /\
  config (PublicPort (evict q protocol prt)) = config (PublicPort q).
Proof.
  unfold evict. by destruct (tt_Load (PublicPort q) protocol _).
Qed.

(** X6. When [allocateNewEgressConnection] succeeds it returns a public
    pair made of the address of the public attachment point and the
    allocated port; afterwards the public table maps that pair to the
    private pair, the private table maps the private pair back to it,
    and the slot of the port is fresh: used now, owned by the public
    address, FIN count 0, not static.  Nothing is emitted and the ARP
    caches are untouched. *)
Theorem allocation_round_trip protocol privEntry e w pubEntry w' :
  allocateNewEgressConnection protocol privEntry e w = Ok (Some pubEntry) w' ->
  addr pubEntry = Subnet_Addr (PublicPort (pp w)) /\
  tt_Load (PublicPort (pp w')) protocol pubEntry = Some privEntry /\
  tt_Load (PrivatePort (pp w')) protocol privEntry = Some pubEntry /\
  (exists prt,
     port pubEntry = uint16 prt /\
     pm_get (PublicPort (pp w')) protocol prt
     = mkPortMapEntry (now e) (addr pubEntry) 0 0 false) /\
  out w' = out w /\
  arpTable (PrivatePort (pp w')) = arpTable (PrivatePort (pp w)) /\
  arpTable (PublicPort (pp w')) = arpTable (PublicPort (pp w)).
Proof.
  unfold allocateNewEgressConnection. mrun.
  destruct (allocNewPort protocol e w) as [[prt|] w1|] eqn:Ea; try discriminate.
  apply allocNewPort_Some in Ea as (_ & _ & ->). cbn [pp out].
  intros [= <- <-]. cbn [pp out addr port PublicPort PrivatePort].
  pose proof (evict_config (pp w) protocol prt) as [_ Hc].
  injection Hc as _ Hsub _ _ _.
  pose proof (evict_arp (pp w) protocol prt) as [Hap Hau].
  split_and!.
  - exact Hsub.
  - unfold tt_Load, tt_Store, set_translationTable. cbn [translationTable].
    apply lookup_insert_eq.
  - unfold tt_Load, tt_Store, set_translationTable. cbn [translationTable].
    apply lookup_insert_eq.
  - exists prt. split; [reflexivity|].
    unfold tt_Store, set_translationTable, pm_get. cbn [portmap].
    unfold pm_set, set_portmap. cbn [portmap].
    by rewrite lookup_total_insert_eq.
  - reflexivity.
  - exact Hap.
  - exact Hau.
Qed.

(** ** What translation never does *)

#[global] Instance arpKept_frame : Frame arpKept.
Proof.
  split; unfold arpKept.
  - done.
  - intros w1 w2 w3 [? ?] [? ?]. split; etrans; eassumption.
  - done.
Qed.

#[global] Instance sameConfig_frame : Frame sameConfig.
Proof.
  split; unfold sameConfig.
  - done.
  - intros w1 w2 w3 [H1 H2] [H3 H4]. by rewrite H3, H4.
  - done.
Qed.

Lemma arpKept_deleteOldConnection protocol prt :
  preserves arpKept (deleteOldConnection protocol prt).
Proof.
  intros e w a w'. rewrite deleteOldConnection_run. intros [= _ <-].
  unfold arpKept. cbn [pp].
  destruct (evict_arp (pp w) protocol prt) as [-> ->]. done.
Qed.

Lemma sameConfig_deleteOldConnection protocol prt :
  preserves sameConfig (deleteOldConnection protocol prt).
Proof.
  intros e w a w'. rewrite deleteOldConnection_run. intros [= _ <-].
  unfold sameConfig. cbn [pp]. apply evict_config.
Qed.

#[local] Hint Resolve arpKept_frame sameConfig_frame
  arpKept_deleteOldConnection sameConfig_deleteOldConnection : preserves.

(** A write that keeps or extends the ARP cache of the attachment
    point. *)
Ltac arp_write :=
  idtac;
  match goal with
  | |- arpKept _ (mkWorld (assign _ ?r _) _) =>
      destruct r; split;
      cbn [pp assign deref PublicPort PrivatePort set_arpTable arpTable];
      first [done | apply dom_insert_subseteq]
  end.

(** A write that leaves the configuration of the attachment point. *)
Ltac config_write :=
  idtac;
  match goal with
  | |- sameConfig _ (mkWorld (assign _ ?r _) _) =>
      destruct r; split; reflexivity
  end.

Lemma arpKept_translate self pkt : preserves arpKept (translate self pkt).
Proof.
  destruct self; cbn [translate];
    unfold PrivateToPublicTranslation, PublicToPrivateTranslation,
      forwardToPublic, forwardToPrivate, parsePacketAndCheckARP,
      generateLookupKeyFromSrcAndHandleICMP,
      generateLookupKeyFromDstAndHandleICMP, setPacketSrcPort,
      setPacketDstPort, allocateNewEgressConnection, allocNewPort,
      checkTCPTermination, getMACForIP, sendARPRequest, handleARP, handleICMP;
    walk arp_write.
Qed.

Lemma sameConfig_translate self pkt : preserves sameConfig (translate self pkt).
Proof.
  destruct self; cbn [translate];
    unfold PrivateToPublicTranslation, PublicToPrivateTranslation,
      forwardToPublic, forwardToPrivate, parsePacketAndCheckARP,
      generateLookupKeyFromSrcAndHandleICMP,
      generateLookupKeyFromDstAndHandleICMP, setPacketSrcPort,
      setPacketDstPort, allocateNewEgressConnection, allocNewPort,
      checkTCPTermination, getMACForIP, sendARPRequest, handleARP, handleICMP;
    walk config_write.
Qed.

(** X7. Translation never forgets a link-layer address: an address
    that the ARP cache of an attachment point resolves before a call of
    either translation function is still resolved by it after the
    call. *)
Theorem arp_cache_never_forgets self pkt e w r w' side ip :
  translate self pkt e w = Ok r w' ->
  is_Some (arpTable (deref (pp w) side) !! ip) ->
  is_Some (arpTable (deref (pp w') side) !! ip).
Proof.
  intros Hrun Hin. apply arpKept_translate in Hrun as [Hpri Hpub].
  apply elem_of_dom. apply elem_of_dom in Hin.
  destruct side; cbn [deref] in *; [by apply Hpri|by apply Hpub].
Qed.

(** X8. Translation never reconfigures an attachment point: index,
    subnet address, MAC address, VLAN and kernel interface name of both
    attachment points are the same after a call of either translation
    function as before. *)
Theorem configuration_is_kept self pkt e w r w' side :
  translate self pkt e w = Ok r w' ->
  config (deref (pp w') side) = config (deref (pp w) side).
Proof.
  intros Hrun. apply sameConfig_translate in Hrun as [Hpri Hpub].
  destruct side; assumption.
Qed.

(** ** Egress creates entries for the flow of its packet only *)

Lemma noNewEntry_forwardToPublic pkt pktVLAN h pktTCP pktUDP pktICMP value :
  preserves noNewEntry
    (forwardToPublic pkt pktVLAN h pktTCP pktUDP pktICMP value).
Proof.
  unfold forwardToPublic, setPacketSrcPort. cbn [opposite]. walk same_tables.
Qed.

Lemma allocateNewEgressConnection_tables protocol privEntry e w pubEntry w' :
  allocateNewEgressConnection protocol privEntry e w = Ok (Some pubEntry) w' ->
  translationTable (PrivatePort (pp w'))
  ⊆ <[(protocol, privEntry) := pubEntry]> (translationTable (PrivatePort (pp w))) /\
  translationTable (PublicPort (pp w'))
  ⊆ <[(protocol, pubEntry) := privEntry]> (translationTable (PublicPort (pp w))).
Proof.
  unfold allocateNewEgressConnection. mrun.
  destruct (allocNewPort protocol e w) as [[prt|] w1|] eqn:Ea; try discriminate.
  apply allocNewPort_Some in Ea as (_ & _ & ->). cbn [pp out].
  intros [= <- <-]. cbn [pp PublicPort PrivatePort].
  pose proof (evict_config (pp w) protocol prt) as [_ Hc].
  injection Hc as _ Hsub _ _ _.
  unfold tt_Store, pm_set, set_portmap, set_translationTable.
  cbn [translationTable]. rewrite Hsub. split; apply insert_mono.
  - apply evict_private_table.
  - apply evict_public_table.
Qed.

(** X9. An egress packet that reaches the table lookup creates
    translation entries for its own flow only: every entry of the private
    table after the call was there before or is the entry of the key of
    the packet, and every entry of the public table after the call was
    there before or maps to the key of the packet. *)
Theorem egress_maps_only_its_flow pkt h l4 protocol key e w r w' :
  let priv := PrivatePort (pp w) in
  let pub := PublicPort (pp w) in
  L3 pkt = L3IPv4 h l4 ->
  egressKey pkt = Some (protocol, key) ->
  passesICMP Private pkt protocol key e w ->
  ~ forPrivateKernel priv pkt ->
  PrivateToPublicTranslation pkt e w = Ok r w' ->
  (forall k v, translationTable (PrivatePort (pp w')) !! k = Some v ->
     translationTable priv !! k = Some v \/ k = (protocol, key)) /\
  (forall k v, translationTable (PublicPort (pp w')) !! k = Some v ->
     translationTable pub !! k = Some v \/ (k.1 = protocol /\ v = key)).
Proof.
  intros priv pub HL3 Hkey Hpass Hkni.
  rewrite (egress_lookup _ _ _ _ _ _ _ HL3 Hkey Hpass Hkni).
  destruct (packet.ParseAllKnownL4ForIPv4 pkt) as [[pktTCP pktUDP] pktICMP].
  cbv zeta. fold priv.
  destruct (tt_Load priv protocol key) as [value|].
  - intros Hfwd. apply noNewEntry_forwardToPublic in Hfwd as [Hpub Hpri].
    cbn [pp refreshed assign PublicPort PrivatePort pm_set set_portmap
         translationTable] in Hpub, Hpri.
    split; intros k v Hkv; left;
      [eapply lookup_weaken, Hpri|eapply lookup_weaken, Hpub]; exact Hkv.
  - destruct (allocateNewEgressConnection _ _ _ _) as [[value|] w1|] eqn:Ea;
      [| |discriminate].
    + intros Hfwd. apply noNewEntry_forwardToPublic in Hfwd as [Hpub Hpri].
      apply allocateNewEgressConnection_tables in Ea as [Hapri Hapub].
      cbn [pp learned assign PublicPort PrivatePort set_arpTable
           translationTable] in Hapri, Hapub.
      split; intros k v Hkv.
      * eapply lookup_weaken in Hkv; [|exact Hpri].
        eapply lookup_weaken in Hkv; [|exact Hapri].
        apply lookup_insert_Some in Hkv as [[<- _]|[_ ?]]; [by right|by left].
      * eapply lookup_weaken in Hkv; [|exact Hpub].
        eapply lookup_weaken in Hkv; [|exact Hapub].
        apply lookup_insert_Some in Hkv as [[<- <-]|[_ ?]]; [by right|by left].
    + intros [= _ <-]. cbn [pp].
      unfold allocateNewEgressConnection in Ea. revert Ea. mrun.
      destruct (allocNewPort protocol e _) as [[p|] w2|] eqn:Eb; try discriminate.
      intros [= <-]. unfold allocNewPort in Eb. revert Eb. mrun.
      destruct (List.find _ _); [rewrite deleteOldConnection_run; discriminate|].
      intros [= <-]. cbn [pp learned assign PublicPort PrivatePort
        set_arpTable translationTable].
      split; intros k v Hkv; by left.
Qed.

(** ** Forwarding *)

Lemma views_cases pkt h l4 :
  L3 pkt = L3IPv4 h l4 ->
  (exists t, l4 = L4TCP t /\ NextProtoID h = common.TCPNumber /\
             packet.ParseAllKnownL4ForIPv4 pkt = (Some t, None, None)) \/
  (exists u, l4 = L4UDP u /\ NextProtoID h = common.UDPNumber /\
             packet.ParseAllKnownL4ForIPv4 pkt = (None, Some u, None)) \/
  (exists i, l4 = L4ICMP i /\ NextProtoID h = common.ICMPNumber /\
             packet.ParseAllKnownL4ForIPv4 pkt = (None, None, Some i)) \/
  packet.ParseAllKnownL4ForIPv4 pkt = (None, None, None).
Proof.
  intros HL3. unfold packet.ParseAllKnownL4ForIPv4. rewrite HL3.
  destruct l4 as [t|u|i|].
  - destruct (Z.eqb_spec (NextProtoID h) common.TCPNumber); eauto 10.
  - destruct (Z.eqb_spec (NextProtoID h) common.UDPNumber); eauto 10.
  - destruct (Z.eqb_spec (NextProtoID h) common.ICMPNumber); eauto 10.
  - eauto 10.
Qed.

Lemma tracked_keeps q hdr prt dir t :
  config (PrivatePort (tracked q hdr prt dir t)) = config (PrivatePort q) /\
  config (PublicPort (tracked q hdr prt dir t)) = config (PublicPort q) /\
  arpTable (PrivatePort (tracked q hdr prt dir t)) = arpTable (PrivatePort q) /\
  arpTable (PublicPort (tracked q hdr prt dir t)) = arpTable (PublicPort q).
Proof.
  pose proof (evict_config q common.TCPNumber prt) as [Hc1 Hc2].
  pose proof (evict_arp q common.TCPNumber prt) as [Ha1 Ha2].
  unfold tracked.
  repeat match goal with
         | |- context [if ?b then _ else _] => destruct b
         end; try done.
Qed.

Lemma afterTracker_keeps q pkt prt dir t :
  config (PrivatePort (afterTracker q pkt prt dir t)) = config (PrivatePort q) /\
  config (PublicPort (afterTracker q pkt prt dir t)) = config (PublicPort q) /\
  arpTable (PrivatePort (afterTracker q pkt prt dir t))
  = arpTable (PrivatePort q) /\
  arpTable (PublicPort (afterTracker q pkt prt dir t))
  = arpTable (PublicPort q).
Proof.
  unfold afterTracker. destruct (tcpView pkt); [apply tracked_keeps|done].
Qed.

Lemma getMACForIP_miss self ip e w :
  let p := deref (pp w) self in
  arpTable p !! ip = None ->
  mbufAvailable e = true ->
  getMACForIP self ip e w
  = Ok None (mkWorld (pp w)
               (out w ++ [EvDump (Index p) (arpRequestFor p ip) dirSEND;
                          EvSend (Index p) (arpRequestFor p ip)])).
Proof.
  intros p Hmiss Hbuf. unfold getMACForIP, sendARPRequest. mrun. fold p.
  rewrite Hmiss, Hbuf. unfold arpRequestFor. by rewrite <- app_assoc.
Qed.

(** The forwarding part of ingress translation, for a translated
    address that is not zero, from a world [w]. *)
Lemma forwardToPrivate_run pkt h l4 protocol key value e w :
  let views := packet.ParseAllKnownL4ForIPv4 pkt in
  let q := afterTracker (pp w) pkt (port key) pub2pri (now e) in
  let priv := PrivatePort (pp w) in
  let pub := PublicPort (pp w) in
  L3 pkt = L3IPv4 h l4 ->
  ingressKey pkt = Some (protocol, key) ->
  addr value ≠ 0 ->
  forwardToPrivate pkt (VLAN pkt) views.1.1 views.1.2 views.2 protocol key
    value e w
  = match arpTable priv !! addr value with
    | Some mac =>
        let pkt' :=
          setL4Checksum
            (mkPacket (mkEtherHdr mac (SrcMACAddress pub)) (retagged pkt priv)
               (L3IPv4
                  (setDstAddr (packet.SwapBytesUint32 (addr value)) h)
                  (setL4Dst (packet.SwapBytesUint16 (port value)) l4))) in
        Ok (dirSEND, pkt')
           (mkWorld q (out w ++ [EvDump (Index pub) pkt' dirSEND]))
    | None =>
        if mbufAvailable e then
          Ok (dirDROP, pkt)
             (mkWorld q
                (out w ++ [EvDump (Index priv) (arpRequestFor priv (addr value))
                             dirSEND;
                           EvSend (Index priv) (arpRequestFor priv (addr value));
                           EvDump (Index pub) pkt dirDROP]))
        else Fatal
    end.
Proof.
  intros views q priv pub HL3 Hkey Haddr. subst views q.
  unfold ingressKey in Hkey. rewrite HL3 in Hkey.
  apply Z.eqb_neq in Haddr.
  unfold forwardToPrivate. rewrite Haddr. cbn [negb opposite].
  pose proof (afterTracker_keeps (pp w) pkt (port key) pub2pri (now e))
    as (Hc1 & Hc2 & Ha1 & _).
  fold priv in Hc1, Ha1. fold pub in Hc2.
  injection Hc1 as Hi1 Hs1 Hm1 Hv1 _. injection Hc2 as Hi2 _ Hm2 _ _.
  unfold afterTracker, tcpView in *.
  destruct (views_cases pkt h l4 HL3)
    as [(t & -> & HP & Hv)|[(u & -> & HP & Hv)|[(i & -> & HP & Hv)|Hv]]];
    rewrite Hv in *; cbn [fst snd] in *;
    try discriminate; injection Hkey as <- <-; rewrite HP;
    cbn [Z.eqb Pos.eqb common.TCPNumber common.UDPNumber common.ICMPNumber];
    mrun; rewrite ?checkTCPTermination_run; cbn [pp out];
    (destruct (arpTable priv !! addr value) as [mac|] eqn:Harp;
     [ rewrite (getMACForIP_hit Private (addr value) mac)
         by (cbn [pp deref]; rewrite Ha1; exact Harp);
       unfold setPacketDstPort; mrun; cbn [fst snd];
       rewrite Hm2, Hv1, Hi2;
       unfold packet.mapL4, packet.mapIPv4, packet.setEther,
         packet.setVLAN, retagged, setL4Checksum;
       destruct (VLAN pkt); cbn [L3 Ether VLAN]; rewrite HL3;
       cbn [L3 Ether VLAN setL4Dst]; reflexivity
     | destruct (mbufAvailable e) eqn:Hbuf;
       [ rewrite getMACForIP_miss
           by (cbn [pp deref]; rewrite ?Ha1; first [exact Harp | exact Hbuf]);
         cbn [pp out deref]; rewrite Hi2;
         unfold arpRequestFor; rewrite Hi1, Hs1, Hm1, Hv1;
         rewrite <- !app_assoc; reflexivity
       | unfold getMACForIP, sendARPRequest; mrun; rewrite Ha1, Harp, Hbuf;
         reflexivity ] ]).
Qed.


(** The forwarding part of egress translation, for a public address
    that is not zero, from a world [w]. *)
Lemma forwardToPublic_run pkt h l4 protocol key value e w :
  let views := packet.ParseAllKnownL4ForIPv4 pkt in
  let q := afterTracker (pp w) pkt (port value) pri2pub (now e) in
  let priv := PrivatePort (pp w) in
  let pub := PublicPort (pp w) in
  let dst := packet.SwapBytesUint32 (DstAddr h) in
  L3 pkt = L3IPv4 h l4 ->
  egressKey pkt = Some (protocol, key) ->
  addr value ≠ 0 ->
  forwardToPublic pkt (VLAN pkt) h views.1.1 views.1.2 views.2 value e w
  = match arpTable pub !! dst with
    | Some mac =>
        let pkt' :=
          setL4Checksum
            (mkPacket (mkEtherHdr mac (SrcMACAddress priv)) (retagged pkt pub)
               (L3IPv4
                  (setSrcAddr (packet.SwapBytesUint32 (addr value)) h)
                  (setL4Src (packet.SwapBytesUint16 (port value)) l4))) in
        Ok (dirSEND, pkt')
           (mkWorld q (out w ++ [EvDump (Index priv) pkt' dirSEND]))
    | None =>
        if mbufAvailable e then
          Ok (dirDROP, pkt)
             (mkWorld q
                (out w ++ [EvDump (Index pub) (arpRequestFor pub dst) dirSEND;
                           EvSend (Index pub) (arpRequestFor pub dst);
                           EvDump (Index priv) pkt dirDROP]))
        else Fatal
    end.
Proof.
  intros views q priv pub dst HL3 Hkey Haddr. subst views q.
  unfold egressKey in Hkey. rewrite HL3 in Hkey.
  apply Z.eqb_neq in Haddr.
  unfold forwardToPublic. rewrite Haddr. cbn [negb opposite].
  pose proof (afterTracker_keeps (pp w) pkt (port value) pri2pub (now e))
    as (Hc1 & Hc2 & _ & Ha2).
  fold priv in Hc1. fold pub in Hc2, Ha2.
  injection Hc1 as Hi1 _ Hm1 _ _. injection Hc2 as Hi2 Hs2 Hm2 Hv2 _.
  unfold afterTracker, tcpView in *.
  destruct (views_cases pkt h l4 HL3)
    as [(t & -> & HP & Hv)|[(u & -> & HP & Hv)|[(i & -> & HP & Hv)|Hv]]];
    rewrite Hv in *; cbn [fst snd] in *;
    try discriminate; injection Hkey as <- <-;
    mrun; rewrite ?checkTCPTermination_run; cbn [pp out]; fold dst;
    (destruct (arpTable pub !! dst) as [mac|] eqn:Harp;
     [ rewrite (getMACForIP_hit Public dst mac)
         by (cbn [pp deref]; rewrite Ha2; exact Harp);
       unfold setPacketSrcPort; mrun; cbn [fst snd];
       rewrite Hm1, Hv2, Hi1;
       unfold packet.mapL4, packet.mapIPv4, packet.setEther,
         packet.setVLAN, retagged, setL4Checksum;
       destruct (VLAN pkt); cbn [L3 Ether VLAN]; rewrite HL3;
       cbn [L3 Ether VLAN setL4Src]; reflexivity
     | destruct (mbufAvailable e) eqn:Hbuf;
       [ rewrite getMACForIP_miss
           by (cbn [pp deref]; rewrite ?Ha2; first [exact Harp | exact Hbuf]);
         cbn [pp out deref]; rewrite Hi1;
         unfold arpRequestFor; rewrite Hi2, Hs2, Hm2, Hv2;
         rewrite <- !app_assoc; reflexivity
       | unfold getMACForIP, sendARPRequest; mrun; rewrite Ha2, Harp, Hbuf;
         reflexivity ] ]).
Qed.

(** X11. An egress packet whose lookup hits, with a public address
    that is not zero.  The slot of the public port is refreshed and a TCP
    segment goes through the termination tracker.  Then, if the public
    ARP cache resolves the destination of the packet, the packet is
    forwarded with its Ethernet destination set to the resolved MAC, its
    Ethernet source to the MAC of the private attachment point, its VLAN
    identifier to the VLAN of the public side, its IPv4 source to the
    public address and its source port (ICMP identifier) to the public
    port, the checksum setter of its protocol being applied last.  If
    the cache does not resolve it, the packet is dropped and exactly one
    ARP request for its destination is sent on the public side. *)
Theorem egress_forward pkt h l4 protocol key value e w :
  let pub := PublicPort (pp w) in
  let priv := PrivatePort (pp w) in
  let dst := packet.SwapBytesUint32 (DstAddr h) in
  let q := afterTracker (refreshed (pp w) protocol (port value) (now e)) pkt
             (port value) pri2pub (now e) in
  L3 pkt = L3IPv4 h l4 ->
  egressKey pkt = Some (protocol, key) ->
  passesICMP Private pkt protocol key e w ->
  ~ forPrivateKernel priv pkt ->
  tt_Load priv protocol key = Some value ->
  addr value ≠ 0 ->
  (forall mac, arpTable pub !! dst = Some mac ->
   exists w',
     PrivateToPublicTranslation pkt e w
     = Ok (dirSEND,
           setL4Checksum
             (mkPacket (mkEtherHdr mac (SrcMACAddress priv)) (retagged pkt pub)
                (L3IPv4
                   (setSrcAddr (packet.SwapBytesUint32 (addr value)) h)
                   (setL4Src (packet.SwapBytesUint16 (port value)) l4)))) w' /\
     pp w' = q /\ sent (out w') = sent (out w)) /\
  (arpTable pub !! dst = None -> mbufAvailable e = true ->
   exists w',
     PrivateToPublicTranslation pkt e w = Ok (dirDROP, pkt) w' /\
     pp w' = q /\
     sent (out w') = sent (out w) ++ [(Index pub, arpRequestFor pub dst)]).
Proof.
  intros pub priv dst q HL3 Hkey Hpass Hkni Hhit Haddr.
  pose proof (egress_lookup _ _ _ _ _ _ _ HL3 Hkey Hpass Hkni) as Hrun.
  cbv zeta in Hrun. fold priv in Hrun.
  pose proof (forwardToPublic_run pkt h l4 protocol key value e
                (mkWorld (refreshed (pp w) protocol (port value) (now e))
                   (out w ++ [EvDump (Index priv) pkt dirSEND]))
                HL3 Hkey Haddr) as Hfwd.
  cbv zeta in Hfwd. cbn [pp out] in Hfwd. fold q dst in Hfwd.
  destruct (packet.ParseAllKnownL4ForIPv4 pkt) as [[pktTCP pktUDP] pktICMP].
  cbn [fst snd] in Hfwd. rewrite Hhit in Hrun. cbn [out] in Hrun.
  rewrite Hfwd in Hrun. clear Hfwd.
  replace (arpTable (PublicPort (refreshed (pp w) protocol (port value) (now e))))
    with (arpTable pub) in Hrun by reflexivity.
  replace (retagged pkt (PublicPort (refreshed (pp w) protocol (port value) (now e))))
    with (retagged pkt pub) in Hrun by reflexivity.
  replace (arpRequestFor (PublicPort (refreshed (pp w) protocol (port value) (now e))) dst)
    with (arpRequestFor pub dst) in Hrun by reflexivity.
  cbn [refreshed assign PrivatePort PublicPort pm_set set_portmap
       SrcMACAddress Index] in Hrun.
  fold priv pub in Hrun.
  split.
  - intros mac Harp. rewrite Harp in Hrun. eexists. split; [exact Hrun|].
    cbn [pp out]. split; [reflexivity|]. by rewrite !sent_dump.
  - intros Harp Hbuf. rewrite Harp, Hbuf in Hrun.
    eexists. split; [exact Hrun|]. cbn [pp out]. split; [reflexivity|].
    rewrite !sent_app. cbn. by rewrite !app_nil_r.
Qed.


(** ** Stale ICMP flows *)

(** X13. With a kernel interface on the public side, an ingress ICMP
    packet addressed to the public address whose key has an entry that
    has been idle for longer than [connectionTimeout] is handed to the
    kernel interface: it is neither answered nor translated, and the
    stale entry is left in place. *)
Theorem stale_icmp_to_kernel pkt h icmp value e w :
  let pub := PublicPort (pp w) in
  let key := mkTuple (packet.SwapBytesUint32 (DstAddr h))
               (packet.SwapBytesUint16 (Identifier icmp)) in
  L3 pkt = L3IPv4 h (L4ICMP icmp) ->
  NextProtoID h = common.ICMPNumber ->
  packet.SwapBytesUint32 (DstAddr h) = Subnet_Addr pub ->
  KNIName pub ≠ "" ->
  tt_Load pub common.ICMPNumber key = Some value ->
  connectionTimeout
  < now e - lastused (pm_get pub common.ICMPNumber (port key)) ->
  exists w',
    PublicToPrivateTranslation pkt e w = Ok (dirKNI, pkt) w' /\
    pp w' = pp w /\ sent (out w') = sent (out w).
Proof.
  intros pub key HL3 Hproto Hself Hkni Hhit Hold.
  assert (Hip : GetIPv4NoCheck pkt = h) by (unfold GetIPv4NoCheck; by rewrite HL3).
  eexists. split; [|split].
  - apply (translate_ICMP_intercepted Public _ _ _ _ _ _ _ HL3 Hproto); [|done].
    rewrite handleICMP_run. cbn [pp out deref icmpKeyArg]. fold pub key.
    rewrite Hip, Hself, Z.eqb_refl. cbn [negb].
    unfold icmpToKNI. rewrite (bool_decide_eq_true_2 _ Hkni), Hhit.
    apply Z.ltb_lt in Hold. rewrite Hold. reflexivity.
  - reflexivity.
  - cbn [out]. by rewrite sent_dump.
Qed.

(** ** A flow, out and back *)

Lemma config_fields p p' :
  config p = config p' ->
  Index p = Index p' /\ Subnet_Addr p = Subnet_Addr p' /\
  SrcMACAddress p = SrcMACAddress p' /\ Vlan p = Vlan p' /\
  KNIName p = KNIName p'.
Proof. unfold config. by intros [= -> -> -> -> ->]. Qed.

Lemma allocateNewEgressConnection_Some protocol privEntry e w pubEntry w' :
  allocateNewEgressConnection protocol privEntry e w = Ok (Some pubEntry) w' ->
  exists prt,
    portStart <= prt < portEnd /\
    pubEntry = mkTuple (Subnet_Addr (PublicPort (pp w))) (uint16 prt) /\
    out w' = out w /\
    pp w'
    = mkPortPair
        (tt_Store (PrivatePort (evict (pp w) protocol prt)) protocol
           privEntry pubEntry)
        (tt_Store
           (pm_set (PublicPort (evict (pp w) protocol prt)) protocol prt
              (mkPortMapEntry (now e) (Subnet_Addr (PublicPort (pp w)))
                 0 0 false))
           protocol pubEntry privEntry).
Proof.
  unfold allocateNewEgressConnection. mrun.
  destruct (allocNewPort protocol e w) as [[prt|] w1|] eqn:Ea; try discriminate.
  apply allocNewPort_Some in Ea as (_ & Hrange & ->). cbn [pp out].
  pose proof (evict_config (pp w) protocol prt) as [_ Hc].
  apply config_fields in Hc as (_ & Hsub & _). rewrite Hsub.
  intros [= <- <-]. exists prt. split_and!; [lia|lia|reflexivity..].
Qed.

(** An ICMP packet with a lookup key: its views and the key handed to
    [handleICMP]. *)
Lemma icmp_key_views self pkt h l4 key :
  L3 pkt = L3IPv4 h l4 ->
  keyOf self pkt = Some (common.ICMPNumber, key) ->
  exists icmp,
    l4 = L4ICMP icmp /\ NextProtoID h = common.ICMPNumber /\
    match self with Public => Some key | Private => None end
    = icmpKeyArg self h icmp.
Proof.
  intros HL3 Hkey.
  destruct (views_cases pkt h l4 HL3)
    as [(t & -> & HP & Hv)|[(u & -> & HP & Hv)|[(i & -> & HP & Hv)|Hv]]];
    destruct self; cbn [keyOf] in Hkey;
    unfold ingressKey, egressKey in Hkey; rewrite HL3, Hv in Hkey;
    try discriminate; injection Hkey as Hp Hkk;
    try (rewrite HP in Hp; vm_compute in Hp; discriminate);
    exists i; subst key; cbn [icmpKeyArg]; eauto.
Qed.

Lemma translate_ICMP_fatal self pkt h icmp e w :
  L3 pkt = L3IPv4 h (L4ICMP icmp) ->
  NextProtoID h = common.ICMPNumber ->
  handleICMP self pkt (icmpKeyArg self h icmp) e
    (mkWorld (pp w) (out w ++ [EvDump (Index (deref (pp w) self)) pkt dirSEND]))
  = Fatal ->
  translate self pkt e w = Fatal.
Proof.
  intros HL3 Hproto Hrun.
  destruct self; cbn [translate icmpKeyArg deref] in *;
    unfold PrivateToPublicTranslation, PublicToPrivateTranslation,
      parsePacketAndCheckARP, packet.GetIPv4CheckVLAN,
      packet.ParseAllKnownL4ForIPv4,
      generateLookupKeyFromSrcAndHandleICMP,
      generateLookupKeyFromDstAndHandleICMP;
    rewrite HL3, Hproto; cbn [Z.eqb Pos.eqb common.ICMPNumber];
    mrun; rewrite Hrun; reflexivity.
Qed.

(** An egress packet that was forwarded went through the table lookup:
    [handleICMP] let it through and it was not for the kernel interface
    of the private side. *)
Lemma egress_forwarded_reached_lookup pkt h l4 protocol key e w out1 w1 :
  L3 pkt = L3IPv4 h l4 ->
  egressKey pkt = Some (protocol, key) ->
  PrivateToPublicTranslation pkt e w = Ok (dirSEND, out1) w1 ->
  passesICMP Private pkt protocol key e w /\
  ~ forPrivateKernel (PrivatePort (pp w)) pkt.
Proof.
  intros HL3 Hkey Hrun.
  assert (Hpass : passesICMP Private pkt protocol key e w).
  { intros ->.
    destruct (icmp_key_views Private pkt h l4 key HL3 Hkey)
      as (icmp & -> & HP & Hk).
    set (w0 := mkWorld (pp w)
                 (out w ++ [EvDump (Index (deref (pp w) Private)) pkt dirSEND])).
    pose proof (handleICMP_run Private pkt (icmpKeyArg Private h icmp) e w)
      as Hw.
    pose proof (handleICMP_run Private pkt (icmpKeyArg Private h icmp) e w0)
      as Hw0.
    cbv zeta in Hw, Hw0. cbn [pp out w0] in Hw0.
    destruct (negb (_ =? Subnet_Addr _)); [by rewrite Hk|].
    destruct (icmpToKNI _ _ _).
    { pose proof (translate_ICMP_intercepted Private _ _ _ _ _ _ _ HL3 HP Hw0)
        as Hx.
      cbn [translate] in Hx. rewrite Hx in Hrun by done. discriminate Hrun. }
    destruct (_ || _); [by rewrite Hk|].
    destruct (mbufAvailable e).
    - pose proof (translate_ICMP_intercepted Private _ _ _ _ _ _ _ HL3 HP Hw0)
        as Hx.
      cbn [translate] in Hx. rewrite Hx in Hrun by done. discriminate Hrun.
    - pose proof (translate_ICMP_fatal Private _ _ _ _ _ HL3 HP Hw0) as Hx.
      cbn [translate] in Hx. rewrite Hx in Hrun. discriminate Hrun. }
  split; [exact Hpass|]. intros Hkni.
  destruct (egress_to_kernel _ _ _ _ _ _ _ HL3 Hkey Hpass Hkni)
    as (w' & Hrun' & _).
  rewrite Hrun' in Hrun. discriminate Hrun.
Qed.

(** An ingress packet whose key has an entry used within
    [connectionTimeout] gets through [handleICMP] unless it is an echo
    request. *)
Lemma ingress_fresh_passes pkt h l4 protocol key value e w :
  let pub := PublicPort (pp w) in
  L3 pkt = L3IPv4 h l4 ->
  ingressKey pkt = Some (protocol, key) ->
  tt_Load pub protocol key = Some value ->
  now e - lastused (pm_get pub protocol (port key)) <= connectionTimeout ->
  (forall icmp, l4 = L4ICMP icmp ->
     ~ (icmpType icmp = common.ICMPTypeEchoRequest /\ icmpCode icmp = 0)) ->
  passesICMP Public pkt protocol key e w.
Proof.
  intros pub HL3 Hkey Hhit Hsoon Hecho ->.
  destruct (icmp_key_views Public pkt h l4 key HL3 Hkey)
    as (icmp & -> & HP & Hk).
  specialize (Hecho icmp eq_refl).
  assert (Hic : GetICMPNoCheck pkt = icmp)
    by (unfold GetICMPNoCheck; by rewrite HL3).
  rewrite handleICMP_run. cbv zeta. cbn [deref]. fold pub.
  destruct (negb (_ =? Subnet_Addr _)); [reflexivity|].
  unfold icmpToKNI. rewrite Hhit.
  apply Z.ltb_ge in Hsoon. rewrite Hsoon, andb_false_r, Hic.
  destruct (Z.eqb_spec (icmpType icmp) common.ICMPTypeEchoRequest) as [Ht|Ht];
    [|reflexivity].
  destruct (Z.eqb_spec (icmpCode icmp) 0) as [Hc|Hc]; [|reflexivity].
  destruct Hecho. by split.
Qed.

(** X14. A flow, out and back.  When the first packet of a flow that
    is not TCP, sent from an address that is not zero, is forwarded by
    egress translation, the private pair of the flow is bound to a public
    pair whose address is that of the public attachment point; and any
    ingress packet of the same protocol addressed to that public pair,
    other than an ICMP echo request (type echo request, code 0), that
    arrives within [connectionTimeout] is forwarded with its destination
    rewritten to the private pair of the flow and its Ethernet destination
    set to the MAC the first packet came from.  The port range is assumed
    to lie within the 16-bit ports. *)
Theorem egress_then_ingress pkt1 h1 l41 protocol key e1 w out1 w1 :
  let priv := PrivatePort (pp w) in
  let pub := PublicPort (pp w) in
  0 <= portStart -> portEnd <= 2 ^ 16 ->
  L3 pkt1 = L3IPv4 h1 l41 ->
  egressKey pkt1 = Some (protocol, key) ->
  tcpView pkt1 = None ->
  tt_Load priv protocol key = None ->
  addr key ≠ 0 ->
  PrivateToPublicTranslation pkt1 e1 w = Ok (dirSEND, out1) w1 ->
  exists pubPair,
    addr pubPair = Subnet_Addr pub /\
    tt_Load (PrivatePort (pp w1)) protocol key = Some pubPair /\
    tt_Load (PublicPort (pp w1)) protocol pubPair = Some key /\
    forall pkt2 h2 l42 e2 o,
      L3 pkt2 = L3IPv4 h2 l42 ->
      ingressKey pkt2 = Some (protocol, pubPair) ->
      (forall icmp, l42 = L4ICMP icmp ->
         ~ (icmpType icmp = common.ICMPTypeEchoRequest /\ icmpCode icmp = 0)) ->
      now e2 - now e1 <= connectionTimeout ->
      exists w2,
        PublicToPrivateTranslation pkt2 e2 (mkWorld (pp w1) o)
        = Ok (dirSEND,
              setL4Checksum
                (mkPacket
                   (mkEtherHdr (SAddr (Ether pkt1)) (SrcMACAddress pub))
                   (retagged pkt2 priv)
                   (L3IPv4
                      (setDstAddr (packet.SwapBytesUint32 (addr key)) h2)
                      (setL4Dst (packet.SwapBytesUint16 (port key)) l42))))
             w2.
Proof.
  intros priv pub Hlo Hhi HL3 Hkey Htcp Hmiss Haddr Hsend.
  destruct (egress_forwarded_reached_lookup _ _ _ _ _ _ _ _ _ HL3 Hkey Hsend)
    as [Hpass Hkni].
  revert Hsend.
  rewrite (egress_lookup _ _ _ _ _ _ _ HL3 Hkey Hpass Hkni).
  pose proof Htcp as Htcp'. unfold tcpView in Htcp'.
  destruct (packet.ParseAllKnownL4ForIPv4 pkt1) as [[pktTCP pktUDP] pktICMP]
    eqn:Hv1.
  cbn [fst snd] in Htcp'. subst pktTCP.
  cbv zeta. fold priv. rewrite Hmiss. cbn [out].
  destruct (allocateNewEgressConnection _ _ _ _) as [[value|] wa|] eqn:Ea;
    [|discriminate|discriminate].
  apply allocateNewEgressConnection_Some in Ea
    as (prt & Hrange & Hvalue & _ & Hpa).
  cbn [pp learned assign PublicPort PrivatePort] in Hvalue, Hpa.
  fold pub in Hvalue, Hpa.
  set (ql := learned (pp w) (addr key) (SAddr (Ether pkt1))) in *.
  intros Hfwd.
  (* the first packet was forwarded, so the tracker did not run and the
     pair is the one allocation left *)
  assert (Hw1 : pp w1 = pp wa).
  { revert Hfwd. unfold forwardToPublic.
    destruct (negb (addr value =? 0)); mrun; [|discriminate].
    unfold getMACForIP, sendARPRequest. mrun.
    destruct (arpTable (PublicPort (pp wa)) !! _).
    - unfold setPacketSrcPort.
      destruct pktUDP, pktICMP; mrun; try discriminate;
        by intros [= _ <-].
    - destruct (mbufAvailable e1); discriminate. }
  assert (Hu16 : uint16 prt = prt) by (unfold uint16; apply Z.mod_small; lia).
  pose proof (evict_config ql protocol prt) as [Hcpri Hcpub].
  exists value. rewrite Hw1, Hpa. cbn [PublicPort PrivatePort].
  split; [by rewrite Hvalue|].
  split; [unfold tt_Load, tt_Store, set_translationTable;
          cbn [translationTable]; apply lookup_insert_eq|].
  split; [unfold tt_Load, tt_Store, set_translationTable;
          cbn [translationTable]; apply lookup_insert_eq|].
  intros pkt2 h2 l42 e2 o HL32 Hkey2 Hecho Hsoon.
  set (q1 := mkPortPair _ _) in *.
  assert (Hhit : tt_Load (PublicPort q1) protocol value = Some key).
  { unfold q1, tt_Load, tt_Store, set_translationTable.
    cbn [PublicPort translationTable]. apply lookup_insert_eq. }
  assert (Hslot : pm_get (PublicPort q1) protocol (port value)
                  = mkPortMapEntry (now e1) (Subnet_Addr pub) 0 0 false).
  { rewrite Hvalue. cbn [port]. rewrite Hu16.
    unfold q1, tt_Store, set_translationTable, pm_get. cbn [PublicPort portmap].
    unfold pm_set, set_portmap. cbn [portmap].
    by rewrite lookup_total_insert_eq. }
  assert (Hpass2 : passesICMP Public pkt2 protocol value e2 (mkWorld q1 o)).
  { apply (ingress_fresh_passes pkt2 h2 l42 protocol value key e2
             (mkWorld q1 o) HL32 Hkey2 Hhit); [|exact Hecho].
    cbn [pp]. rewrite Hslot. exact Hsoon. }
  pose proof (ingress_hit pkt2 h2 l42 protocol value key e2 (mkWorld q1 o)
                HL32 Hkey2 Hpass2 Hhit) as Hrun.
  cbv zeta in Hrun. cbn [pp out] in Hrun. rewrite Hslot in Hrun.
  cbn [static lastused orb] in Hrun.
  apply Z.leb_le in Hsoon. rewrite Hsoon in Hrun.
  pose proof (forwardToPrivate_run pkt2 h2 l42 protocol value key e2
                (mkWorld (refreshed q1 protocol (port value) (now e2))
                   (out (mkWorld q1 o)
                    ++ [EvDump (Index (PublicPort q1)) pkt2 dirSEND]))
                HL32 Hkey2 Haddr) as Hfw2.
  cbv zeta in Hfw2. cbn [pp out] in Hfw2.
  destruct (packet.ParseAllKnownL4ForIPv4 pkt2) as [[pT pU] pI].
  cbn [fst snd] in Hfw2. cbn [out] in Hrun. rewrite Hfw2 in Hrun. clear Hfw2.
  assert (Hlearn : arpTable (PrivatePort (refreshed q1 protocol (port value)
                                            (now e2))) !! addr key
                   = Some (SAddr (Ether pkt1))).
  { unfold q1, refreshed, tt_Store, set_translationTable.
    cbn [assign PrivatePort arpTable].
    rewrite (proj1 (evict_arp _ _ _)).
    cbn [assign PrivatePort set_arpTable arpTable].
    apply lookup_insert_eq. }
  rewrite Hlearn in Hrun.
  apply config_fields in Hcpri as (_ & _ & _ & Hvl & _).
  apply config_fields in Hcpub as (_ & _ & Hmc & _ & _).
  replace (SrcMACAddress (PublicPort (refreshed q1 protocol (port value)
                                        (now e2))))
    with (SrcMACAddress pub) in Hrun
    by (symmetry; exact Hmc).
  replace (retagged pkt2 (PrivatePort (refreshed q1 protocol (port value)
                                         (now e2))))
    with (retagged pkt2 priv) in Hrun
    by (unfold retagged;
        change (Vlan (PrivatePort (refreshed q1 protocol (port value)
                                     (now e2))))
          with (Vlan (PrivatePort (evict ql protocol prt)));
        rewrite Hvl; reflexivity).
  eexists. exact Hrun.
Qed.

(** ** Translation returns *)

Lemma handleARP_returns self pkt e w :
  mbufAvailable e = true -> exists d w', handleARP self pkt e w = Ok d w'.
Proof.
  intros Hbuf.
  destruct (decide (packet.SwapBytesUint16 (Operation (GetARPNoCheck pkt))
                    = packet.ARPRequest)) as [Hreq|Hreq].
  - destruct (decide (KNIName (deref (pp w) self) = "")) as [Hk|Hk].
    + rewrite (handleARP_request self pkt e w Hreq Hk). cbv zeta. rewrite Hbuf.
      repeat destruct (bool_decide _); eauto.
    + unfold handleARP. mrun. rewrite Hreq.
      cbn [Z.eqb Pos.eqb packet.ARPRequest negb].
      rewrite (bool_decide_eq_true_2 _ Hk). eauto.
  - rewrite handleARP_not_request by exact Hreq. eauto.
Qed.

Lemma allocateNewEgressConnection_returns protocol privEntry e w :
  exists r w', allocateNewEgressConnection protocol privEntry e w = Ok r w'.
Proof.
  unfold allocateNewEgressConnection. mrun.
  destruct (allocNewPort_total protocol e w) as ([prt|] & w1 & ->); eauto.
Qed.

Lemma forwardToPrivate_returns pkt h l4 protocol key value e w :
  let views := packet.ParseAllKnownL4ForIPv4 pkt in
  L3 pkt = L3IPv4 h l4 ->
  ingressKey pkt = Some (protocol, key) ->
  mbufAvailable e = true ->
  exists r w',
    forwardToPrivate pkt (VLAN pkt) views.1.1 views.1.2 views.2 protocol key
      value e w = Ok r w'.
Proof.
  intros views HL3 Hkey Hbuf.
  destruct (decide (addr value = 0)) as [Hz|Hz].
  - unfold forwardToPrivate. rewrite Hz. cbn [Z.eqb negb]. mrun. eauto.
  - subst views.
    rewrite (forwardToPrivate_run _ _ _ _ _ _ _ _ HL3 Hkey Hz). cbv zeta.
    rewrite Hbuf. destruct (arpTable _ !! _); eauto.
Qed.

Lemma forwardToPublic_returns pkt h l4 protocol key value e w :
  let views := packet.ParseAllKnownL4ForIPv4 pkt in
  L3 pkt = L3IPv4 h l4 ->
  egressKey pkt = Some (protocol, key) ->
  mbufAvailable e = true ->
  exists r w',
    forwardToPublic pkt (VLAN pkt) h views.1.1 views.1.2 views.2 value e w
    = Ok r w'.
Proof.
  intros views HL3 Hkey Hbuf.
  destruct (decide (addr value = 0)) as [Hz|Hz].
  - unfold forwardToPublic. rewrite Hz. cbn [Z.eqb negb]. mrun. eauto.
  - subst views.
    rewrite (forwardToPublic_run _ _ _ _ _ _ _ _ HL3 Hkey Hz). cbv zeta.
    rewrite Hbuf. destruct (arpTable _ !! _); eauto.
Qed.

(** The ICMP test of the key generators either lets the packet through
    or settles what the translation function returns. *)
Lemma icmp_settled self pkt h l4 protocol key e w :
  L3 pkt = L3IPv4 h l4 ->
  keyOf self pkt = Some (protocol, key) ->
  mbufAvailable e = true ->
  passesICMP self pkt protocol key e w \/
  exists r w', translate self pkt e w = Ok r w'.
Proof.
  intros HL3 Hkey Hbuf.
  destruct (decide (protocol = common.ICMPNumber)) as [->|Hne];
    [|left; intros ?; done].
  destruct (icmp_key_views self pkt h l4 key HL3 Hkey)
    as (icmp & -> & HP & Hk).
  set (w0 := mkWorld (pp w)
               (out w ++ [EvDump (Index (deref (pp w) self)) pkt dirSEND])).
  pose proof (handleICMP_run self pkt (icmpKeyArg self h icmp) e w) as Hw.
  pose proof (handleICMP_run self pkt (icmpKeyArg self h icmp) e w0) as Hw0.
  cbv zeta in Hw, Hw0. cbn [pp out w0] in Hw0. rewrite Hbuf in Hw, Hw0.
  destruct (negb (_ =? Subnet_Addr _)).
  { left. intros _. rewrite Hk. exact Hw. }
  destruct (icmpToKNI _ _ _).
  { right. eexists _, _.
    by apply (translate_ICMP_intercepted self _ _ _ _ _ _ _ HL3 HP Hw0). }
  destruct (_ || _).
  { left. intros _. rewrite Hk. exact Hw. }
  right. eexists _, _.
  by apply (translate_ICMP_intercepted self _ _ _ _ _ _ _ HL3 HP Hw0).
Qed.

(** X15. The translation functions always return when the packet pool
    can provide a buffer, whatever the packet and the state of the pair:
    no header view is used where the packet has none, and a fatal exit
    can only follow a failed allocation of a packet buffer. *)
Theorem translation_returns self pkt e w :
  mbufAvailable e = true ->
  exists r w', translate self pkt e w = Ok r w'.
Proof.
  intros Hbuf.
  destruct (L3 pkt) as [h l4|arp|] eqn:HL3.
  - destruct (keyOf self pkt) as [[protocol key]|] eqn:Hkey.
    2: { destruct (translate_unsupported self pkt e w Hkey) as (w' & Hrun & _);
           [unfold packet.GetARPCheckVLAN; by rewrite HL3|eauto]. }
    destruct (icmp_settled self pkt h l4 protocol key e w HL3 Hkey Hbuf)
      as [Hpass|Hret]; [|exact Hret].
    destruct self; cbn [keyOf translate] in *.
    + destruct (decide (forPrivateKernel (PrivatePort (pp w)) pkt)) as [Hk|Hk].
      * destruct (egress_to_kernel _ _ _ _ _ _ _ HL3 Hkey Hpass Hk)
          as (w' & Hrun & _); eauto.
      * pose proof (egress_lookup _ _ _ _ _ _ _ HL3 Hkey Hpass Hk) as Hrun.
        pose proof (fun value w1 =>
                      forwardToPublic_returns pkt h l4 protocol key value e w1
                        HL3 Hkey Hbuf) as Hfw.
        cbv zeta in Hrun.
        destruct (packet.ParseAllKnownL4ForIPv4 pkt) as [[pT pU] pI].
        cbn [fst snd] in Hfw. rewrite Hrun.
        destruct (tt_Load _ _ _) as [value|]; [apply Hfw|]. cbn [out].
        destruct (allocateNewEgressConnection_returns protocol key e
                    (mkWorld (learned (pp w) (addr key) (SAddr (Ether pkt)))
                       (out w ++ [EvDump (Index (PrivatePort (pp w))) pkt
                                    dirSEND])))
          as ([value|] & w1 & ->); [apply Hfw|eauto].
    + destruct (tt_Load (PublicPort (pp w)) protocol key) as [value|] eqn:Hhit.
      * pose proof (ingress_hit _ _ _ _ _ _ _ _ HL3 Hkey Hpass Hhit) as Hrun.
        pose proof (fun w1 =>
                      forwardToPrivate_returns pkt h l4 protocol key value e w1
                        HL3 Hkey Hbuf) as Hfw.
        cbv zeta in Hrun.
        destruct (packet.ParseAllKnownL4ForIPv4 pkt) as [[pT pU] pI].
        cbn [fst snd] in Hfw. rewrite Hrun.
        destruct (_ || _); [apply Hfw|eauto].
      * destruct (ingress_miss pkt protocol key e w Hkey Hhit Hbuf)
          as (w' & Hrun & _). eauto.
  - rewrite (translate_ARP _ _ _ _ _ HL3).
    destruct (handleARP_returns self pkt e
                (mkWorld (pp w)
                   (out w ++ [EvDump (Index (deref (pp w) self)) pkt dirSEND]))
                Hbuf) as (d & w1 & ->). eauto.
  - destruct (translate_unsupported self pkt e w) as (w' & Hrun & _).
    + destruct self; cbn [keyOf]; unfold ingressKey, egressKey; by rewrite HL3.
    + unfold packet.GetARPCheckVLAN. by rewrite HL3.
    + eauto.
Qed.
End Properties.

(** * The properties on concrete packets *)

Section Scenarios.
#[local] Existing Instance nffConsts.
#[local] Existing Instance offloadServices.

(** The first segment of a private host establishes the flow. *)
Example egress_establishes :
  let r := PrivateToPublicTranslation (outSegment common.TCPFlagSyn) env0
             (freshWorld "") in
  fst <$> value_of r = Some dirSEND /\
  pp (world_of r (freshWorld "")) = establishedPair "" t0 0 0.
Proof. vm_compute. split; reflexivity. Qed.

(** C3 on a first FIN (with ACK) sent by the private host. *)
Lemma checkTCPTermination_fin_tracking_witness :
  exists w',
    checkTCPTermination (segmentHdr 0x11) 1024 pri2pub env0
      (mkWorld (establishedPair "" t0 0 0) []) = Ok tt w' /\
    finCount (pm_get (PublicPort (pp w')) common.TCPNumber 1024) = 1 /\
    terminationDirection (pm_get (PublicPort (pp w')) common.TCPNumber 1024)
    = pri2pub.
Proof.
  destruct (checkTCPTermination_fin_tracking (segmentHdr 0x11) 1024
              pri2pub pub2pri env0 (mkWorld (establishedPair "" t0 0 0) []))
    as (w' & Hrun & Hzero & _).
  - split; reflexivity.
  - left. split; reflexivity.
  - vm_compute. lia.
  - exists w'. split; [exact Hrun|]. apply Hzero. reflexivity.
Defined.

(** C4, as amended, on the ACK that follows a FIN from each side. *)
Lemma checkTCPTermination_last_ack_witness :
  exists w',
    checkTCPTermination (segmentHdr 0x10) 1024 pub2pri env0
      (mkWorld (establishedPair "" t0 2 pri2pub) []) = Ok tt w' /\
    tt_Load (PublicPort (pp w')) common.TCPNumber (mkTuple publicAddr 1024)
    = None /\
    tt_Load (PrivatePort (pp w')) common.TCPNumber (mkTuple hostAddr 4000)
    = None /\
    lastused (pm_get (PublicPort (pp w')) common.TCPNumber 1024)
    = t0 + (portReuseTimeout - connectionTimeout).
Proof.
  destruct (checkTCPTermination_last_ack (segmentHdr 0x10) 1024 pub2pri env0
              (mkWorld (establishedPair "" t0 2 pri2pub) []))
    as [Hclose _].
  - reflexivity.
  - reflexivity.
  - vm_compute. lia.
  - destruct Hclose as (w' & Hrun & Hpub & Hpri & Hslot & _); [reflexivity|].
    exists w'. split; [exact Hrun|]. split; [exact Hpub|].
    split; [apply Hpri; reflexivity|]. rewrite Hslot. reflexivity.
Defined.

(** C4 as stated fails with an idle timeout of one minute and a reuse
    delay of one second: the ACK that ends the handshake sets [lastused]
    of the port 59 seconds before now, not into the future. *)
Lemma last_ack_lastused_in_the_past :
  let w := mkWorld (establishedPair "" t0 2 pri2pub) [] in
  let hdr := segmentHdr 0x10 in
  let r := checkTCPTermination hdr 1024 pub2pri env0 w in
  let slot := pm_get (PublicPort (pp (world_of r w))) common.TCPNumber 1024 in
  Z.land (TCPFlags hdr) common.TCPFlagAck ≠ 0 /\
  Z.land (TCPFlags hdr) common.TCPFlagFin = 0 /\
  Z.land (TCPFlags hdr) common.TCPFlagRst = 0 /\
  finCount (pm_get (PublicPort (pp w)) common.TCPNumber 1024) = 2 /\
  value_of r = Some tt /\
  lastused slot = now env0 - 59000000000 /\
  lastused slot < now env0.
Proof. vm_compute. split_and!; try reflexivity. discriminate. Qed.

(** C5, as amended, on a RST sent by the external host. *)
Lemma checkTCPTermination_rst_witness :
  exists w',
    checkTCPTermination (segmentHdr 0x04) 1024 pub2pri env0
      (mkWorld (establishedPair "" t0 1 pri2pub) []) = Ok tt w' /\
    tt_Load (PublicPort (pp w')) common.TCPNumber (mkTuple publicAddr 1024)
    = None /\
    pm_get (PublicPort (pp w')) common.TCPNumber 1024 = zeroPortMapEntry.
Proof.
  destruct (checkTCPTermination_rst (segmentHdr 0x04) 1024 pub2pri env0
              (mkWorld (establishedPair "" t0 1 pri2pub) []))
    as (w' & Hrun & Hpub & _ & Hslot & _).
  - reflexivity.
  - vm_compute. lia.
  - exists w'. split; [exact Hrun|]. split; [exact Hpub|exact Hslot].
Defined.

(** C5 as stated fails on a segment that carries FIN together with RST:
    the FIN branch is taken, the count goes to 1 and the entry stays. *)
Lemma rst_with_fin_keeps_entry :
  let w := mkWorld (establishedPair "" t0 0 0) [] in
  let r := checkTCPTermination (segmentHdr 0x05) 1024 pri2pub env0 w in
  Z.land (TCPFlags (segmentHdr 0x05)) common.TCPFlagRst ≠ 0 /\
  value_of r = Some tt /\
  tt_Load (PublicPort (pp (world_of r w))) common.TCPNumber
    (mkTuple publicAddr 1024) = Some (mkTuple hostAddr 4000) /\
  tt_Load (PrivatePort (pp (world_of r w))) common.TCPNumber
    (mkTuple hostAddr 4000) = Some (mkTuple publicAddr 1024) /\
  pm_get (PublicPort (pp (world_of r w))) common.TCPNumber 1024
  = mkPortMapEntry t0 publicAddr 1 pri2pub false.
Proof. vm_compute. split_and!; try reflexivity. lia. Qed.

(** C6 on the request of the private host for the private address. *)
Lemma arp_request_answer_witness :
  exists w' reply,
    translate Private arpRequestPacket env0 (freshWorld "")
    = Ok (dirDROP, arpRequestPacket) w' /\
    sent (out w') = [(1, reply)] /\
    GetARPNoCheck reply
    = mkARPHdr (packet.SwapBytesUint16 packet.ARPReply)
        privateMAC (TPA arpRequest) hostMAC (SPA arpRequest).
Proof.
  destruct (arp_request_answer Private arpRequestPacket arpRequest env0
              (freshWorld "")) as [Hanswer _].
  - reflexivity.
  - reflexivity.
  - reflexivity.
  - destruct Hanswer as (w' & reply & Hrun & _ & Hsent & Hreply).
    + reflexivity.
    + reflexivity.
    + repeat split; vm_compute; first [reflexivity | discriminate].
    + repeat split; vm_compute; first [reflexivity | discriminate].
    + reflexivity.
    + exists w', reply. split; [exact Hrun|]. split; [exact Hsent|].
      rewrite Hreply. reflexivity.
Defined.

(** C7 on an echo request of the external host for the public address,
    without a kernel interface. *)
Lemma icmp_echo_to_self_witness :
  exists w' reply,
    translate Public pingPublic env0 (freshWorld "")
    = Ok (dirDROP, pingPublic) w' /\
    sent (out w') = [(0, reply)] /\
    reply = icmpPacket publicMAC remoteMAC publicAddr remoteAddr
              common.ICMPTypeEchoResponse 0 7.
Proof.
  destruct (icmp_echo_to_self Public pingPublic
              (GetIPv4NoCheck pingPublic) (GetICMPNoCheck pingPublic)
              env0 (freshWorld "")) as [Hecho _].
  - reflexivity.
  - reflexivity.
  - reflexivity.
  - reflexivity.
  - destruct Hecho as (w' & reply & Hrun & _ & Hsent & Hreply).
    + reflexivity.
    + reflexivity.
    + reflexivity.
    + exists w', reply. split; [exact Hrun|]. split; [exact Hsent|].
      rewrite Hreply. reflexivity.
Defined.

(** C1, as amended, on a segment for a public port that no flow has
    opened. *)
Lemma ingress_miss_never_maps_witness :
  exists w',
    PublicToPrivateTranslation (inSegment common.TCPFlagSyn) env0 (freshWorld "")
    = Ok (dirDROP, inSegment common.TCPFlagSyn) w' /\
    pp w' = freshPair "".
Proof.
  destruct (ingress_miss_never_maps (inSegment common.TCPFlagSyn)
              common.TCPNumber (mkTuple publicAddr 1024) env0 (freshWorld ""))
    as [Hdrop _].
  - reflexivity.
  - reflexivity.
  - reflexivity.
  - exact Hdrop.
Defined.

(** C1 as stated fails on an ICMP packet for the public address itself
    when the public side has a kernel interface: its key is not in the
    table and it is handed to the kernel interface, not dropped. *)
Lemma ingress_miss_to_kernel :
  let w := freshWorld "kni0" in
  let r := PublicToPrivateTranslation pingPublic env0 w in
  ingressKey pingPublic = Some (common.ICMPNumber, mkTuple publicAddr 7) /\
  tt_Load (PublicPort (pp w)) common.ICMPNumber (mkTuple publicAddr 7) = None /\
  value_of r = Some (dirKNI, pingPublic) /\
  dirKNI ≠ dirDROP.
Proof. vm_compute. split_and!; try reflexivity. discriminate. Qed.



(** C9 fails on an echo request: the private side has a kernel
    interface and the request is addressed to the private address of the
    translator, yet it is answered by the translator itself and dropped
    instead of being handed to the kernel interface. *)
Theorem egress_ping_for_kernel_is_answered :
  let w := freshWorld "kni0" in
  let r := PrivateToPublicTranslation pingPrivate env0 w in
  KNIName (PrivatePort (pp w)) ≠ "" /\
  dstAddrOf pingPrivate = Subnet_Addr (PrivatePort (pp w)) /\
  value_of r = Some (dirDROP, pingPrivate) /\
  sent (out (world_of r w))
  = [(1, icmpPacket privateMAC hostMAC privateAddr hostAddr
           common.ICMPTypeEchoResponse 0 7)].
Proof. vm_compute. split_and!; try reflexivity. discriminate. Qed.

End Scenarios.

Section Exhaustion.
#[local] Existing Instance onePortConsts.
#[local] Existing Instance offloadServices.

Lemma onePort_exhausted :
  poolExhausted (t0 + 1) (PublicPort (establishedPair "" t0 0 0))
    common.TCPNumber.
Proof.
  intros p Hp. assert (p = 1024) as -> by (cbn in Hp; lia).
  vm_compute. reflexivity.
Defined.

(** C8 on the first segment of a second private host while the only
    port of the pool is in use. *)
Lemma egress_pool_exhausted_witness :
  let w := mkWorld (establishedPair "" t0 0 0) [] in
  exists w',
    PrivateToPublicTranslation otherSyn (mkEnv (t0 + 1) true) w
    = Ok (dirDROP, otherSyn) w' /\
    warnings (out w') = ["Warning! Failed to allocate new connection"] /\
    PublicPort (pp w') = PublicPort (pp w) /\
    translationTable (PrivatePort (pp w')) = translationTable (PrivatePort (pp w)).
Proof.
  intros w.
  destruct (egress_pool_exhausted otherSyn (GetIPv4NoCheck otherSyn)
              (L4TCP (mkTCPHdr (packet.SwapBytesUint16 5000)
                        (packet.SwapBytesUint16 80) common.TCPFlagSyn 0))
              common.TCPNumber (mkTuple 0x0A000006 5000)
              (mkEnv (t0 + 1) true) w)
    as (w' & Hrun & Hwarn & _ & _ & Hpriv & _ & _ & Hpub).
  - reflexivity.
  - reflexivity.
  - intros Hc. discriminate Hc.
  - intros [Hk _]. apply Hk. reflexivity.
  - reflexivity.
  - exact onePort_exhausted.
  - exists w'. split; [exact Hrun|]. split; [exact Hwarn|].
    split; [exact Hpub|exact Hpriv].
Defined.

(** C10 in the same situation: the segment is dropped and the private
    ARP cache has learned the second host. *)
Lemma egress_miss_learns_sender_witness :
  let w := mkWorld (establishedPair "" t0 0 0) [] in
  exists w',
    PrivateToPublicTranslation otherSyn (mkEnv (t0 + 1) true) w
    = Ok (dirDROP, otherSyn) w' /\
    arpTable (PrivatePort (pp w')) !! 0x0A000006
    = Some [0x02; 0; 0; 0; 0; 0x06] /\
    arpTable (PrivatePort (pp w)) !! 0x0A000006 = None.
Proof.
  intros w.
  destruct (egress_miss_learns_sender otherSyn (GetIPv4NoCheck otherSyn)
              (L4TCP (mkTCPHdr (packet.SwapBytesUint16 5000)
                        (packet.SwapBytesUint16 80) common.TCPFlagSyn 0))
              common.TCPNumber (mkTuple 0x0A000006 5000)
              (mkEnv (t0 + 1) true) w)
    as (_ & _ & Hdrop).
  - reflexivity.
  - reflexivity.
  - intros Hc. discriminate Hc.
  - intros [Hk _]. apply Hk. reflexivity.
  - reflexivity.
  - destruct (Hdrop onePort_exhausted) as (w' & Hrun & _ & Harp).
    exists w'. split; [exact Hrun|]. split; [exact Harp|reflexivity].
Defined.

End Exhaustion.

(** * The further properties on concrete packets *)

Section FurtherScenarios.
#[local] Existing Instance nffConsts.
#[local] Existing Instance offloadServices.

(** X1 on a GRE packet of the private host. *)
Lemma unsupported_packet_dropped_witness :
  exists w',
    translate Private grePacket env0 (freshWorld "")
    = Ok (dirDROP, grePacket) w' /\
    pp w' = freshPair "" /\ sent (out w') = [].
Proof.
  destruct (unsupported_packet_dropped Private grePacket env0 (freshWorld ""))
    as (w' & Hrun & Hpp & Hsent).
  - reflexivity.
  - reflexivity.
  - exists w'. split; [exact Hrun|]. split; [exact Hpp|exact Hsent].
Defined.

(** X2 on the reply of the private host, without a kernel interface. *)
Lemma arp_reply_learned_witness :
  exists w',
    translate Private arpReplyPacket env0 (freshWorld "")
    = Ok (dirDROP, arpReplyPacket) w' /\
    sent (out w') = [] /\
    arpTable (PrivatePort (pp w')) !! hostAddr = Some hostMAC.
Proof.
  destruct (arp_reply_learned Private arpReplyPacket arpReply env0
              (freshWorld "")) as (w' & Hrun & Hsent & Hreply & _).
  - reflexivity.
  - vm_compute. discriminate.
  - destruct Hreply as (_ & Hlearn & _); [reflexivity|].
    exists w'. split; [exact Hrun|]. split; [exact Hsent|exact Hlearn].
Defined.

(** X3 on the request of the private host, with a kernel interface. *)
Lemma arp_to_kernel_witness :
  exists w',
    translate Private arpRequestPacket env0 (freshWorld "kni0")
    = Ok (dirKNI, arpRequestPacket) w' /\
    sent (out w') = [] /\ pp w' = freshPair "kni0".
Proof.
  destruct (arp_to_kernel Private arpRequestPacket arpRequest env0
              (freshWorld "kni0")) as (w' & Hrun & Hsent & Hpp).
  - reflexivity.
  - vm_compute. discriminate.
  - exists w'. split; [exact Hrun|]. split; [exact Hsent|].
    apply Hpp. reflexivity.
Defined.

(** X4 on the private side, for the private host before it is known. *)
Lemma getMACForIP_miss_requests_witness :
  exists w',
    getMACForIP Private hostAddr env0 (freshWorld "") = Ok None w' /\
    pp w' = freshPair "" /\
    sent (out w')
    = [(1, mkPacket (mkEtherHdr packet.broadcastMAC privateMAC) None
             (L3ARP (mkARPHdr (packet.SwapBytesUint16 packet.ARPRequest)
                       privateMAC
                       (packet.IPv4ToBytes (packet.SwapBytesUint32 privateAddr))
                       zeroMAC
                       (packet.IPv4ToBytes (packet.SwapBytesUint32 hostAddr)))))].
Proof.
  destruct (getMACForIP_miss_requests Private hostAddr env0 (freshWorld ""))
    as (w' & Hrun & Hpp & Hsent).
  - reflexivity.
  - reflexivity.
  - exists w'. split; [exact Hrun|]. split; [exact Hpp|].
    rewrite Hsent. vm_compute. reflexivity.
Defined.

(** X5 on the established flow: the private host closes, then the
    external host, then the private host acknowledges. *)
Lemma tcp_close_sequence_witness :
  exists w',
    (checkTCPTermination (segmentHdr 0x11) 1024 pri2pub ;;;
     checkTCPTermination (inSegmentHdr 0x11) 1024 pub2pri ;;;
     checkTCPTermination (segmentHdr 0x10) 1024 pri2pub) env0
      (mkWorld (establishedPair "" t0 0 0) []) = Ok tt w' /\
    tt_Load (PublicPort (pp w')) common.TCPNumber (mkTuple publicAddr 1024)
    = None /\
    tt_Load (PrivatePort (pp w')) common.TCPNumber (mkTuple hostAddr 4000)
    = None.
Proof.
  destruct (tcp_close_sequence (segmentHdr 0x11) (inSegmentHdr 0x11)
              (segmentHdr 0x10) 1024 pri2pub pub2pri pri2pub env0
              (mkWorld (establishedPair "" t0 0 0) []))
    as [(w' & Hrun & Hpub & Hpri) _].
  - split; reflexivity.
  - left. split; reflexivity.
  - vm_compute. discriminate.
  - vm_compute. discriminate.
  - reflexivity.
  - reflexivity.
  - vm_compute. discriminate.
  - reflexivity.
  - exists w'. split; [exact Hrun|]. split; [exact Hpub|].
    apply Hpri. reflexivity.
Defined.

(** X6 on the first flow of the private host. *)
Lemma allocation_round_trip_witness :
  let w := freshWorld "" in
  let r := allocateNewEgressConnection common.TCPNumber (mkTuple hostAddr 4000)
             env0 w in
  value_of r = Some (Some (mkTuple publicAddr 1024)) /\
  tt_Load (PublicPort (pp (world_of r w))) common.TCPNumber
    (mkTuple publicAddr 1024) = Some (mkTuple hostAddr 4000) /\
  tt_Load (PrivatePort (pp (world_of r w))) common.TCPNumber
    (mkTuple hostAddr 4000) = Some (mkTuple publicAddr 1024).
Proof.
  intros w r. split; [vm_compute; reflexivity|].
  destruct (allocation_round_trip common.TCPNumber (mkTuple hostAddr 4000)
              env0 w (mkTuple publicAddr 1024) (world_of r w))
    as (_ & Hpub & Hpri & _).
  - vm_compute. reflexivity.
  - split; [exact Hpub|exact Hpri].
Defined.

(** X7 on a RST of the external host: the flow is removed, the private
    host stays in the ARP cache. *)
Lemma arp_cache_never_forgets_witness :
  let w := mkWorld (establishedPair "" t0 0 0) [] in
  let pkt := inSegment common.TCPFlagRst in
  let r := translate Public pkt (mkEnv (t0 + 1) true) w in
  tt_Load (PrivatePort (pp (world_of r w))) common.TCPNumber
    (mkTuple hostAddr 4000) = None /\
  is_Some (arpTable (PrivatePort (pp (world_of r w))) !! hostAddr).
Proof.
  intros w pkt r. split; [vm_compute; reflexivity|].
  apply (arp_cache_never_forgets Public pkt (mkEnv (t0 + 1) true) w
           (result_of (dirDROP, pkt) r) (world_of r w) Private hostAddr).
  - vm_compute. reflexivity.
  - exists hostMAC. reflexivity.
Defined.

(** X8 on the segment that establishes the flow. *)
Lemma configuration_is_kept_witness :
  let w := freshWorld "" in
  let pkt := outSegment common.TCPFlagSyn in
  let r := translate Private pkt env0 w in
  config (PublicPort (pp (world_of r w)))
  = (0, publicAddr, publicMAC, 0, "").
Proof.
  intros w pkt r.
  change (config (deref (pp (world_of r w)) Public)
          = config (deref (pp w) Public)).
  apply (configuration_is_kept Private pkt env0 w
           (result_of (dirDROP, pkt) r) (world_of r w) Public).
  vm_compute. reflexivity.
Defined.

(** X9 on the first segment of a second private host. *)
Lemma egress_maps_only_its_flow_witness :
  let w := mkWorld (establishedPair "" t0 0 0) [] in
  let r := PrivateToPublicTranslation otherSyn (mkEnv (t0 + 1) true) w in
  fst <$> value_of r = Some dirSEND /\
  forall k v,
    translationTable (PrivatePort (pp (world_of r w))) !! k = Some v ->
    translationTable (PrivatePort (pp w)) !! k = Some v \/
    k = (common.TCPNumber, mkTuple 0x0A000006 5000).
Proof.
  intros w r. split; [vm_compute; reflexivity|].
  destruct (egress_maps_only_its_flow otherSyn (GetIPv4NoCheck otherSyn)
              (L4TCP (mkTCPHdr (packet.SwapBytesUint16 5000)
                        (packet.SwapBytesUint16 80) common.TCPFlagSyn 0))
              common.TCPNumber (mkTuple 0x0A000006 5000)
              (mkEnv (t0 + 1) true) w
              (result_of (dirDROP, otherSyn) r) (world_of r w))
    as [Hpri _].
  - reflexivity.
  - reflexivity.
  - intros Hc. discriminate Hc.
  - intros [Hk _]. apply Hk. reflexivity.
  - vm_compute. reflexivity.
  - exact Hpri.
Defined.


(** X11 on a segment of the private host for the established flow. *)
Lemma egress_forward_witness :
  exists w',
    PrivateToPublicTranslation (outSegment common.TCPFlagAck)
      (mkEnv (t0 + 1) true) (mkWorld (establishedPair "" t0 0 0) [])
    = Ok (dirSEND,
          tcpPacket privateMAC remoteMAC publicAddr remoteAddr 1024 80
            common.TCPFlagAck) w' /\
    pp w' = establishedPair "" (t0 + 1) 0 0 /\
    sent (out w') = [].
Proof.
  destruct (egress_forward (outSegment common.TCPFlagAck)
              (GetIPv4NoCheck (outSegment common.TCPFlagAck))
              (L4TCP (segmentHdr common.TCPFlagAck))
              common.TCPNumber (mkTuple hostAddr 4000)
              (mkTuple publicAddr 1024) (mkEnv (t0 + 1) true)
              (mkWorld (establishedPair "" t0 0 0) [])) as [Hfwd _].
  - reflexivity.
  - reflexivity.
  - intros Hc. discriminate Hc.
  - intros [Hk _]. apply Hk. reflexivity.
  - reflexivity.
  - vm_compute. discriminate.
  - destruct (Hfwd remoteMAC) as (w' & Hrun & Hpp & Hsent); [reflexivity|].
    exists w'. split; [exact Hrun|]. split; [|exact Hsent].
    rewrite Hpp. vm_compute. reflexivity.
Defined.


(** X13 on an echo reply that arrives after the flow went idle. *)
Lemma stale_icmp_to_kernel_witness :
  exists w',
    PublicToPrivateTranslation echoReplyIn envLate
      (mkWorld (echoFlowPair "kni0" t0) [])
    = Ok (dirKNI, echoReplyIn) w' /\
    pp w' = echoFlowPair "kni0" t0 /\ sent (out w') = [].
Proof.
  destruct (stale_icmp_to_kernel echoReplyIn (GetIPv4NoCheck echoReplyIn)
              (GetICMPNoCheck echoReplyIn) (mkTuple hostAddr 7) envLate
              (mkWorld (echoFlowPair "kni0" t0) []))
    as (w' & Hrun & Hpp & Hsent).
  - reflexivity.
  - reflexivity.
  - reflexivity.
  - vm_compute. discriminate.
  - reflexivity.
  - vm_compute. reflexivity.
  - exists w'. split; [exact Hrun|]. split; [exact Hpp|exact Hsent].
Defined.

(** X14 on a DNS query of the private host and its answer. *)
Lemma egress_then_ingress_witness :
  let w := freshWorld "" in
  let r := PrivateToPublicTranslation outDatagram env0 w in
  fst <$> value_of r = Some dirSEND /\
  exists w2,
    PublicToPrivateTranslation inDatagram (mkEnv (t0 + 1) true)
      (mkWorld (pp (world_of r w)) [])
    = Ok (dirSEND, udpPacket publicMAC hostMAC remoteAddr hostAddr 53 5353) w2.
Proof.
  intros w r. split; [vm_compute; reflexivity|].
  destruct (egress_then_ingress outDatagram (GetIPv4NoCheck outDatagram)
              (L4UDP (mkUDPHdr (packet.SwapBytesUint16 5353)
                        (packet.SwapBytesUint16 53) 0))
              common.UDPNumber (mkTuple hostAddr 5353) env0 w
              (snd (result_of (dirDROP, outDatagram) r)) (world_of r w))
    as (pubPair & _ & Hpri & _ & Hback).
  - vm_compute. discriminate.
  - vm_compute. discriminate.
  - reflexivity.
  - reflexivity.
  - reflexivity.
  - reflexivity.
  - vm_compute. discriminate.
  - vm_compute. reflexivity.
  - assert (Hpair : pubPair = mkTuple publicAddr 1024).
    { vm_compute in Hpri. by injection Hpri as <-. }
    subst pubPair.
    destruct (Hback inDatagram (GetIPv4NoCheck inDatagram)
                (L4UDP (mkUDPHdr (packet.SwapBytesUint16 53)
                          (packet.SwapBytesUint16 1024) 0))
                (mkEnv (t0 + 1) true) []) as (w2 & Hrun).
    + reflexivity.
    + reflexivity.
    + intros icmp Hc. discriminate Hc.
    + vm_compute. discriminate.
    + exists w2. rewrite Hrun. vm_compute. reflexivity.
Defined.

(** X15 on an echo request for the public address: it is answered when
    a buffer is available, and the process ends when none is. *)
Lemma translation_returns_witness :
  (exists r w', translate Public pingPublic env0 (freshWorld "") = Ok r w') /\
  translate Public pingPublic (mkEnv t0 false) (freshWorld "") = Fatal.
Proof.
  split.
  - apply (translation_returns Public pingPublic env0 (freshWorld "")).
    reflexivity.
  - vm_compute. reflexivity.
Defined.

End FurtherScenarios.
